(** * border.py: white borders for images, a shallow embedding

    The program is one Python module: [add_white_border] (open, rotate by
    EXIF orientation, proportional resize, pad in white, corrective resize,
    save), the JSON configuration store ([save_configuration],
    [load_selected_configuration], [get_all_config_files]), the batch
    driver [process_images], and what the main block does before it enters
    the event loop ([main]).

    Python values are modelled as the code has them: [int] is [Z], [float]
    is an IEEE binary64 value (the rational it denotes, rounded to nearest
    even after every operation, or an infinity), [str] is [string], a [dict]
    keyed by strings is a [gmap].  Effects (files, Tk widgets, modal dialogs,
    standard output, raised exceptions) are threaded through a state and
    exception monad over an explicit [World]. *)

From Stdlib Require Import ZArith QArith Qreduction Qabs Lia Bool Ascii.
From stdpp Require Import gmap strings list pretty functions.

Local Open Scope Z_scope.

(** ** Exceptions *)

Inductive exn :=
  | ValueError (msg : string)
  | TypeError (msg : string)
  | ZeroDivisionError
  | OverflowError
  | AttributeError
  | FileNotFoundError (path : string)
  | OSError (path : string)
  | UnidentifiedImageError (path : string)
  | JSONDecodeError (path : string)
  | TclError.

(** ** Python numbers *)

Module PyFloat.

(** A binary64 value that the code can produce: no operation of
    [add_white_border] yields a NaN, and the sign of a zero is never
    observed ([int(x)] and [x < 0] do not see it). *)
Inductive t :=
  | Finite (q : Q)
  | Infinity (negative : bool).

Definition pow2 (e : Z) : Q :=
  if 0 <=? e then inject_Z (2 ^ e) else (1 # Z.to_pos (2 ^ (- e)))%Q.

Definition scale2 (q : Q) (e : Z) : Q := (q * pow2 e)%Q.

(** binary64: 53 bits of precision, least exponent -1074. *)
Definition prec : Z := 53.
Definition emin : Z := -1074.
Definition emax : Z := 1024.
Definition fexp (e : Z) : Z := Z.max (e - prec) emin.

(** [mag q] is the [e] with [2^(e-1) <= |q| < 2^e], for [q <> 0]. *)
Definition mag (q : Q) : Z :=
  let e0 := Z.log2 (Z.abs (Qnum q)) - Z.log2 (Zpos (Qden q)) in
  if Qle_bool (pow2 e0) (Qabs q) then e0 + 1 else e0.

(** Nearest integer, ties to even. *)
Definition rne (q : Q) : Z :=
  let d := Zpos (Qden q) in
  let f := Qnum q / d in
  let r := Qnum q mod d in
  match 2 * r ?= d with
  | Lt => f
  | Gt => f + 1
  | Eq => if Z.even f then f else f + 1
  end.

(** Round to nearest even in binary64. *)
Definition round (x : Q) : t :=
  let q := Qred x in
  if Qnum q =? 0 then Finite 0%Q else
  let e := fexp (mag q) in
  let m := rne (scale2 q (- e)) in
  let r := Qred (scale2 (inject_Z m) e) in
  if Qle_bool (pow2 emax) (Qabs r) then Infinity (Qnum q <? 0) else Finite r.

(** [float(n)] for an [int] n: [OverflowError] beyond the binary64 range. *)
Definition of_int (n : Z) : exn + t :=
  match round (inject_Z n) with
  | Infinity _ => inl OverflowError
  | f => inr f
  end.

(** [a / b] on two [int]s: CPython rounds the exact quotient once. *)
Definition int_truediv (a b : Z) : exn + t :=
  if b =? 0 then inl ZeroDivisionError else
  match round (inject_Z a / inject_Z b)%Q with
  | Infinity _ => inl OverflowError
  | f => inr f
  end.

(** [x - y] on two floats, the left one finite in every use. *)
Definition sub (x y : t) : t :=
  match x, y with
  | Finite a, Finite b => round (a - b)%Q
  | Finite _, Infinity s => Infinity (negb s)
  | Infinity s, _ => Infinity s
  end.

(** [x / 2] for a float [x] and the [int] literal 2. *)
Definition half (x : t) : t :=
  match x with
  | Finite a => round (a / 2)%Q
  | Infinity s => Infinity s
  end.

(** [x < 0]. *)
Definition ltz (x : t) : bool :=
  match x with
  | Finite a => Qnum a <? 0
  | Infinity s => s
  end.

(** [int(x)]: truncation towards zero. *)
Definition to_int (x : t) : exn + Z :=
  match x with
  | Finite a => inr (Z.quot (Qnum a) (Zpos (Qden a)))
  | Infinity _ => inl OverflowError
  end.

End PyFloat.


(** ** Values the functions return, and the two kinds of number *)

Inductive pyval := PyNone | PyBool (b : bool).

(** [a is b]: [None], [True] and [False] are singletons. *)
Definition py_is (a b : pyval) : bool :=
  match a, b with
  | PyNone, PyNone => true
  | PyBool x, PyBool y => Bool.eqb x y
  | _, _ => false
  end.

(** Truth value of an object, as [if v:] tests it. *)
Definition py_truthy (v : pyval) : bool :=
  match v with PyNone => false | PyBool b => b end.

Inductive pynum := PInt (n : Z) | PFloat (x : PyFloat.t).

(** [int(v)] *)
Definition py_int (v : pynum) : exn + Z :=
  match v with PInt n => inr n | PFloat x => PyFloat.to_int x end.

(** ** Strings *)

Module Str.

Fixpoint take (n : nat) (s : string) : string :=
  match n, s with
  | S n', String c s' => String c (take n' s')
  | _, _ => ""
  end.

Fixpoint drop (n : nat) (s : string) : string :=
  match n, s with
  | S n', String _ s' => drop n' s'
  | _, _ => s
  end.

(** [s.rfind(c)], counting from [i] for the first character; -1 when absent. *)
Fixpoint rfind_from (i : Z) (c : ascii) (s : string) : Z :=
  match s with
  | "" => -1
  | String a s' =>
      let r := rfind_from (i + 1) c s' in
      if 0 <=? r then r else if Ascii.eqb a c then i else -1
  end.

Definition rfind (c : ascii) (s : string) : Z := rfind_from 0 c s.

Fixpoint all (p : ascii -> bool) (s : string) : bool :=
  match s with
  | "" => true
  | String a s' => p a && all p s'
  end.

Fixpoint rev_onto (acc s : string) : string :=
  match s with
  | "" => acc
  | String a s' => rev_onto (String a acc) s'
  end.

Definition rev (s : string) : string := rev_onto "" s.

(** [s.endswith(suffix)] *)
Definition endswith (s suffix : string) : bool :=
  String.prefix (rev suffix) (rev s).

Definition lower_ascii (c : ascii) : ascii :=
  let n := nat_of_ascii c in
  if (65 <=? n)%nat && (n <=? 90)%nat then ascii_of_nat (n + 32) else c.

(** [s.lower()] on ASCII text. *)
Fixpoint lower (s : string) : string :=
  match s with
  | "" => ""
  | String a s' => String (lower_ascii a) (lower s')
  end.

(** [s.replace(a, b)] for single characters. *)
Fixpoint replace (a b : ascii) (s : string) : string :=
  match s with
  | "" => ""
  | String c s' => String (if Ascii.eqb c a then b else c) (replace a b s')
  end.

(** Whitespace that [int()] strips from ASCII text: tab, line feed,
    vertical tab, form feed, carriage return and space. *)
Definition is_space (c : ascii) : bool :=
  let n := nat_of_ascii c in
  ((9 <=? n)%nat && (n <=? 13)%nat) || (n =? 32)%nat.

Fixpoint lstrip (s : string) : string :=
  match s with
  | String a s' => if is_space a then lstrip s' else s
  | "" => ""
  end.

Definition strip (s : string) : string := rev (lstrip (rev (lstrip s))).

End Str.

(** [int(s)] for a [str] of ASCII characters: optional surrounding
    whitespace, an optional sign, then decimal digits in which single
    underscores may separate digits.  Anything else raises [ValueError].
    (For text with other characters see [int_of_text] below.) *)
Fixpoint int_digits (acc : Z) (after_digit : bool) (s : string) : option Z :=
  match s with
  | "" => if after_digit then Some acc else None
  | String c s' =>
      match Ascii.is_nat c with
      | Some d => int_digits (acc * 10 + Z.of_nat d) true s'
      | None =>
          if Ascii.eqb c "_" && after_digit then int_digits acc false s' else None
      end
  end.

Definition int_of_str (s : string) : exn + Z :=
  let t := Str.strip s in
  let '(negative, body) :=
    match t with
    | String "-" r => (true, r)
    | String "+" r => (false, r)
    | _ => (false, t)
    end in
  match int_digits 0 false body with
  | Some n => inr (if negative : bool then - n else n)
  | None => inl (ValueError s)
  end.

(** ** os.path

    The program shells out to [explorer] and rewrites "/" to "\": it runs on
    Windows, where [os.path] is [ntpath] and both "\" and "/" separate. *)

Module os_path.

Definition sep : ascii := "\".
Definition altsep : ascii := "/".
Definition extsep : ascii := ".".

Definition is_sep (c : ascii) : bool := Ascii.eqb c sep || Ascii.eqb c altsep.

(** [genericpath._splitext(p, sep, altsep, extsep)] *)
Definition splitext (p : string) : string * string :=
  let sepIndex := Z.max (Str.rfind sep p) (Str.rfind altsep p) in
  let dotIndex := Str.rfind extsep p in
  if sepIndex <? dotIndex then
    (* skip all leading dots of the file name *)
    let leading := Str.take (Z.to_nat (dotIndex - (sepIndex + 1)))
                            (Str.drop (Z.to_nat (sepIndex + 1)) p) in
    if Str.all (fun c => Ascii.eqb c extsep) leading then (p, "")
    else (Str.take (Z.to_nat dotIndex) p, Str.drop (Z.to_nat dotIndex) p)
  else (p, "").

(** A leading drive letter, as [ntpath.splitroot] splits it off (UNC
    roots, which the Tk dialogs do not return for local files, are not
    told apart). *)
Definition splitdrive (p : string) : string * string :=
  match p with
  | String a (String ":" r) => (String a ":", r)
  | _ => ("", p)
  end.

(** What follows the last separator of [s]. *)
Fixpoint tail_after_sep (s : string) : string :=
  match s with
  | "" => ""
  | String a s' =>
      if Str.all (fun c => negb (is_sep c)) s then s else tail_after_sep s'
  end.

(** [os.path.basename(p)] *)
Definition basename (p : string) : string :=
  tail_after_sep (snd (splitdrive p)).

Definition ends_with_sep (s : string) : bool :=
  match Str.rev s with
  | String a _ => is_sep a
  | "" => false
  end.

(** [os.path.join(path, name)] for a [name] that has neither drive nor
    root, which is what [basename] returns. *)
Definition join (path name : string) : string :=
  let rest := snd (splitdrive path) in
  if negb (String.eqb rest "") && negb (ends_with_sep rest)
  then path +:+ String sep name
  else path +:+ name.


End os_path.

(** ** Images, files and the world the program runs in *)

(** The enumerations of the module. *)
Inductive Entries :=
  | WIDTH_ENTRY | HEIGHT_ENTRY | BORDER_SIZE_HEIGHT_ENTRY | POSTFIX_ENTRY.

Definition Entries_value (e : Entries) : string :=
  match e with
  | WIDTH_ENTRY => "output_width"
  | HEIGHT_ENTRY => "output_height"
  | BORDER_SIZE_HEIGHT_ENTRY => "height_border_size"
  | POSTFIX_ENTRY => "postfix"
  end.

Inductive Orientation := NORMAL | CLOCKWISE_90 | CLOCKWISE_180 | CLOCKWISE_270.

Definition Orientation_value (o : Orientation) : Z :=
  match o with
  | NORMAL => 1
  | CLOCKWISE_90 => 8
  | CLOCKWISE_180 => 3
  | CLOCKWISE_270 => 6
  end.

Definition last_json_data : string := "last_config".

(** The three angles the program passes to [Image.rotate]. *)
Inductive angle := Deg90 | Deg180 | Deg270.

Definition degrees (a : angle) : Z :=
  match a with Deg90 => 90 | Deg180 => 180 | Deg270 => 270 end.

(** A pixel buffer, kept as the operations that produced it from the pixels
    decoded from a source file (the resampling itself, a Lanczos filter in
    floating point, is not computed). *)
Inductive raster :=
  | Decoded (id : N)
  | Rotated (a : angle) (r : raster)
  | Resized (w h : Z) (r : raster)
  | Expanded (left_ top_ : Z) (fill : string) (r : raster).

(** A value of an EXIF tag: an [int], or something else. *)
Inductive exif_value := ExifInt (n : Z) | ExifOther.

Definition dpi_t : Type := Q * Q.

(** A [PIL.Image.Image] in memory.  [im_format] is the [format] attribute,
    [im_dpi] is [info.get("dpi")], [im_exif] is the mapping from tag numbers
    to values that [getexif()] returns. *)
Record image := {
  im_size : Z * Z;
  im_format : option string;
  im_dpi : option dpi_t;
  im_exif : gmap Z exif_value;
  im_pixels : raster
}.

(** An image file on disk.  [file_format] is the format its bytes are
    encoded in, whatever the file is called; [file_exif] is the EXIF block
    that PIL keeps in [info] when it opens the file, [file_dpi] the DPI it
    keeps there.  For a file that [Image.save] wrote, [file_quality] and
    [file_dpi] are the quality and the DPI that [save] was asked to write:
    each format stores a DPI in its own way (PNG in pixels per metre, GIF
    not at all), so what PIL reads back from such a file can differ from
    what was asked. *)
Record image_file := {
  file_size : Z * Z;
  file_format : string;
  file_quality : option Z;
  file_dpi : option dpi_t;
  file_exif : gmap Z exif_value;
  file_pixels : raster
}.

(** JSON documents as the configuration store reads and writes them. *)
Inductive json_scalar := JStr (s : string) | JInt (n : Z) | JNull.

Inductive json :=
  | JObject (members : gmap string json_scalar)
  | JOtherValue.

Inductive file :=
  | ImageFile (f : image_file)
  | JsonFile (doc : json)
  | OtherFile.

(** The Tk widgets of the form. *)
Inductive widget :=
  | width_entry | height_entry | border_size_height_entry | postfix_entry.

Global Instance widget_eq_dec : EqDecision widget.
Proof. solve_decision. Defined.

Global Instance Entries_eq_dec : EqDecision Entries.
Proof. solve_decision. Defined.

(** [all_entries], the dict built in the main block. *)
Definition all_entries (e : Entries) : widget :=
  match e with
  | WIDTH_ENTRY => width_entry
  | HEIGHT_ENTRY => height_entry
  | BORDER_SIZE_HEIGHT_ENTRY => border_size_height_entry
  | POSTFIX_ENTRY => postfix_entry
  end.

(** What the program shows or asks, in order. *)
Inductive event :=
  | ShowError (title message : string)
  | ShowWarning (title message : string)
  | ShowInfo (title message : string)
  | AskQuestion (title message : string)
  | AskString (title prompt : string)
  | AskOpenFilenames (title : string)
  | AskDirectory (title : string)
  | Printed (config : json)
  | Popen (args : list string).

Inductive answer := Yes | No.

(** The user in front of the form: what they reply to the modal dialog
    that comes up as the n-th event. *)
Record User := {
  reply_question : nat -> answer;
  reply_string : nat -> option string;
  reply_filenames : nat -> list string;
  reply_directory : nat -> string
}.

Record World := {
  fs : gmap string file;                 (* files, by path as it is spelled *)
  dirs : gset string;                    (* directories that exist *)
  can_write : string -> bool;            (* paths the OS lets us create or overwrite *)
  can_encode : string -> image -> Z -> option dpi_t -> bool;
                                         (* what a PIL format plug-in accepts: format,
                                            image, quality, dpi *)
  EXTENSION : gmap string string;        (* PIL.Image.EXTENSION *)
  unicode_int : string -> option Z;      (* int() on text that is not ASCII *)
  entry_text : widget -> string;         (* contents of the Entry widgets *)
  combo_text : string;                   (* load_combo.get() *)
  combo_values : list string;            (* load_combo['values'] *)
  trace : list event;
  user : User
}.

Definition set_fs (f : gmap string file) (w : World) : World :=
  {| fs := f; dirs := dirs w; can_write := can_write w; can_encode := can_encode w;
     EXTENSION := EXTENSION w; unicode_int := unicode_int w;
     entry_text := entry_text w; combo_text := combo_text w;
     combo_values := combo_values w; trace := trace w; user := user w |}.

Definition set_dirs (d : gset string) (w : World) : World :=
  {| fs := fs w; dirs := d; can_write := can_write w; can_encode := can_encode w;
     EXTENSION := EXTENSION w; unicode_int := unicode_int w;
     entry_text := entry_text w; combo_text := combo_text w;
     combo_values := combo_values w; trace := trace w; user := user w |}.

Definition set_entry_text (t : widget -> string) (w : World) : World :=
  {| fs := fs w; dirs := dirs w; can_write := can_write w; can_encode := can_encode w;
     EXTENSION := EXTENSION w; unicode_int := unicode_int w;
     entry_text := t; combo_text := combo_text w;
     combo_values := combo_values w; trace := trace w; user := user w |}.

Definition set_combo_values (v : list string) (w : World) : World :=
  {| fs := fs w; dirs := dirs w; can_write := can_write w; can_encode := can_encode w;
     EXTENSION := EXTENSION w; unicode_int := unicode_int w;
     entry_text := entry_text w; combo_text := combo_text w;
     combo_values := v; trace := trace w; user := user w |}.

Definition set_trace (t : list event) (w : World) : World :=
  {| fs := fs w; dirs := dirs w; can_write := can_write w; can_encode := can_encode w;
     EXTENSION := EXTENSION w; unicode_int := unicode_int w;
     entry_text := entry_text w; combo_text := combo_text w;
     combo_values := combo_values w; trace := t; user := user w |}.

(** ** The monad: a world threaded through, and exceptions *)

Definition M (A : Type) : Type := World -> (exn + A) * World.

Definition ret {A} (a : A) : M A := fun w => (inr a, w).

Definition raise {A} (e : exn) : M A := fun w => (inl e, w).

Definition bind {A B} (m : M A) (k : A -> M B) : M B :=
  fun w => match m w with
           | (inr a, w') => k a w'
           | (inl e, w') => (inl e, w')
           end.

(** A pure computation that may raise. *)
Definition lift {A} (r : exn + A) : M A := fun w => (r, w).

(** [try: body / except <handles>: handler] *)
Definition try_except {A} (body : M A) (handles : exn -> bool) (handler : exn -> M A) : M A :=
  fun w => match body w with
           | (inl e, w') => if handles e then handler e w' else (inl e, w')
           | r => r
           end.

Notation "x <- c1 ;; c2" := (bind c1 (fun x => c2))
  (at level 100, c1 at next level, right associativity).
Notation "c1 ;; c2" := (bind c1 (fun _ => c2))
  (at level 100, right associativity).

(** Exceptions in pure code. *)
Definition ebind {A B} (r : exn + A) (k : A -> exn + B) : exn + B :=
  match r with inr a => k a | inl e => inl e end.

(** An event is appended to the trace. *)
Definition emit (e : event) : M unit :=
  fun w => (inr tt, set_trace (trace w ++ [e]) w).

(** *** tkinter *)

Definition showerror (title message : string) : M unit := emit (ShowError title message).
Definition showwarning (title message : string) : M unit := emit (ShowWarning title message).
Definition showinfo (title message : string) : M unit := emit (ShowInfo title message).

(** [messagebox.askquestion]: returns 'yes' or 'no'. *)
Definition askquestion (title message : string) : M string :=
  fun w =>
    let r := reply_question (user w) (length (trace w)) in
    (inr (match r with Yes => "yes" | No => "no" end),
     set_trace (trace w ++ [AskQuestion title message]) w).

(** [simpledialog.askstring]: [None] when the dialog is cancelled. *)
Definition askstring (title prompt : string) : M (option string) :=
  fun w => (inr (reply_string (user w) (length (trace w))),
            set_trace (trace w ++ [AskString title prompt]) w).

Definition askopenfilenames (title : string) : M (list string) :=
  fun w => (inr (reply_filenames (user w) (length (trace w))),
            set_trace (trace w ++ [AskOpenFilenames title]) w).

Definition askdirectory (title : string) : M string :=
  fun w => (inr (reply_directory (user w) (length (trace w))),
            set_trace (trace w ++ [AskDirectory title]) w).

(** [entry.get()], and [entry.delete(0, tk.END)] followed by
    [entry.insert(0, value)]. *)
Definition Entry_get (e : widget) : M string := fun w => (inr (entry_text w e), w).

Definition Entry_delete_all (e : widget) : M unit :=
  fun w => (inr tt, set_entry_text (<[e := ""]> (entry_text w)) w).

(** Tk converts an [int] to its decimal text; [None] ends the argument list
    of the Tcl command, which then fails. *)
Definition Entry_insert0 (e : widget) (v : json_scalar) : M unit :=
  fun w =>
    match v with
    | JStr s => (inr tt, set_entry_text (<[e := s +:+ entry_text w e]> (entry_text w)) w)
    | JInt n => (inr tt, set_entry_text (<[e := pretty n +:+ entry_text w e]> (entry_text w)) w)
    | JNull => (inl TclError, w)
    end.

(** *** The file system *)

(** [open(path, "w")] and [json.dump(doc, f)] *)
Definition write_json (path : string) (doc : json) : M unit :=
  fun w =>
    if can_write w path then (inr tt, set_fs (<[path := JsonFile doc]> (fs w)) w)
    else (inl (OSError path), w).

(** [open(path, "r")] and [json.load(f)].  Where nothing is at the path,
    [open] raises [FileNotFoundError]; where a directory is, it raises
    another [OSError] (on Windows [PermissionError]). *)
Definition read_json (path : string) : M json :=
  fun w =>
    match fs w !! path with
    | None =>
        if bool_decide (path ∈ dirs w) then (inl (OSError path), w)
        else (inl (FileNotFoundError path), w)
    | Some (JsonFile doc) => (inr doc, w)
    | Some _ => (inl (JSONDecodeError path), w)
    end.

Definition no_separator (p : string) : bool :=
  Str.all (fun c => negb (os_path.is_sep c)) p.

(** [os.listdir()]: the entries of the working directory, which are the
    paths written without a separator. *)
Definition os_listdir (w : World) : list string :=
  List.filter no_separator ((map_to_list (fs w)).*1 ++ elements (dirs w)).

Definition os_path_exists (path : string) : M bool :=
  fun w => (inr (bool_decide (path ∈ dirs w) || bool_decide (is_Some (fs w !! path))), w).

Definition os_makedirs (path : string) : M unit :=
  fun w =>
    if can_write w path then (inr tt, set_dirs ({[path]} ∪ dirs w) w)
    else (inl (OSError path), w).

Definition subprocess_Popen (args : list string) : M unit := emit (Popen args).

(** *** PIL *)

(** The image a file decodes to: the plug-in that recognises the bytes sets
    [format]. *)
Definition decoded (f : image_file) : image :=
  {| im_size := file_size f; im_format := Some (file_format f);
     im_dpi := file_dpi f; im_exif := file_exif f; im_pixels := file_pixels f |}.

(** [Image.open(path)] *)
Definition Image_open (path : string) : M image :=
  fun w =>
    match fs w !! path with
    | None => (inl (FileNotFoundError path), w)
    | Some (ImageFile f) => (inr (decoded f), w)
    | Some _ => (inl (UnidentifiedImageError path), w)
    end.

(** [img.copy()].  Every image that a method of another image returns is
    built by [Image._new]: it takes over [info] (hence the DPI and the EXIF
    block) and leaves [format] at the class default.  Pillow documents the
    attribute so: the file format of the source file; for images created by
    the library itself, via a factory function or by running a method on an
    existing image, it is [None]. *)
Definition Image_copy (img : image) : image :=
  {| im_size := im_size img; im_format := None; im_dpi := im_dpi img;
     im_exif := im_exif img; im_pixels := im_pixels img |}.

(** [img.rotate(angle, expand=True)] for a multiple of 90 degrees, which
    PIL performs as a transposition. *)
Definition Image_rotate (img : image) (a : angle) : image :=
  let '(w, h) := im_size img in
  {| im_size := match a with Deg180 => (w, h) | _ => (h, w) end;
     im_format := None; im_dpi := im_dpi img; im_exif := im_exif img;
     im_pixels := Rotated a (im_pixels img) |}.

(** [img.resize(size, Image.LANCZOS)]: a copy when the size is already the
    one asked for, an error for an empty size. *)
Definition Image_resize (img : image) (size : Z * Z) : exn + image :=
  let '(w, h) := size in
  if bool_decide (im_size img = size) then inr (Image_copy img)
  else if (w <? 1) || (h <? 1) then inl (ValueError "height and width must be > 0")
  else inr {| im_size := (w, h); im_format := None; im_dpi := im_dpi img;
              im_exif := im_exif img; im_pixels := Resized w h (im_pixels img) |}.

(** [ImageOps.expand(img, border=(left, top), fill=fill)]: a new image of
    the padded size onto which [img] is pasted. *)
Definition ImageOps_expand (img : image) (border : Z * Z) (fill : string) : exn + image :=
  let '(left_, top_) := border in
  let '(w, h) := im_size img in
  let width := left_ + w + left_ in
  let height := top_ + h + top_ in
  if (width <? 0) || (height <? 0) then inl (ValueError "Width and height must be >= 0")
  else inr {| im_size := (width, height); im_format := None; im_dpi := None;
              im_exif := ∅; im_pixels := Expanded left_ top_ fill (im_pixels img) |}.

(** The format [Image.save] writes: the [format] argument when it is given
    and not empty, else the one registered for the lower-cased extension. *)
Definition save_format (w : World) (path : string) (format : option string) : option string :=
  match format with
  | Some f => if String.eqb f "" then EXTENSION w !! Str.lower (os_path.splitext path).2 else Some f
  | None => EXTENSION w !! Str.lower (os_path.splitext path).2
  end.

(** [img.save(path, format=format, quality=quality, dpi=dpi)].  The format
    is settled first; then the file is opened for writing, which truncates
    one that is there; when the plug-in then refuses the image, a file that
    [save] created is removed again and one that was there before is left
    with whatever was written.  No EXIF block is passed, so none is
    written.  The file is recorded under the path as it is spelled, with
    the quality and the DPI that were asked for. *)
Definition Image_save (img : image) (path : string) (format : option string)
    (quality : Z) (dpi : option dpi_t) : M unit :=
  fun w =>
    match save_format w path format with
    | None => (inl (ValueError "unknown file extension"), w)
    | Some f =>
        if negb (can_write w path) then (inl (OSError path), w)
        else if can_encode w f img quality dpi then
          (inr tt,
           set_fs (<[path := ImageFile {| file_size := im_size img; file_format := f;
                                          file_quality := Some quality; file_dpi := dpi;
                                          file_exif := ∅;
                                          file_pixels := im_pixels img |}]> (fs w)) w)
        else
          (inl (OSError path),
           match fs w !! path with
           | Some _ => set_fs (<[path := OtherFile]> (fs w)) w
           | None => w
           end)
    end.

(** ** add_white_border *)

(** [v is n] for an [int] constant n within the range that CPython interns. *)
Definition is_int (v : option exif_value) (n : Z) : bool :=
  match v with
  | Some (ExifInt m) => m =? n
  | _ => false
  end.

(** Lines 58-68: the rotation read off the EXIF data. *)
Definition rotate_by_exif (img_copy : image) : image :=
  let exif_data := im_exif img_copy in
  if bool_decide (exif_data = ∅) then img_copy else
  let orientation := exif_data !! 0x0112 in
  if is_int orientation (Orientation_value CLOCKWISE_90) then Image_rotate img_copy Deg90
  else if is_int orientation (Orientation_value CLOCKWISE_180) then Image_rotate img_copy Deg180
  else if is_int orientation (Orientation_value CLOCKWISE_270) then Image_rotate img_copy Deg270
  else img_copy.

(** Lines 77-85: the size the picture is resized to, and the border that
    is left on the other axis. *)
Definition resize_geometry (original_width original_height : Z)
    (output_width output_height longest_side_border_size : Z)
  : exn + (pynum * pynum * PyFloat.t) :=
  if original_width <? original_height then
    let resize_height := output_height - longest_side_border_size * 2 in
    ebind (PyFloat.int_truediv (resize_height * original_width) original_height)
      (fun resize_width =>
    ebind (PyFloat.of_int output_width) (fun output_width_f =>
    let calculated_border_size := PyFloat.half (PyFloat.sub output_width_f resize_width) in
    inr (PFloat resize_width, PInt resize_height, calculated_border_size)))
  else
    let resize_width := output_width - longest_side_border_size * 2 in
    ebind (PyFloat.int_truediv (resize_width * original_height) original_width)
      (fun resize_height =>
    ebind (PyFloat.of_int output_height) (fun output_height_f =>
    let calculated_border_size := PyFloat.half (PyFloat.sub output_height_f resize_height) in
    inr (PInt resize_width, PFloat resize_height, calculated_border_size))).

(** Lines 73-75: the path the result is saved to. *)
Definition new_output_image_path (output_image_path postfix : string) : string :=
  let '(base, ext) := os_path.splitext output_image_path in
  base +:+ postfix +:+ ext.

Definition crop_question (base : string) : string :=
  "The current configuration will crop the image " +:+ base +:+ ". Do you want to proceed?".

(** The world once the crop question for [output_image_path] has come up. *)
Definition asked (output_image_path : string) (w : World) : World :=
  set_trace (trace w ++ [AskQuestion "Proceed?"
                           (crop_question (os_path.splitext output_image_path).1)]) w.

Definition add_white_border (input_image_path output_image_path : string)
    (output_width output_height longest_side_border_size : Z) (postfix : string) : M pyval :=
  opened <- Image_open input_image_path ;;
  let img_copy := rotate_by_exif (Image_copy opened) in
  let '(original_width, original_height) := im_size img_copy in
  let base := (os_path.splitext output_image_path).1 in
  g <- lift (resize_geometry original_width original_height
                             output_width output_height longest_side_border_size) ;;
  let '(resize_width, resize_height, calculated_border_size) := g in
  proceed <- (if PyFloat.ltz calculated_border_size then
                result <- askquestion "Proceed?" (crop_question base) ;;
                ret (negb (String.eqb result "no"))
              else ret true) ;;
  if negb proceed then ret PyNone else
  rw <- lift (py_int resize_width) ;;
  rh <- lift (py_int resize_height) ;;
  resized_img <- lift (Image_resize img_copy (rw, rh)) ;;
  cb <- lift (PyFloat.to_int calculated_border_size) ;;
  bordered_img <- lift (ImageOps_expand resized_img
                          (if original_width <? original_height
                           then (cb, longest_side_border_size)
                           else (longest_side_border_size, cb)) "white") ;;
  bordered_img <- lift (Image_resize bordered_img (output_width, output_height)) ;;
  Image_save bordered_img (new_output_image_path output_image_path postfix)
             (im_format img_copy) 100 (im_dpi img_copy) ;;
  ret (PyBool true).

(** ** The configuration store *)

(** [str(e)] as the error dialog shows it; for an operating-system error the
    text is the platform's, the path stands for it here. *)
Definition exn_text (e : exn) : string :=
  match e with
  | ValueError m | TypeError m => m
  | ZeroDivisionError => "division by zero"
  | OverflowError => "integer division result too large for a float"
  | AttributeError => "object has no attribute 'get'"
  | FileNotFoundError p | OSError p | UnidentifiedImageError p | JSONDecodeError p => p
  | TclError => "wrong # args"
  end.

(** [get_all_config_files] *)
Definition get_all_config_files : M (list string) :=
  fun w =>
    (inr (map (fun f => (os_path.splitext f).1)
            (List.filter (fun f => Str.endswith f ".json"
                                   && negb (String.eqb f (last_json_data +:+ ".json")))
               (os_listdir w))), w).

Definition set_load_combo_values (v : list string) : M unit :=
  fun w => (inr tt, set_combo_values v w).

Definition save_configuration (entries : Entries -> widget) (source : option string) : M pyval :=
  config_name <- (if bool_decide (source = Some "button")
                  then askstring "Save Configuration" "Enter configuration name:"
                  else ret (Some last_json_data)) ;;
  match config_name with
  | Some (String c rest as name) =>
      let config_filename := name +:+ ".json" in
      v_width <- Entry_get (entries WIDTH_ENTRY) ;;
      v_height <- Entry_get (entries HEIGHT_ENTRY) ;;
      v_border <- Entry_get (entries BORDER_SIZE_HEIGHT_ENTRY) ;;
      v_postfix <- Entry_get (entries POSTFIX_ENTRY) ;;
      let config_data : gmap string json_scalar :=
        <[Entries_value POSTFIX_ENTRY := JStr v_postfix]>
        (<[Entries_value BORDER_SIZE_HEIGHT_ENTRY := JStr v_border]>
        (<[Entries_value HEIGHT_ENTRY := JStr v_height]>
        (<[Entries_value WIDTH_ENTRY := JStr v_width]> ∅))) in
      try_except
        (write_json config_filename (JObject config_data) ;;
         names <- get_all_config_files ;;
         set_load_combo_values names)
        (fun _ => true)
        (fun e => showerror "Error" ("Failed to save configuration: " +:+ exn_text e)) ;;
      ret PyNone
  | _ =>
      showwarning "Invalid Name" "Please enter a valid name for the configuration." ;;
      ret PyNone
  end.

(** The event Tk hands to a bound callback. *)
Inductive tk_event := ComboboxSelected.

(** [config.get(key, "")]: only a dict has [get]. *)
Definition config_get (config : json) (key : string) : exn + json_scalar :=
  match config with
  | JObject members => inr (default (JStr "") (members !! key))
  | JOtherValue => inl AttributeError
  end.

Definition is_FileNotFoundError (e : exn) : bool :=
  match e with FileNotFoundError _ => true | _ => false end.

Definition load_field (config : json) (e : widget) (key : Entries) : M unit :=
  Entry_delete_all e ;;
  v <- lift (config_get config (Entries_value key)) ;;
  Entry_insert0 e v.

Definition load_selected_configuration (event : option tk_event) : M pyval :=
  selected_file <- (match event with
                    | Some _ => fun w => (inr (combo_text w +:+ ".json"), w)
                    | None => ret (last_json_data +:+ ".json")
                    end) ;;
  if String.eqb selected_file "" then ret PyNone else
  try_except
    (config <- read_json selected_file ;;
     emit (Printed config) ;;
     load_field config width_entry WIDTH_ENTRY ;;
     load_field config height_entry HEIGHT_ENTRY ;;
     load_field config border_size_height_entry BORDER_SIZE_HEIGHT_ENTRY ;;
     load_field config postfix_entry POSTFIX_ENTRY)
    is_FileNotFoundError
    (fun _ => ret tt) ;;
  ret PyNone.

(** ** process_images *)

(** The [for] loop of lines 214-217. *)
Fixpoint process_images_loop (input_file_paths : list string) (output_directory : string)
    (output_width output_height height_border_size : Z) (postfix : string) : M unit :=
  match input_file_paths with
  | [] => ret tt
  | input_image_path :: rest =>
      let filename := os_path.basename input_image_path in
      let output_image_path := os_path.join output_directory filename in
      add_white_border input_image_path output_image_path
                       output_width output_height height_border_size postfix ;;
      process_images_loop rest output_directory
                          output_width output_height height_border_size postfix
  end.

(** [int(s)] for the text of a field.  Text that is all ASCII is read as
    [int_of_str] says.  Beyond ASCII, [int] also takes the decimal digits
    and the white space of the Unicode database the interpreter was built
    with (full-width digits, a no-break space): what it returns for such
    text is the world's [unicode_int], and when that is nothing it raises
    [ValueError], as for any text it does not take. *)
Definition is_ascii (s : string) : bool :=
  Str.all (fun c => (nat_of_ascii c <? 128)%nat) s.

Definition int_of_text (w : World) (s : string) : exn + Z :=
  if is_ascii s then int_of_str s
  else match unicode_int w s with
       | Some n => inr n
       | None => inl (ValueError s)
       end.

Definition int_ (s : string) : M Z := fun w => (int_of_text w s, w).

(** Lines 185-199: the [try] block that reads the four fields. *)
Definition read_fields (entries : Entries -> widget) : M (Z * Z * Z * string) :=
  t_width <- Entry_get (entries WIDTH_ENTRY) ;;
  output_width <- int_ t_width ;;
  t_height <- Entry_get (entries HEIGHT_ENTRY) ;;
  output_height <- int_ t_height ;;
  t_border <- Entry_get (entries BORDER_SIZE_HEIGHT_ENTRY) ;;
  height_border_size <- int_ t_border ;;
  postfix <- Entry_get (entries POSTFIX_ENTRY) ;;
  if String.eqb postfix ""
  then raise (TypeError "Add a postfix to avoid modifying the original photo.")
  else ret (output_width, output_height, height_border_size, postfix).

Definition is_ValueError_or_TypeError (e : exn) : bool :=
  match e with ValueError _ | TypeError _ => true | _ => false end.

Definition process_images (entries : Entries -> widget) : M pyval :=
  fields <- try_except
              (f <- read_fields entries ;; ret (Some f))
              is_ValueError_or_TypeError
              (fun e =>
                 match e with
                 | ValueError _ => showerror "Invalid Input" "Please enter valid values."
                 | _ => showerror "Invalid Input" (exn_text e)
                 end ;; ret None) ;;
  match fields with
  | None => ret PyNone
  | Some (output_width, output_height, height_border_size, postfix) =>
      save_configuration entries None ;;
      input_file_paths <- askopenfilenames "Select Input Images" ;;
      match input_file_paths with
      | [] => ret PyNone
      | _ =>
          output_directory <- askdirectory "Select Output Directory" ;;
          if String.eqb output_directory "" then ret PyNone else
          exists_ <- os_path_exists output_directory ;;
          (if negb exists_ then os_makedirs output_directory else ret tt) ;;
          process_images_loop input_file_paths output_directory
                              output_width output_height height_border_size postfix ;;
          showinfo "Process Complete" "Process Complete" ;;
          let output_directory := Str.replace "/" "\" output_directory in
          subprocess_Popen ["explorer"; output_directory] ;;
          ret PyNone
      end
  end.

(** ** The main block

    Lines 227-275 up to the call of [mainloop]: the four entries are created
    empty, the last-used record is loaded into them, and the dropdown is
    created, empty, with the names of the saved configurations as its
    values.  (Labels, buttons and bindings have no state of their own.) *)
Definition new_widgets : M unit :=
  fun w =>
    (inr tt,
     {| fs := fs w; dirs := dirs w; can_write := can_write w; can_encode := can_encode w;
        EXTENSION := EXTENSION w; unicode_int := unicode_int w;
     entry_text := fun _ => ""; combo_text := "";
        combo_values := []; trace := trace w; user := user w |}).

Definition main : M unit :=
  new_widgets ;;
  load_selected_configuration None ;;
  names <- get_all_config_files ;;
  set_load_combo_values names.

(** ** Sample worlds, for running the program on concrete inputs *)

Module Sample.

(** The entries of [PIL.Image.EXTENSION] for the file types that the file
    dialog of [process_images] offers. *)
Definition extensions : gmap string string :=
  list_to_map [(".png", "PNG"); (".jpg", "JPEG"); (".jpeg", "JPEG");
               (".tiff", "TIFF"); (".bmp", "BMP"); (".gif", "GIF")].

(** A source file of the given size and encoding at 72 dpi, with an EXIF
    orientation tag when one is given. *)
Definition photo (id : N) (width height : Z) (format : string)
    (orientation : option Z) : image_file :=
  {| file_size := (width, height); file_format := format; file_quality := None;
     file_dpi := Some (72 # 1, 72 # 1)%Q;
     file_exif := match orientation with
                  | Some n => {[ 0x0112 := ExifInt n ]}
                  | None => ∅
                  end;
     file_pixels := Decoded id |}.

(** A user who gives the same answer to every question, picks [files] and
    the directory C:/out, and names configurations "holiday". *)
Definition person (a : answer) (files : list string) : User :=
  {| reply_question := fun _ => a;
     reply_string := fun _ => Some "holiday";
     reply_filenames := fun _ => files;
     reply_directory := fun _ => "C:/out" |}.

Definition fields (width height border postfix : string) (e : widget) : string :=
  match e with
  | width_entry => width
  | height_entry => height
  | border_size_height_entry => border
  | postfix_entry => postfix
  end.

(** A world with the given files, field texts and user: every path can be
    written, every image is encoded.  The field texts of the samples are
    ASCII, so [unicode_int] is never consulted. *)
Definition world (files : gmap string file) (texts : widget -> string) (u : User) : World :=
  {| fs := files; dirs := ∅; can_write := fun _ => true;
     can_encode := fun _ _ _ _ => true; EXTENSION := extensions;
     unicode_int := fun _ => None;
     entry_text := texts; combo_text := ""; combo_values := [];
     trace := []; user := u |}.

(** The same world with encoders that are choosier: the JPEG writer does
    not take [dpi=None]. *)
Definition strict_encoder (format : string) (img : image) (quality : Z)
    (dpi : option dpi_t) : bool :=
  negb (String.eqb format "JPEG") || bool_decide (is_Some dpi).

Definition strict_world (files : gmap string file) (texts : widget -> string) (u : User)
  : World :=
  {| fs := files; dirs := ∅; can_write := fun _ => true;
     can_encode := strict_encoder; EXTENSION := extensions;
     unicode_int := fun _ => None;
     entry_text := texts; combo_text := ""; combo_values := [];
     trace := []; user := u |}.

(** Two photographs, one landscape and one portrait. *)
Definition two_photos : gmap string file :=
  {[ "C:/in/a.jpg" := ImageFile (photo 1 4000 3000 "JPEG" None);
     "C:/in/b.jpg" := ImageFile (photo 2 1000 2000 "JPEG" None) ]}.

End Sample.

(** ** Vocabulary for the properties of paths *)

(** Only dots; no dot at all. *)
Definition all_dots (s : string) : bool :=
  Str.all (fun c => Ascii.eqb c os_path.extsep) s.

Definition no_dot (s : string) : bool :=
  Str.all (fun c => negb (Ascii.eqb c os_path.extsep)) s.

(** Where the last separator of a path stands (-1 when it has none), and
    what follows it: the name of the file. *)
Definition sep_index (p : string) : Z :=
  Z.max (Str.rfind os_path.sep p) (Str.rfind os_path.altsep p).

Definition file_part (p : string) : string :=
  Str.drop (Z.to_nat (sep_index p + 1)) p.

(** A decimal digit. *)
Definition is_digit (c : ascii) : bool :=
  match Ascii.is_nat c with Some _ => true | None => false end.

(** ** Vocabulary for what a call writes *)

(** The pixels of the result, from the pixels and the size of the oriented
    picture: resized to [rw] x [rh] (left alone when it has that size),
    padded in white by [b] on the fixed axis and by [cb] on the other, and
    resampled to the target when the padded size is not the target. *)
Definition bordered_pixels (pixels : raster) (size : Z * Z) (ow oh b rw rh cb : Z) : raster :=
  let portrait := size.1 <? size.2 in
  let left_ := if portrait then cb else b in
  let top_ := if portrait then b else cb in
  let inner := if bool_decide (size = (rw, rh)) then pixels else Resized rw rh pixels in
  let padded := Expanded left_ top_ "white" inner in
  if bool_decide ((left_ + rw + left_, top_ + rh + top_) = (ow, oh))
  then padded else Resized ow oh padded.

(** The angle the picture is turned by for a value of the orientation tag
    (0x0112), if any. *)
Definition turn_of_tag (tag : option exif_value) : option angle :=
  match tag with
  | Some (ExifInt n) =>
      if n =? 8 then Some Deg90
      else if n =? 3 then Some Deg180
      else if n =? 6 then Some Deg270
      else None
  | _ => None
  end.

(** ** Vocabulary for what a call leaves alone *)



(** * Properties *)

(** ** Sanity checks of the string and path functions *)

Example splitext_probe1 : os_path.splitext "C:/out\photo.tar.gz" = ("C:/out\photo.tar", ".gz").
Proof. reflexivity. Qed.
Example splitext_probe2 : os_path.splitext "C:/out.d\.hidden" = ("C:/out.d\.hidden", "").
Proof. reflexivity. Qed.
Example splitext_probe3 : os_path.splitext "..json" = ("..json", "").
Proof. reflexivity. Qed.
Example splitext_probe4 : os_path.splitext "a.b/..x.json" = ("a.b/..x", ".json").
Proof. reflexivity. Qed.
Example basename_probe : os_path.basename "C:/Users/me/photo.jpg" = "photo.jpg".
Proof. reflexivity. Qed.
Example join_probe : os_path.join "C:/out" "photo.jpg" = "C:/out\photo.jpg"
  /\ os_path.join "C:/" "photo.jpg" = "C:/photo.jpg".
Proof. split; reflexivity. Qed.
Example int_probe : int_of_str " -1_000 " = inr (-1000) /\ int_of_str "12a" = inl (ValueError "12a")
  /\ int_of_str "" = inl (ValueError "") /\ int_of_str "+7" = inr 7 /\ int_of_str "1__0" = inl (ValueError "1__0").
Proof. repeat split; reflexivity. Qed.

(** ** Strings and paths *)

Lemma append_empty_r (s : string) : s +:+ "" = s.
Proof.
  induction s as [| c s IH]; [reflexivity |].
  change (String c (s +:+ "") = String c s). rewrite IH. reflexivity.
Qed.

Lemma append_json_nonempty (s : string) : String.eqb (s +:+ ".json") "" = false.
Proof. destruct s; reflexivity. Qed.

Lemma take_drop (n : nat) (s : string) : Str.take n s +:+ Str.drop n s = s.
Proof.
  revert s. induction n as [| n IH]; intros s.
  - destruct s; reflexivity.
  - destruct s as [| c s]; [reflexivity |].
    cbn [Str.take Str.drop].
    change (String c (Str.take n s +:+ Str.drop n s) = String c s).
    rewrite IH. reflexivity.
Qed.

(** [splitext] cuts the path in two. *)
Lemma splitext_append (p : string) :
  (os_path.splitext p).1 +:+ (os_path.splitext p).2 = p.
Proof.
  unfold os_path.splitext.
  repeat case_match; cbn [fst snd]; try apply append_empty_r; apply take_drop.
Qed.

Lemma append_assoc (a b c : string) : (a +:+ b) +:+ c = a +:+ (b +:+ c).
Proof.
  induction a as [| x a IH]; [reflexivity |].
  change (String x ((a +:+ b) +:+ c) = String x (a +:+ (b +:+ c))).
  rewrite IH. reflexivity.
Qed.

(** The postfix goes between the two parts of the output path. *)
Lemma new_output_image_path_split (outp postfix : string) :
  exists base ext,
    outp = base +:+ ext
    /\ os_path.splitext outp = (base, ext)
    /\ new_output_image_path outp postfix = base +:+ postfix +:+ ext.
Proof.
  exists (os_path.splitext outp).1, (os_path.splitext outp).2.
  split; [symmetry; apply splitext_append |].
  unfold new_output_image_path.
  destruct (os_path.splitext outp) as [base ext]. split; reflexivity.
Qed.

(** ** Sanity checks of binary64 rounding *)

Example round_tenth :
  PyFloat.round (1 # 10) = PyFloat.Finite (3602879701896397 # 36028797018963968).
Proof. vm_compute. reflexivity. Qed.

Example round_third :
  PyFloat.round (1 # 3) = PyFloat.Finite (6004799503160661 # 18014398509481984).
Proof. vm_compute. reflexivity. Qed.

Example round_negative :
  PyFloat.round (- 1 # 3) = PyFloat.Finite (- 6004799503160661 # 18014398509481984).
Proof. vm_compute. reflexivity. Qed.

Example round_ties_to_even :
  PyFloat.round (inject_Z (2 ^ 53 + 1)) = PyFloat.Finite (inject_Z (2 ^ 53))
  /\ PyFloat.round (inject_Z (2 ^ 53 + 3)) = PyFloat.Finite (inject_Z (2 ^ 53 + 4)).
Proof. split; vm_compute; reflexivity. Qed.

Example round_overflow :
  PyFloat.round (inject_Z (2 ^ 1024 - 2 ^ 970)) = PyFloat.Infinity false
  /\ PyFloat.round (inject_Z (2 ^ 1024 - 2 ^ 970 - 1))
     = PyFloat.Finite (inject_Z (2 ^ 1024 - 2 ^ 971)).
Proof. split; vm_compute; reflexivity. Qed.

Example round_subnormal :
  PyFloat.round (PyFloat.pow2 (-1075)) = PyFloat.Finite 0
  /\ PyFloat.round (3 * PyFloat.pow2 (-1076)) = PyFloat.Finite (PyFloat.pow2 (-1074)).
Proof. split; vm_compute; reflexivity. Qed.

Example truediv_probe :
  PyFloat.int_truediv 1 0 = inl ZeroDivisionError
  /\ PyFloat.int_truediv (2 ^ 1100) 3 = inl OverflowError
  /\ PyFloat.int_truediv 7 2 = inr (PyFloat.Finite (7 # 2))
  /\ PyFloat.to_int (PyFloat.Finite (-7 # 2)) = inr (-3).
Proof. repeat split; vm_compute; reflexivity. Qed.

(** ** Exactness of binary64 on small integers *)

Lemma pow2_nonneg (e : Z) : 0 <= e -> PyFloat.pow2 e = inject_Z (2 ^ e).
Proof.
  intros He. unfold PyFloat.pow2.
  destruct (Z.leb_spec 0 e) as [_ | Hlt]; [reflexivity | lia].
Qed.

Lemma rne_inject_Z (n : Z) : PyFloat.rne (n # 1)%Q = n.
Proof.
  unfold PyFloat.rne; cbn [Qnum Qden].
  rewrite Z.mod_1_r, Z.div_1_r. reflexivity.
Qed.

Lemma mag_inject_Z (z : Z) :
  z <> 0 -> PyFloat.mag (inject_Z z) = Z.log2 (Z.abs z) + 1.
Proof.
  intros Hz. unfold PyFloat.mag, inject_Z; cbn [Qnum Qden].
  change (Z.log2 1) with 0. rewrite Z.sub_0_r.
  assert (Hpos : 0 < Z.abs z) by lia.
  pose proof (Z.log2_nonneg (Z.abs z)) as Hnn.
  rewrite pow2_nonneg by exact Hnn.
  destruct (Z.log2_spec (Z.abs z) Hpos) as [Hlo _].
  assert (Hle : Qle_bool (inject_Z (2 ^ Z.log2 (Z.abs z))) (Qabs (z # 1)) = true).
  { apply Qle_bool_iff. unfold Qle, Qabs, inject_Z; cbn [Qnum Qden]. lia. }
  rewrite Hle. reflexivity.
Qed.

Lemma round_small_int (z : Z) :
  Z.abs z < 2 ^ 53 -> PyFloat.round (inject_Z z) = PyFloat.Finite (inject_Z z).
Proof.
  intros Hb. unfold PyFloat.round. rewrite inject_Z_Qred.
  cbn [Qnum inject_Z].
  destruct (Z.eqb_spec z 0) as [-> | Hz]; [reflexivity |].
  rewrite mag_inject_Z by exact Hz.
  assert (Hpos : 0 < Z.abs z) by lia.
  pose proof (Z.log2_nonneg (Z.abs z)) as Hnn.
  assert (Hlog : Z.log2 (Z.abs z) < 53).
  { apply Z.log2_lt_pow2; [exact Hpos | exact Hb]. }
  set (l := Z.log2 (Z.abs z)) in *.
  assert (He : PyFloat.fexp (l + 1) = l - 52).
  { unfold PyFloat.fexp, PyFloat.prec, PyFloat.emin. lia. }
  rewrite He.
  assert (Hsc : PyFloat.scale2 (inject_Z z) (- (l - 52)) = (z * 2 ^ (52 - l) # 1)%Q).
  { unfold PyFloat.scale2. rewrite pow2_nonneg by lia.
    replace (- (l - 52)) with (52 - l) by lia. reflexivity. }
  rewrite Hsc, rne_inject_Z.
  assert (Heq : (PyFloat.scale2 (inject_Z (z * 2 ^ (52 - l))) (l - 52) == inject_Z z)%Q).
  { unfold PyFloat.scale2, PyFloat.pow2.
    destruct (Z.leb_spec 0 (l - 52)) as [Hge | Hlt].
    - replace l with 52 by lia. cbn. unfold Qeq; cbn. lia.
    - unfold Qeq, Qmult, inject_Z; cbn [Qnum Qden].
      replace (- (l - 52)) with (52 - l) by lia.
      assert (0 < 2 ^ (52 - l)) by (apply Z.pow_pos_nonneg; lia).
      rewrite Pos.mul_1_l, Z2Pos.id by lia. lia. }
  rewrite (Qred_complete _ _ Heq), inject_Z_Qred.
  assert (Hno : Qle_bool (PyFloat.pow2 PyFloat.emax) (Qabs (inject_Z z)) = false).
  { apply not_true_is_false. intros Hc. apply Qle_bool_iff in Hc.
    rewrite pow2_nonneg in Hc by (unfold PyFloat.emax; lia).
    unfold Qle, Qabs, inject_Z in Hc; cbn [Qnum Qden] in Hc.
    assert (2 ^ 53 <= 2 ^ PyFloat.emax).
    { apply Z.pow_le_mono_r; unfold PyFloat.emax; lia. }
    lia. }
  rewrite Hno. reflexivity.
Qed.

Lemma round_Qeq (x y : Q) : (x == y)%Q -> PyFloat.round x = PyFloat.round y.
Proof.
  intros H. unfold PyFloat.round. rewrite (Qred_complete _ _ H). reflexivity.
Qed.

Lemma round_exact (x : Q) (z : Z) :
  (x == inject_Z z)%Q -> Z.abs z < 2 ^ 53 ->
  PyFloat.round x = PyFloat.Finite (inject_Z z).
Proof.
  intros Hx Hz. rewrite (round_Qeq _ _ Hx). apply round_small_int, Hz.
Qed.


(** ** Running monadic code *)

Lemma bind_inr {A B} (m : M A) (k : A -> M B) (w w' : World) (b : B) :
  bind m k w = (inr b, w') ->
  exists a w1, m w = (inr a, w1) /\ k a w1 = (inr b, w').
Proof.
  unfold bind. destruct (m w) as [[e | a] w1]; [discriminate |].
  intros H. exists a, w1. split; [reflexivity | exact H].
Qed.

Lemma lift_inr {A} (r : exn + A) (w w' : World) (a : A) :
  lift r w = (inr a, w') -> r = inr a /\ w' = w.
Proof. unfold lift. intros H. injection H as -> ->. split; reflexivity. Qed.

Lemma ret_inr {A} (x a : A) (w w' : World) :
  ret x w = (inr a, w') -> x = a /\ w' = w.
Proof. unfold ret. intros H. injection H as -> ->. split; reflexivity. Qed.

(** One step of a run that went through: a pure computation that did not
    raise. *)
Ltac lift_step H x Hx :=
  let w1 := fresh "w" in
  apply bind_inr in H; destruct H as (x & w1 & Hx & H);
  apply lift_inr in Hx; destruct Hx as [Hx ->].

Lemma Image_resize_size (img out : image) (size : Z * Z) :
  Image_resize img size = inr out -> im_size out = size.
Proof.
  unfold Image_resize. destruct size as [w h].
  case_bool_decide as Hsz.
  - intros [= <-]. exact Hsz.
  - destruct ((w <? 1) || (h <? 1)); [discriminate |]. intros [= <-]. reflexivity.
Qed.

Lemma rotate_by_exif_dpi (img : image) : im_dpi (rotate_by_exif img) = im_dpi img.
Proof.
  unfold rotate_by_exif, Image_rotate.
  destruct (im_size img) as [w h].
  repeat (case_match; try reflexivity).
Qed.

Lemma rotate_by_exif_format (img : image) :
  im_format img = None -> im_format (rotate_by_exif img) = None.
Proof.
  intros Hf. unfold rotate_by_exif, Image_rotate.
  destruct (im_size img) as [w h].
  repeat (case_match; try assumption; try reflexivity).
Qed.

Lemma add_white_border_success inp outp ow oh b postfix (w w' : World) :
  add_white_border inp outp ow oh b postfix w = (inr (PyBool true), w') ->
  exists src out,
    fs w !! inp = Some (ImageFile src)
    /\ save_format w (new_output_image_path outp postfix) None = Some (file_format out)
    /\ file_size out = (ow, oh)
    /\ file_quality out = Some 100
    /\ file_dpi out = file_dpi src
    /\ fs w' = <[new_output_image_path outp postfix := ImageFile out]> (fs w).
Proof.
  unfold add_white_border. intros H.
  apply bind_inr in H. destruct H as (opened & w1 & Hopen & H).
  unfold Image_open in Hopen.
  destruct (fs w !! inp) as [[src | doc |] |] eqn:Hsrc; try discriminate.
  injection Hopen as <- <-.
  set (img_copy := rotate_by_exif (Image_copy (decoded src))) in *.
  destruct (im_size img_copy) as [original_width original_height].
  lift_step H g Hg. destruct g as [[resize_width resize_height] calc].
  apply bind_inr in H. destruct H as (proceed & w2 & Hask & H).
  assert (Hw2 : fs w2 = fs w /\ EXTENSION w2 = EXTENSION w
                /\ can_write w2 = can_write w /\ can_encode w2 = can_encode w).
  { destruct (PyFloat.ltz calc).
    - apply bind_inr in Hask. destruct Hask as (result & w3 & Hq & Hr).
      apply ret_inr in Hr. destruct Hr as [_ ->].
      unfold askquestion in Hq. injection Hq as _ <-. repeat split.
    - apply ret_inr in Hask. destruct Hask as [_ ->]. repeat split. }
  destruct Hw2 as (Hfs & Hext & Hcw & Hce).
  destruct proceed; cbn [negb] in H; [| apply ret_inr in H; destruct H; discriminate].
  lift_step H rw Hrw. lift_step H rh Hrh. lift_step H resized_img Hrs.
  lift_step H cb Hcb. lift_step H bordered Hex. lift_step H final Hfin.
  apply bind_inr in H. destruct H as ([] & w3 & Hsave & H).
  apply ret_inr in H. destruct H as [_ ->].
  unfold Image_save in Hsave.
  assert (Hfmt : im_format img_copy = None).
  { apply rotate_by_exif_format. reflexivity. }
  rewrite Hfmt in Hsave.
  destruct (save_format w2 (new_output_image_path outp postfix) None) as [fmt |] eqn:Hsf;
    [| discriminate].
  destruct (can_write w2 _); cbn [negb] in Hsave; [| discriminate].
  destruct (can_encode w2 fmt final _ _); [| discriminate].
  injection Hsave as <-.
  exists src.
  exists {| file_size := im_size final; file_format := fmt; file_quality := Some 100;
            file_dpi := im_dpi img_copy; file_exif := ∅; file_pixels := im_pixels final |}.
  cbn [fs set_fs file_format file_size file_quality file_dpi].
  rewrite Hfs. unfold save_format in Hsf |- *. rewrite Hext in Hsf.
  split; [reflexivity |]. split; [exact Hsf |].
  split; [apply (Image_resize_size _ _ _ Hfin) |].
  split; [reflexivity |].
  split; [| reflexivity].
  subst img_copy. rewrite rotate_by_exif_dpi. reflexivity.
Qed.

(** ** The size of the written image *)

(** C1. Whenever [add_white_border] runs to completion (it returns [True]:
    nothing was raised and the crop question, if asked, was not declined),
    the image file found at the output path has exactly the target width and
    height, whatever the intermediate resize and border came to. *)
Theorem add_white_border_output_size inp outp ow oh b postfix (w w' : World) :
  add_white_border inp outp ow oh b postfix w = (inr (PyBool true), w') ->
  exists out,
    fs w' !! new_output_image_path outp postfix = Some (ImageFile out)
    /\ file_size out = (ow, oh).
Proof.
  intros H. apply add_white_border_success in H.
  destruct H as (src & out & _ & _ & Hsize & _ & _ & Hfs).
  exists out. split; [| exact Hsize].
  rewrite Hfs. apply lookup_insert_eq.
Qed.

(** The landscape photograph on a 2000x1000 canvas: the border that is left
    is negative, the user accepts the crop, and the padded 2000x1001 image
    is brought to 2000x1000 by the last resize. *)
Lemma add_white_border_output_size_witness :
  exists out,
    fs (add_white_border "C:/in/a.jpg" "C:/out\a.jpg" 2000 1000 50 "_b"
          (Sample.world Sample.two_photos (Sample.fields "" "" "" "")
                        (Sample.person Yes []))).2
      !! new_output_image_path "C:/out\a.jpg" "_b" = Some (ImageFile out)
    /\ file_size out = (2000, 1000).
Proof.
  apply (add_white_border_output_size "C:/in/a.jpg" "C:/out\a.jpg" 2000 1000 50 "_b"
           (Sample.world Sample.two_photos (Sample.fields "" "" "" "")
                         (Sample.person Yes []))).
  vm_compute. reflexivity.
Defined.

(** ** The 1000x2000 portrait on an 800x1600 canvas *)

Lemma portrait_geometry :
  resize_geometry 1000 2000 800 1600 40
  = inr (PFloat (PyFloat.Finite 760), PInt 1520, PyFloat.Finite 20).
Proof. vm_compute. reflexivity. Qed.

(** C2. A source that is 1000x2000 once oriented, an 800x1600 canvas and a
    border of 40: the picture is resized to a height of 1600 - 80 = 1520 and
    a width of 1520 * 1000 / 2000 = 760, the border left and right is
    (800 - 760) / 2 = 20, and, where the output file can be written, it is
    written with exactly 800x1600 pixels: the 760x1520 picture padded by 20
    and 40.  That the file can be written means: a format is registered for
    its extension, the path can be opened for writing, and the encoder of
    that format takes the one image the call saves, at quality 100 and with
    the DPI of the source. *)
Theorem portrait_scenario inp outp postfix fmt (w : World) (src : image_file) :
  fs w !! inp = Some (ImageFile src) ->
  im_size (rotate_by_exif (Image_copy (decoded src))) = (1000, 2000) ->
  save_format w (new_output_image_path outp postfix) None = Some fmt ->
  can_write w (new_output_image_path outp postfix) = true ->
  can_encode w fmt
    {| im_size := (800, 1600); im_format := None; im_dpi := None; im_exif := ∅;
       im_pixels := Expanded 20 40 "white"
                      (Resized 760 1520
                         (im_pixels (rotate_by_exif (Image_copy (decoded src))))) |}
    100 (file_dpi src) = true ->
  resize_geometry 1000 2000 800 1600 40
    = inr (PFloat (PyFloat.Finite 760), PInt 1520, PyFloat.Finite 20)
  /\ exists out,
       add_white_border inp outp 800 1600 40 postfix w
         = (inr (PyBool true),
            set_fs (<[new_output_image_path outp postfix := ImageFile out]> (fs w)) w)
       /\ file_size out = (800, 1600)
       /\ file_pixels out
          = Expanded 20 40 "white"
              (Resized 760 1520 (im_pixels (rotate_by_exif (Image_copy (decoded src))))).
Proof.
  intros Hsrc Hsize Hfmt Hcw Hce. split; [exact portrait_geometry |].
  unfold add_white_border, bind, Image_open. rewrite Hsrc.
  set (img := rotate_by_exif (Image_copy (decoded src))) in *.
  rewrite Hsize. unfold lift at 1. rewrite portrait_geometry.
  cbn [PyFloat.ltz Qnum Z.ltb Z.compare ret negb lift py_int PyFloat.to_int Qden].
  change (760 `quot` 1) with 760. change (20 `quot` 1) with 20.
  change (1000 <? 2000) with true. cbn iota.
  assert (Hrs : Image_resize img (760, 1520)
                = inr {| im_size := (760, 1520); im_format := None; im_dpi := im_dpi img;
                         im_exif := im_exif img;
                         im_pixels := Resized 760 1520 (im_pixels img) |}).
  { unfold Image_resize. rewrite Hsize.
    rewrite bool_decide_eq_false_2 by (intros [=]). reflexivity. }
  rewrite Hrs. cbn [ImageOps_expand im_size im_pixels].
  change ((20 + 760 + 20 <? 0) || (40 + 1520 + 40 <? 0)) with false. cbn iota.
  change (20 + 760 + 20) with 800. change (40 + 1520 + 40) with 1600.
  unfold Image_resize at 1. cbn [im_size].
  rewrite bool_decide_eq_true_2 by reflexivity.
  unfold Image_save.
  replace (im_format img) with (@None string)
    by (symmetry; apply rotate_by_exif_format; reflexivity).
  rewrite Hfmt, Hcw. cbn [negb].
  assert (Hdpi : im_dpi img = file_dpi src) by apply rotate_by_exif_dpi.
  rewrite Hdpi.
  change (Image_copy {| im_size := (800, 1600); im_format := None; im_dpi := None;
                        im_exif := ∅;
                        im_pixels := Expanded 20 40 "white"
                                       (Resized 760 1520 (im_pixels img)) |})
    with {| im_size := (800, 1600); im_format := None; im_dpi := None; im_exif := ∅;
            im_pixels := Expanded 20 40 "white" (Resized 760 1520 (im_pixels img)) |}.
  rewrite Hce.
  eexists. split; [reflexivity |]. split; reflexivity.
Qed.

(** The portrait photograph of the samples, which carries a DPI, with a
    JPEG writer that takes no image without one. *)
Lemma portrait_scenario_witness :
  let w := Sample.strict_world Sample.two_photos (Sample.fields "" "" "" "")
                               (Sample.person No []) in
  resize_geometry 1000 2000 800 1600 40
    = inr (PFloat (PyFloat.Finite 760), PInt 1520, PyFloat.Finite 20)
  /\ exists out,
       add_white_border "C:/in/b.jpg" "C:/out\b.jpg" 800 1600 40 "_b" w
         = (inr (PyBool true),
            set_fs (<[new_output_image_path "C:/out\b.jpg" "_b" := ImageFile out]>
                      Sample.two_photos) w)
       /\ file_size out = (800, 1600)
       /\ file_pixels out = Expanded 20 40 "white" (Resized 760 1520 (Decoded 2)).
Proof.
  intros w.
  apply (portrait_scenario "C:/in/b.jpg" "C:/out\b.jpg" "_b" "JPEG" w
           (Sample.photo 2 1000 2000 "JPEG" None)).
  - vm_compute. reflexivity.
  - vm_compute. reflexivity.
  - vm_compute. reflexivity.
  - reflexivity.
  - vm_compute. reflexivity.
Defined.

(** ** The crop question *)

Lemma bind_lift {A B} (r : exn + A) (k : A -> M B) (w : World) :
  bind (lift r) k w = match r with inl e => (inl e, w) | inr a => k a w end.
Proof. destruct r; reflexivity. Qed.

Lemma bind_ret {A B} (a : A) (k : A -> M B) (w : World) : bind (ret a) k w = k a w.
Proof. reflexivity. Qed.

Lemma bind_bind {A B C} (m : M A) (k : A -> M B) (h : B -> M C) (w : World) :
  bind (bind m k) h w = bind m (fun a => bind (k a) h) w.
Proof. unfold bind. destruct (m w) as [[e | a] w1]; reflexivity. Qed.

Lemma bind_Image_open {B} (path : string) (k : image -> M B) (w : World) (f : image_file) :
  fs w !! path = Some (ImageFile f) -> bind (Image_open path) k w = k (decoded f) w.
Proof. intros H. unfold bind, Image_open. rewrite H. reflexivity. Qed.

Lemma bind_askquestion {B} (title message : string) (k : string -> M B) (w : World) :
  bind (askquestion title message) k w
  = k (match reply_question (user w) (length (trace w)) with Yes => "yes" | No => "no" end)
      (set_trace (trace w ++ [AskQuestion title message]) w).
Proof. reflexivity. Qed.

(** What follows the crop question leaves the trace alone. *)
Lemma bind_lift_trace {A B} (r : exn + A) (k : A -> M B) (w : World) (t : list event) :
  (forall a, trace (k a w).2 = t) -> trace w = t -> trace (bind (lift r) k w).2 = t.
Proof. intros Hk Hw. rewrite bind_lift. destruct r; [exact Hw | apply Hk]. Qed.

Lemma Image_save_trace (img : image) path format quality dpi (w : World) :
  trace (Image_save img path format quality dpi w).2 = trace w.
Proof. unfold Image_save. repeat case_match; reflexivity. Qed.

Lemma add_white_border_crop_question inp outp ow oh b postfix (w : World) src rw rh calc :
  fs w !! inp = Some (ImageFile src) ->
  resize_geometry (im_size (rotate_by_exif (Image_copy (decoded src)))).1
                  (im_size (rotate_by_exif (Image_copy (decoded src)))).2 ow oh b
    = inr (rw, rh, calc) ->
  PyFloat.ltz calc = true ->
  trace (add_white_border inp outp ow oh b postfix w).2 = trace (asked outp w)
  /\ (reply_question (user w) (length (trace w)) = No ->
      add_white_border inp outp ow oh b postfix w = (inr PyNone, asked outp w)).
Proof.
  intros Hsrc Hg Hneg.
  unfold add_white_border. rewrite (bind_Image_open _ _ _ _ Hsrc).
  set (img := rotate_by_exif (Image_copy (decoded src))) in *.
  destruct (im_size img) as [original_width original_height]. cbn [fst snd] in Hg.
  rewrite bind_lift, Hg, Hneg, bind_bind, bind_askquestion, bind_ret.
  fold (asked outp w).
  destruct (reply_question (user w) (length (trace w))) eqn:Hreply.
  - change (negb (negb ("yes" =? "no")%string)) with false. cbn iota.
    split; [| discriminate].
    repeat (apply bind_lift_trace; [intros ? | reflexivity]).
    unfold bind.
    match goal with
    | |- context [Image_save ?i ?p ?f ?q ?d ?w0] =>
        pose proof (Image_save_trace i p f q d w0) as Hs;
        destruct (Image_save i p f q d w0) as [[e | []] w1]
    end; exact Hs.
  - change (negb (negb ("no" =? "no")%string)) with true. cbn iota.
    split; [reflexivity |]. intros _. reflexivity.
Qed.

(** C4. When the border left on the other axis comes out negative, the crop
    question is the one thing [add_white_border] shows; if the user answers
    no, the call returns normally with every file as it was (nothing is
    written for this image), and the loop of [process_images] goes on with
    the files that remain. *)
Theorem crop_confirmation inp outp ow oh b postfix dir rest (w : World) src rw rh calc :
  fs w !! inp = Some (ImageFile src) ->
  resize_geometry (im_size (rotate_by_exif (Image_copy (decoded src)))).1
                  (im_size (rotate_by_exif (Image_copy (decoded src)))).2 ow oh b
    = inr (rw, rh, calc) ->
  PyFloat.ltz calc = true ->
  trace (add_white_border inp outp ow oh b postfix w).2
    = trace w ++ [AskQuestion "Proceed?" (crop_question (os_path.splitext outp).1)]
  /\ (reply_question (user w) (length (trace w)) = No ->
      add_white_border inp outp ow oh b postfix w = (inr PyNone, asked outp w)
      /\ fs (asked outp w) = fs w
      /\ process_images_loop (inp :: rest) dir ow oh b postfix w
         = process_images_loop rest dir ow oh b postfix
             (asked (os_path.join dir (os_path.basename inp)) w)).
Proof.
  intros Hsrc Hg Hneg.
  destruct (add_white_border_crop_question inp outp ow oh b postfix w src rw rh calc
              Hsrc Hg Hneg) as [Htrace Hno].
  split; [exact Htrace |].
  intros Hreply. split; [exact (Hno Hreply) |]. split; [reflexivity |].
  destruct (add_white_border_crop_question inp (os_path.join dir (os_path.basename inp))
              ow oh b postfix w src rw rh calc Hsrc Hg Hneg) as [_ Hno'].
  cbn [process_images_loop]. unfold bind at 1. rewrite (Hno' Hreply). reflexivity.
Qed.

(** The landscape photograph on a 2000x1000 canvas with a border of 50: the
    picture would be 1900x1425, the border left is -212.5, and the user
    declines. *)
Lemma crop_confirmation_witness :
  let w := Sample.world Sample.two_photos (Sample.fields "" "" "" "")
                        (Sample.person No []) in
  trace (add_white_border "C:/in/a.jpg" "C:/out\a.jpg" 2000 1000 50 "_b" w).2
    = trace w ++ [AskQuestion "Proceed?" (crop_question (os_path.splitext "C:/out\a.jpg").1)]
  /\ (reply_question (user w) (length (trace w)) = No ->
      add_white_border "C:/in/a.jpg" "C:/out\a.jpg" 2000 1000 50 "_b" w
        = (inr PyNone, asked "C:/out\a.jpg" w)
      /\ fs (asked "C:/out\a.jpg" w) = fs w
      /\ process_images_loop ("C:/in/a.jpg" :: ["C:/in/b.jpg"]) "C:/out" 2000 1000 50 "_b" w
         = process_images_loop ["C:/in/b.jpg"] "C:/out" 2000 1000 50 "_b"
             (asked (os_path.join "C:/out" (os_path.basename "C:/in/a.jpg")) w)).
Proof.
  apply (crop_confirmation "C:/in/a.jpg" "C:/out\a.jpg" 2000 1000 50 "_b" "C:/out"
           ["C:/in/b.jpg"] _ (Sample.photo 1 4000 3000 "JPEG" None)
           (PInt 1900) (PFloat (PyFloat.Finite 1425)) (PyFloat.Finite (-425 # 2))).
  - vm_compute. reflexivity.
  - vm_compute. reflexivity.
  - reflexivity.
Defined.

(** The scenario of the specification (a 4000x3000 source on a 1200x1500
    canvas with a border of 50) leaves a border of 337.5 pixels above and
    below: it does not reach the crop question. *)
Example landscape_on_portrait_canvas :
  resize_geometry 4000 3000 1200 1500 50
    = inr (PInt 1100, PFloat (PyFloat.Finite 825), PyFloat.Finite (675 # 2))
  /\ PyFloat.ltz (PyFloat.Finite (675 # 2)) = false.
Proof. split; vm_compute; reflexivity. Qed.

(** ** What [add_white_border] returns *)

(** Any normal return is [True] with the output file written, or [None]
    after a declined crop question. *)
Lemma add_white_border_returns inp outp ow oh b postfix (w w' : World) (v : pyval) :
  add_white_border inp outp ow oh b postfix w = (inr v, w') ->
  (v = PyBool true
   /\ exists out, fs w' !! new_output_image_path outp postfix = Some (ImageFile out))
  \/ (v = PyNone
      /\ w' = asked outp w
      /\ reply_question (user w) (length (trace w)) = No).
Proof.
  intros H. destruct v as [| [|]].
  - right. revert H. unfold add_white_border.
    intros H. apply bind_inr in H. destruct H as (opened & w1 & Hopen & H).
    unfold Image_open in Hopen.
    destruct (fs w !! inp) as [[src | doc |] |]; try discriminate.
    injection Hopen as <- <-.
    destruct (im_size _) as [original_width original_height].
    apply bind_inr in H. destruct H as ([[resize_width resize_height] calc] & w1 & Hg & H).
    apply lift_inr in Hg. destruct Hg as [Hg ->].
    apply bind_inr in H. destruct H as (proceed & w2 & Hask & H).
    destruct proceed; cbn [negb] in H.
    + exfalso. repeat (apply bind_inr in H; destruct H as (? & ? & _ & H)).
      apply ret_inr in H. destruct H; discriminate.
    + apply ret_inr in H. destruct H as [_ ->].
      destruct (PyFloat.ltz calc).
      * rewrite bind_askquestion in Hask. apply ret_inr in Hask.
        destruct Hask as [Hans ->].
        destruct (reply_question (user w) (length (trace w))); [discriminate |].
        repeat split.
      * apply ret_inr in Hask. destruct Hask; discriminate.
  - left. split; [reflexivity |].
    destruct (add_white_border_success _ _ _ _ _ _ _ _ H)
      as (src & out & _ & _ & _ & _ & _ & Hfs).
    exists out. rewrite Hfs. apply lookup_insert_eq.
  - exfalso. revert H. unfold add_white_border. intros H.
    apply bind_inr in H. destruct H as (opened & w1 & Hopen & H).
    destruct (im_size _) as [original_width original_height].
    apply bind_inr in H. destruct H as ([[resize_width resize_height] calc] & w2 & Hg & H).
    apply bind_inr in H. destruct H as (proceed & w3 & Hask & H).
    destruct proceed; cbn [negb] in H.
    + repeat (apply bind_inr in H; destruct H as (? & ? & _ & H)).
      apply ret_inr in H. destruct H; discriminate.
    + apply ret_inr in H. destruct H; discriminate.
Qed.

(** C10. When the user declines the crop question, [add_white_border]
    returns [None]: not the object [False] (the [False] put in
    [return_value] never comes back), yet as false as [False] where a truth
    value is taken.  A call that returns anything else returns [True], after
    writing the output file; [None] comes back only from a declined
    question. *)
Theorem add_white_border_return_value inp outp ow oh b postfix (w : World) :
  (forall src rw rh calc,
      fs w !! inp = Some (ImageFile src) ->
      resize_geometry (im_size (rotate_by_exif (Image_copy (decoded src)))).1
                      (im_size (rotate_by_exif (Image_copy (decoded src)))).2 ow oh b
        = inr (rw, rh, calc) ->
      PyFloat.ltz calc = true ->
      reply_question (user w) (length (trace w)) = No ->
      exists v, (add_white_border inp outp ow oh b postfix w).1 = inr v
                /\ v = PyNone
                /\ py_is v (PyBool false) = false
                /\ py_truthy v = py_truthy (PyBool false))
  /\ (forall v w',
        add_white_border inp outp ow oh b postfix w = (inr v, w') ->
        (v = PyBool true
         /\ exists out, fs w' !! new_output_image_path outp postfix = Some (ImageFile out))
        \/ (v = PyNone /\ w' = asked outp w
            /\ reply_question (user w) (length (trace w)) = No)).
Proof.
  split.
  - intros src rw rh calc Hsrc Hg Hneg Hreply.
    destruct (add_white_border_crop_question inp outp ow oh b postfix w src rw rh calc
                Hsrc Hg Hneg) as [_ Hno].
    exists PyNone. rewrite (Hno Hreply). repeat split.
  - intros v w' H. exact (add_white_border_returns _ _ _ _ _ _ _ _ _ H).
Qed.

(** The landscape photograph on a 2000x1000 canvas, declined; and the
    portrait one on an 800x1600 canvas, which is written. *)
Lemma add_white_border_return_value_witness :
  (exists v,
      (add_white_border "C:/in/a.jpg" "C:/out\a.jpg" 2000 1000 50 "_b"
         (Sample.world Sample.two_photos (Sample.fields "" "" "" "")
                       (Sample.person No []))).1 = inr v
      /\ v = PyNone
      /\ py_is v (PyBool false) = false
      /\ py_truthy v = py_truthy (PyBool false))
  /\ (exists out,
        fs (add_white_border "C:/in/b.jpg" "C:/out\b.jpg" 800 1600 40 "_b"
              (Sample.world Sample.two_photos (Sample.fields "" "" "" "")
                            (Sample.person No []))).2
          !! new_output_image_path "C:/out\b.jpg" "_b" = Some (ImageFile out)).
Proof.
  split.
  - apply (proj1 (add_white_border_return_value
                    "C:/in/a.jpg" "C:/out\a.jpg" 2000 1000 50 "_b"
                    (Sample.world Sample.two_photos (Sample.fields "" "" "" "")
                                  (Sample.person No [])))
             (Sample.photo 1 4000 3000 "JPEG" None)
             (PInt 1900) (PFloat (PyFloat.Finite 1425)) (PyFloat.Finite (-425 # 2))).
    + vm_compute. reflexivity.
    + vm_compute. reflexivity.
    + reflexivity.
    + reflexivity.
  - assert (Hrun : add_white_border "C:/in/b.jpg" "C:/out\b.jpg" 800 1600 40 "_b"
                     (Sample.world Sample.two_photos (Sample.fields "" "" "" "")
                                   (Sample.person No []))
                   = (inr (PyBool true),
                      (add_white_border "C:/in/b.jpg" "C:/out\b.jpg" 800 1600 40 "_b"
                         (Sample.world Sample.two_photos (Sample.fields "" "" "" "")
                                       (Sample.person No []))).2)).
    { vm_compute. reflexivity. }
    destruct (proj2 (add_white_border_return_value
                       "C:/in/b.jpg" "C:/out\b.jpg" 800 1600 40 "_b"
                       (Sample.world Sample.two_photos (Sample.fields "" "" "" "")
                                     (Sample.person No [])))
                _ _ Hrun) as [[_ Hout] | [Hv _]].
    + exact Hout.
    + discriminate Hv.
Defined.

(** ** Square pictures on square canvases *)

Lemma rotate_by_exif_square (img : image) (s : Z) :
  im_size img = (s, s) -> im_size (rotate_by_exif img) = (s, s).
Proof.
  intros Hs. unfold rotate_by_exif, Image_rotate. rewrite Hs.
  repeat (case_match; try assumption; try reflexivity).
Qed.

Lemma square_geometry (s ow b : Z) :
  0 < s -> Z.abs ow < 2 ^ 52 -> 0 <= b < 2 ^ 51 ->
  resize_geometry s s ow ow b
  = inr (PInt (ow - b * 2), PFloat (PyFloat.Finite (inject_Z (ow - b * 2))),
         PyFloat.Finite (inject_Z b)).
Proof.
  intros Hs How Hb.
  assert (H52 : 2 ^ 52 = 4503599627370496) by reflexivity.
  assert (H51 : 2 ^ 51 = 2251799813685248) by reflexivity.
  assert (H53 : 2 ^ 53 = 9007199254740992) by reflexivity.
  unfold resize_geometry. rewrite Z.ltb_irrefl.
  unfold PyFloat.int_truediv.
  destruct (Z.eqb_spec s 0) as [-> | Hs0]; [lia |].
  assert (Hq : PyFloat.round (inject_Z ((ow - b * 2) * s) / inject_Z s)
               = PyFloat.Finite (inject_Z (ow - b * 2))).
  { apply round_exact; [| lia].
    rewrite inject_Z_mult. apply Qdiv_mult_l.
    intros Hc. apply Hs0. unfold Qeq in Hc. cbn in Hc. lia. }
  rewrite Hq. cbn [ebind].
  unfold PyFloat.of_int. rewrite round_small_int by lia. cbn [ebind PyFloat.sub].
  assert (Hd : PyFloat.round (inject_Z ow - inject_Z (ow - b * 2))
               = PyFloat.Finite (inject_Z (b * 2))).
  { apply round_exact; [| lia].
    unfold Qminus. rewrite <- inject_Z_opp, <- inject_Z_plus.
    apply inject_Z_injective. lia. }
  rewrite Hd. cbn [PyFloat.half].
  assert (Hh : PyFloat.round (inject_Z (b * 2) / 2) = PyFloat.Finite (inject_Z b)).
  { apply round_exact; [| lia].
    rewrite inject_Z_mult. apply Qdiv_mult_l. discriminate. }
  rewrite Hh. reflexivity.
Qed.

Lemma add_white_border_no_question inp outp ow oh b postfix (w : World) src rw rh calc :
  fs w !! inp = Some (ImageFile src) ->
  resize_geometry (im_size (rotate_by_exif (Image_copy (decoded src)))).1
                  (im_size (rotate_by_exif (Image_copy (decoded src)))).2 ow oh b
    = inr (rw, rh, calc) ->
  PyFloat.ltz calc = false ->
  trace (add_white_border inp outp ow oh b postfix w).2 = trace w.
Proof.
  intros Hsrc Hg Hpos.
  unfold add_white_border. rewrite (bind_Image_open _ _ _ _ Hsrc).
  set (img := rotate_by_exif (Image_copy (decoded src))) in *.
  destruct (im_size img) as [original_width original_height]. cbn [fst snd] in Hg.
  rewrite bind_lift, Hg, Hpos, bind_ret. cbn [negb].
  repeat (apply bind_lift_trace; [intros ? | reflexivity]).
  unfold bind.
  match goal with
  | |- context [Image_save ?i ?p ?f ?q ?d ?w0] =>
      pose proof (Image_save_trace i p f q d w0) as Hs;
      destruct (Image_save i p f q d w0) as [[e | []] w1]
  end; exact Hs.
Qed.

(** C3, as the code has it.  A square picture (of side at least 1) on a
    square canvas, with a border that is not negative, and canvas and border
    small enough for binary64 to be exact on them (below 2^52 and 2^51): the
    border computed for the other axis is the configured border exactly, as a
    float and once truncated for [ImageOps.expand], and [add_white_border]
    shows no crop question. *)
Theorem square_border inp outp postfix (s ow b : Z) (w : World) (src : image_file) :
  fs w !! inp = Some (ImageFile src) ->
  file_size src = (s, s) ->
  0 < s -> Z.abs ow < 2 ^ 52 -> 0 <= b < 2 ^ 51 ->
  resize_geometry s s ow ow b
    = inr (PInt (ow - b * 2), PFloat (PyFloat.Finite (inject_Z (ow - b * 2))),
           PyFloat.Finite (inject_Z b))
  /\ PyFloat.to_int (PyFloat.Finite (inject_Z b)) = inr b
  /\ PyFloat.ltz (PyFloat.Finite (inject_Z b)) = false
  /\ trace (add_white_border inp outp ow ow b postfix w).2 = trace w.
Proof.
  intros Hsrc Hsq Hs How Hb.
  pose proof (square_geometry s ow b Hs How Hb) as Hg.
  assert (Hltz : PyFloat.ltz (PyFloat.Finite (inject_Z b)) = false).
  { cbn [PyFloat.ltz inject_Z Qnum]. apply Z.ltb_ge. lia. }
  split; [exact Hg |]. split; [| split; [exact Hltz |]].
  - cbn [PyFloat.to_int inject_Z Qnum Qden]. rewrite Z.quot_1_r. reflexivity.
  - apply (add_white_border_no_question inp outp ow ow b postfix w src
             (PInt (ow - b * 2)) (PFloat (PyFloat.Finite (inject_Z (ow - b * 2))))
             (PyFloat.Finite (inject_Z b)) Hsrc); [| exact Hltz].
    rewrite (rotate_by_exif_square (Image_copy (decoded src)) s) by exact Hsq.
    exact Hg.
Qed.

(** A 100x100 picture on a 500x500 canvas with a border of 40. *)
Lemma square_border_witness :
  let w := Sample.world {[ "C:/in/s.png" := ImageFile (Sample.photo 3 100 100 "PNG" None) ]}
                        (Sample.fields "" "" "" "") (Sample.person No []) in
  resize_geometry 100 100 500 500 40
    = inr (PInt (500 - 40 * 2), PFloat (PyFloat.Finite (inject_Z (500 - 40 * 2))),
           PyFloat.Finite (inject_Z 40))
  /\ PyFloat.to_int (PyFloat.Finite (inject_Z 40)) = inr 40
  /\ PyFloat.ltz (PyFloat.Finite (inject_Z 40)) = false
  /\ trace (add_white_border "C:/in/s.png" "C:/out\s.png" 500 500 40 "_b" w).2 = trace w.
Proof.
  apply (square_border "C:/in/s.png" "C:/out\s.png" "_b" 100 500 40 _
           (Sample.photo 3 100 100 "PNG" None)).
  - vm_compute. reflexivity.
  - reflexivity.
  - lia.
  - vm_compute. reflexivity.
  - split; [lia | vm_compute; reflexivity].
Defined.

(** C3 as it was stated fails twice.  A border of -5 on a 100x100 canvas
    leaves an inner size of 110, which is not negative, and the border
    computed for the other axis is -5 as well: the crop question comes up.
    And on a canvas of 2^54 + 2 pixels with a border of 1 the float arithmetic
    loses the border: [float(2^54 + 2)] is [2^54], so the border computed is
    0, not 1. *)
Lemma square_border_counterexample :
  let w := Sample.world {[ "C:/in/s.png" := ImageFile (Sample.photo 3 100 100 "PNG" None) ]}
                        (Sample.fields "" "" "" "") (Sample.person No []) in
  (0 <= 100 - (-5) * 2
   /\ resize_geometry 100 100 100 100 (-5)
      = inr (PInt 110, PFloat (PyFloat.Finite 110), PyFloat.Finite (-5))
   /\ trace (add_white_border "C:/in/s.png" "C:/out\s.png" 100 100 (-5) "_b" w).2
      = [AskQuestion "Proceed?"
           "The current configuration will crop the image C:/out\s. Do you want to proceed?"])
  /\ (0 <= (2 ^ 54 + 2) - 1 * 2
      /\ resize_geometry 100 100 (2 ^ 54 + 2) (2 ^ 54 + 2) 1
         = inr (PInt (2 ^ 54), PFloat (PyFloat.Finite (inject_Z (2 ^ 54))), PyFloat.Finite 0)
      /\ PyFloat.to_int (PyFloat.Finite 0) = inr 0
      /\ 0 <> 1).
Proof.
  cbv zeta. split; [split; [| split] | split; [| split; [| split]]].
  - lia.
  - vm_compute. reflexivity.
  - vm_compute. reflexivity.
  - vm_compute. discriminate.
  - vm_compute. reflexivity.
  - reflexivity.
  - discriminate.
Qed.

(** ** Validation in [process_images] *)

Lemma int_of_str_error (s : string) (e : exn) :
  int_of_str s = inl e -> e = ValueError s.
Proof.
  unfold int_of_str.
  destruct (match Str.strip s with
            | String "-" r => (true, r)
            | String "+" r => (false, r)
            | _ => (false, Str.strip s)
            end) as [negative body].
  destruct (int_digits 0 false body); [discriminate |]. intros [= <-]. reflexivity.
Qed.

(** Whatever the text, [int] raises nothing but [ValueError]. *)
Lemma int_of_text_error (w : World) (s : string) (e : exn) :
  int_of_text w s = inl e -> e = ValueError s.
Proof.
  unfold int_of_text. destruct (is_ascii s); [apply int_of_str_error |].
  destruct (unicode_int w s); [discriminate |]. intros [= <-]. reflexivity.
Qed.

Lemma read_fields_run (w : World) :
  read_fields all_entries w
  = (ebind (int_of_text w (entry_text w width_entry)) (fun output_width =>
     ebind (int_of_text w (entry_text w height_entry)) (fun output_height =>
     ebind (int_of_text w (entry_text w border_size_height_entry))
       (fun height_border_size =>
     if String.eqb (entry_text w postfix_entry) ""
     then inl (TypeError "Add a postfix to avoid modifying the original photo.")
     else inr (output_width, output_height, height_border_size,
               entry_text w postfix_entry)))), w).
Proof.
  unfold read_fields, bind, Entry_get, int_, raise, ret. cbn [all_entries].
  destruct (int_of_text w (entry_text w width_entry)); [reflexivity |].
  destruct (int_of_text w (entry_text w height_entry)); [reflexivity |].
  destruct (int_of_text w (entry_text w border_size_height_entry)); [reflexivity |].
  cbn [ebind]. destruct (String.eqb (entry_text w postfix_entry) ""); reflexivity.
Qed.

(** C5, as the code has it.  When [int] does not take the text of the
    width, of the height or of the border size, or the postfix is empty,
    [process_images] shows one error dialog and returns: the world is the
    one it started in but for that dialog, so no configuration record and
    no file was touched.  [int] is Python's: on ASCII text it is
    [int_of_str], beyond ASCII it takes what the interpreter takes
    (full-width digits, say).  The sign of the numbers is not looked at. *)
Theorem process_images_validation (w : World) :
  (exists e, int_of_text w (entry_text w width_entry) = inl e)
  \/ (exists e, int_of_text w (entry_text w height_entry) = inl e)
  \/ (exists e, int_of_text w (entry_text w border_size_height_entry) = inl e)
  \/ entry_text w postfix_entry = "" ->
  exists message,
    process_images all_entries w
    = (inr PyNone, set_trace (trace w ++ [ShowError "Invalid Input" message]) w).
Proof.
  intros Hbad. unfold process_images.
  unfold bind at 1. unfold try_except. unfold bind at 1.
  rewrite read_fields_run.
  destruct (int_of_text w (entry_text w width_entry)) as [e1 | output_width] eqn:H1.
  { apply int_of_text_error in H1. subst e1. eexists. reflexivity. }
  destruct (int_of_text w (entry_text w height_entry)) as [e2 | output_height] eqn:H2.
  { apply int_of_text_error in H2. subst e2. eexists. reflexivity. }
  destruct (int_of_text w (entry_text w border_size_height_entry))
    as [e3 | height_border_size] eqn:H3.
  { apply int_of_text_error in H3. subst e3. eexists. reflexivity. }
  destruct Hbad as [[e He] | [[e He] | [[e He] | Hpost]]]; try discriminate.
  cbn [ebind]. rewrite Hpost. eexists. reflexivity.
Qed.

(** A width that is not a number. *)
Lemma process_images_validation_witness :
  let w := Sample.world Sample.two_photos (Sample.fields "wide" "1000" "50" "_b")
                        (Sample.person No ["C:/in/a.jpg"]) in
  exists message,
    process_images all_entries w
    = (inr PyNone, set_trace (trace w ++ [ShowError "Invalid Input" message]) w).
Proof.
  apply process_images_validation. left. eexists. vm_compute. reflexivity.
Defined.

(** C5 as it was stated fails: a width of -800, a height of 0 and a border
    of -3 pass the validation.  No error is shown, the last-used record is
    written, and the file dialog opens (the user then picks no file). *)
Lemma process_images_accepts_nonpositive :
  let w := Sample.world ∅ (Sample.fields "-800" "0" "-3" "_b") (Sample.person No []) in
  int_of_str "-800" = inr (-800) /\ int_of_str "0" = inr 0 /\ int_of_str "-3" = inr (-3)
  /\ fs w !! "last_config.json" = None
  /\ (process_images all_entries w).1 = inr PyNone
  /\ fs (process_images all_entries w).2 !! "last_config.json"
     = Some (JsonFile (JObject (<["postfix" := JStr "_b"]>
                               (<["height_border_size" := JStr "-3"]>
                               (<["output_height" := JStr "0"]>
                               (<["output_width" := JStr "-800"]> ∅))))))
  /\ trace (process_images all_entries w).2 = [AskOpenFilenames "Select Input Images"].
Proof.
  cbv zeta. repeat split; vm_compute; reflexivity.
Qed.

(** ** The format of the written file *)

Lemma Image_copy_format (img : image) : im_format (Image_copy img) = None.
Proof. reflexivity. Qed.

(** C6, where the code departs from it.  A JPEG-encoded picture that is
    stored as scan.png: [img_copy.format] is [None] (it is a copy), so
    [save] goes by the extension of the output path and writes scan_b.png
    as a PNG, at quality 100 and with the DPI of the source. *)
Example add_white_border_format_by_extension :
  let source := Sample.photo 4 1000 2000 "JPEG" None in
  let w := Sample.world {[ "C:/in/scan.png" := ImageFile source ]}
                        (Sample.fields "" "" "" "") (Sample.person No []) in
  let w' := (add_white_border "C:/in/scan.png" "C:/out\scan.png" 800 1600 40 "_b" w).2 in
  new_output_image_path "C:/out\scan.png" "_b" = "C:/out\scan_b.png"
  /\ im_format (rotate_by_exif (Image_copy (decoded source))) = None
  /\ exists out,
       fs w' !! "C:/out\scan_b.png" = Some (ImageFile out)
       /\ file_format source = "JPEG"
       /\ file_format out = "PNG"
       /\ file_quality out = Some 100
       /\ file_dpi out = file_dpi source.
Proof.
  cbv zeta. split; [reflexivity |]. split; [reflexivity |].
  eexists. split; [vm_compute; reflexivity |]. repeat split.
Qed.

(** ** Rotation by the EXIF orientation *)

Lemma Rotated_neq (r : raster) (a : angle) : Rotated a r <> r.
Proof.
  revert a. induction r as [id | a' r IH | w h r IH | l t f r IH]; intros a H;
    try discriminate.
  injection H as _ H. exact (IH _ H).
Qed.

Lemma Image_rotate_neq (img : image) (a : angle) : Image_rotate img a <> img.
Proof.
  intros H. apply (f_equal im_pixels) in H. unfold Image_rotate in H.
  destruct (im_size img) as [w h]. cbn [im_pixels] in H.
  exact (Rotated_neq _ _ H).
Qed.

Lemma Image_rotate_inj (img : image) (a a' : angle) :
  Image_rotate img a = Image_rotate img a' -> a = a'.
Proof.
  intros H. apply (f_equal im_pixels) in H. unfold Image_rotate in H.
  destruct (im_size img) as [w h]. cbn [im_pixels] in H.
  injection H as H. exact H.
Qed.

Lemma rotate_by_exif_cases (img : image) :
  rotate_by_exif img
  = match im_exif img !! 0x0112 with
    | Some (ExifInt n) =>
        if n =? 8 then Image_rotate img Deg90
        else if n =? 3 then Image_rotate img Deg180
        else if n =? 6 then Image_rotate img Deg270
        else img
    | _ => img
    end.
Proof.
  unfold rotate_by_exif. case_bool_decide as Hempty.
  - rewrite Hempty, lookup_empty. reflexivity.
  - destruct (im_exif img !! 0x0112) as [[n |] |]; reflexivity.
Qed.

(** Lines 58-68 on their own: the picture is rotated by 90 degrees exactly
    when the orientation tag (0x0112) of the EXIF data is the int 8, by 180
    exactly when it is 3, by 270 exactly when it is 6; it is left as it is
    exactly when the tag is none of these, which covers a missing tag and
    missing EXIF data. *)
Lemma rotate_by_exif_table (img : image) :
  (rotate_by_exif img = Image_rotate img Deg90
   <-> im_exif img !! 0x0112 = Some (ExifInt 8))
  /\ (rotate_by_exif img = Image_rotate img Deg180
      <-> im_exif img !! 0x0112 = Some (ExifInt 3))
  /\ (rotate_by_exif img = Image_rotate img Deg270
      <-> im_exif img !! 0x0112 = Some (ExifInt 6))
  /\ (rotate_by_exif img = img
      <-> im_exif img !! 0x0112 <> Some (ExifInt 8)
          /\ im_exif img !! 0x0112 <> Some (ExifInt 3)
          /\ im_exif img !! 0x0112 <> Some (ExifInt 6))
  /\ (im_exif img = ∅ -> rotate_by_exif img = img)
  /\ degrees Deg90 = 90 /\ degrees Deg180 = 180 /\ degrees Deg270 = 270
  /\ Orientation_value CLOCKWISE_90 = 8 /\ Orientation_value CLOCKWISE_180 = 3
  /\ Orientation_value CLOCKWISE_270 = 6.
Proof.
  rewrite rotate_by_exif_cases.
  assert (Hempty : im_exif img = ∅ ->
                   match im_exif img !! 0x0112 with
                   | Some (ExifInt n) =>
                       if n =? 8 then Image_rotate img Deg90
                       else if n =? 3 then Image_rotate img Deg180
                       else if n =? 6 then Image_rotate img Deg270
                       else img
                   | _ => img
                   end = img).
  { intros ->. rewrite lookup_empty. reflexivity. }
  destruct (im_exif img !! 0x0112) as [[n |] |].
  - destruct (Z.eqb_spec n 8) as [E8 | H8];
      [| destruct (Z.eqb_spec n 3) as [E3 | H3];
         [| destruct (Z.eqb_spec n 6) as [E6 | H6]]]; subst.
    all: repeat split; try reflexivity; try exact Hempty; try congruence;
      try (intros H; apply Image_rotate_inj in H; discriminate);
      try (intros H; exfalso; exact (Image_rotate_neq _ _ H));
      try (intros H; symmetry in H; exfalso; exact (Image_rotate_neq _ _ H));
      try (intros [? [? ?]]; congruence);
      try (exfalso;
           match goal with
           | H : Image_rotate _ _ = _ |- _ => exact (Image_rotate_neq _ _ H)
           end).
  - repeat split; try reflexivity; try exact Hempty; try discriminate;
      try (intros H; symmetry in H; exfalso; exact (Image_rotate_neq _ _ H)).
  - repeat split; try reflexivity; try exact Hempty; try discriminate;
      try (intros H; symmetry in H; exfalso; exact (Image_rotate_neq _ _ H)).
Qed.

(** ** The configuration store *)

(** C9. Loading a configuration whose record does not exist (at its path
    there is no file, and no directory either) changes nothing: the call
    returns normally and the world is the one it started in (the four
    fields keep their texts, and nothing is shown or printed). *)
Theorem load_missing_configuration (event : option tk_event) (w : World) :
  let selected_file := match event with
                       | Some _ => combo_text w +:+ ".json"
                       | None => last_json_data +:+ ".json"
                       end in
  fs w !! selected_file = None ->
  selected_file ∉ dirs w ->
  load_selected_configuration event w = (inr PyNone, w).
Proof.
  intros selected_file Hmissing Hnodir. subst selected_file.
  unfold load_selected_configuration.
  destruct event as [ev |].
  - unfold bind at 1. rewrite append_json_nonempty.
    unfold bind at 1. unfold try_except. unfold bind at 1. unfold read_json.
    rewrite Hmissing, (bool_decide_eq_false_2 _ Hnodir). reflexivity.
  - rewrite bind_ret. change (String.eqb (last_json_data +:+ ".json") "") with false.
    cbn iota. unfold bind at 1. unfold try_except. unfold bind at 1. unfold read_json.
    rewrite Hmissing, (bool_decide_eq_false_2 _ Hnodir). reflexivity.
Qed.

(** No record called "holiday" has been saved. *)
Lemma load_missing_configuration_witness :
  let w := Sample.world Sample.two_photos (Sample.fields "800" "1600" "40" "_b")
                        (Sample.person No []) in
  load_selected_configuration (Some ComboboxSelected) w = (inr PyNone, w).
Proof.
  apply (load_missing_configuration (Some ComboboxSelected)
           (Sample.world Sample.two_photos (Sample.fields "800" "1600" "40" "_b")
                         (Sample.person No []))).
  - vm_compute. reflexivity.
  - cbn. apply not_elem_of_empty.
Defined.

(** The record that [save_configuration] writes for the texts of the form. *)
Lemma save_configuration_named (name : string) (w : World) :
  name <> "" ->
  reply_string (user w) (length (trace w)) = Some name ->
  can_write w (name +:+ ".json") = true ->
  fs (save_configuration all_entries (Some "button") w).2 !! (name +:+ ".json")
  = Some (JsonFile (JObject
      (<["postfix" := JStr (entry_text w postfix_entry)]>
      (<["height_border_size" := JStr (entry_text w border_size_height_entry)]>
      (<["output_height" := JStr (entry_text w height_entry)]>
      (<["output_width" := JStr (entry_text w width_entry)]> ∅)))))).
Proof.
  intros Hname Hreply Hcw. unfold save_configuration.
  rewrite bool_decide_eq_true_2 by reflexivity.
  unfold bind at 1. unfold askstring. rewrite Hreply.
  destruct name as [| c rest]; [contradiction |].
  unfold bind, Entry_get, try_except, write_json, get_all_config_files,
    set_load_combo_values, ret.
  cbn [can_write set_trace]. rewrite Hcw.
  cbn [fs set_fs set_combo_values set_trace snd]. apply lookup_insert_eq.
Qed.

Lemma load_field_text (config : json) (e : widget) (key : Entries) (s : string) (w : World) :
  config_get config (Entries_value key) = inr (JStr s) ->
  exists w',
    load_field config e key w = (inr tt, w')
    /\ (forall x, entry_text w' x = <[e := s]> (entry_text w) x).
Proof.
  intros Hget. unfold load_field, bind, Entry_delete_all, lift. rewrite Hget.
  unfold Entry_insert0. eexists. split; [reflexivity |].
  intros x. cbn [entry_text set_entry_text].
  destruct (decide (e = x)) as [-> | Hne].
  - rewrite !fn_lookup_insert. apply append_empty_r.
  - rewrite !fn_lookup_insert_ne by exact Hne. reflexivity.
Qed.

(** Once the record is read, the four fields are loaded one after the
    other. *)
Ltac load_fields_tail w v_width v_height v_border v_postfix :=
  let config := fresh "config" in
  let w0 := fresh "w" in
  set (config := JObject _);
  unfold bind at 1; unfold emit;
  set (w0 := set_trace _ w);
  let w1 := fresh "w" in let Hrun1 := fresh "Hrun" in let Htext1 := fresh "Htext" in
  destruct (load_field_text config width_entry WIDTH_ENTRY v_width w0)
    as (w1 & Hrun1 & Htext1); [reflexivity |];
  let w2 := fresh "w" in let Hrun2 := fresh "Hrun" in let Htext2 := fresh "Htext" in
  destruct (load_field_text config height_entry HEIGHT_ENTRY v_height w1)
    as (w2 & Hrun2 & Htext2); [reflexivity |];
  let w3 := fresh "w" in let Hrun3 := fresh "Hrun" in let Htext3 := fresh "Htext" in
  destruct (load_field_text config border_size_height_entry BORDER_SIZE_HEIGHT_ENTRY
               v_border w2)
    as (w3 & Hrun3 & Htext3); [reflexivity |];
  let w4 := fresh "w" in let Hrun4 := fresh "Hrun" in let Htext4 := fresh "Htext" in
  destruct (load_field_text config postfix_entry POSTFIX_ENTRY v_postfix w3)
    as (w4 & Hrun4 & Htext4); [reflexivity |];
  unfold bind; rewrite Hrun1, Hrun2, Hrun3, Hrun4;
  exists w4; split; [reflexivity |];
  repeat split;
  [ rewrite Htext4, fn_lookup_insert_ne by discriminate;
    rewrite Htext3, fn_lookup_insert_ne by discriminate;
    rewrite Htext2, fn_lookup_insert_ne by discriminate;
    rewrite Htext1; apply fn_lookup_insert
  | rewrite Htext4, fn_lookup_insert_ne by discriminate;
    rewrite Htext3, fn_lookup_insert_ne by discriminate;
    rewrite Htext2; apply fn_lookup_insert
  | rewrite Htext4, fn_lookup_insert_ne by discriminate;
    rewrite Htext3; apply fn_lookup_insert
  | rewrite Htext4; apply fn_lookup_insert ].

Lemma load_selected_configuration_record (event : option tk_event) (w : World)
    (v_width v_height v_border v_postfix : string) :
  fs w !! (match event with
           | Some _ => combo_text w +:+ ".json"
           | None => last_json_data +:+ ".json"
           end)
  = Some (JsonFile (JObject
      (<["postfix" := JStr v_postfix]>
      (<["height_border_size" := JStr v_border]>
      (<["output_height" := JStr v_height]>
      (<["output_width" := JStr v_width]> ∅)))))) ->
  exists w',
    load_selected_configuration event w = (inr PyNone, w')
    /\ entry_text w' width_entry = v_width
    /\ entry_text w' height_entry = v_height
    /\ entry_text w' border_size_height_entry = v_border
    /\ entry_text w' postfix_entry = v_postfix.
Proof.
  intros Hfile. unfold load_selected_configuration.
  destruct event as [ev |].
  - unfold bind at 1. rewrite append_json_nonempty.
    unfold bind at 1. unfold try_except. unfold bind at 1. unfold read_json.
    rewrite Hfile. load_fields_tail w v_width v_height v_border v_postfix.
  - rewrite bind_ret. change (String.eqb (last_json_data +:+ ".json") "") with false.
    cbn iota.
    unfold bind at 1. unfold try_except. unfold bind at 1. unfold read_json.
    rewrite Hfile. load_fields_tail w v_width v_height v_border v_postfix.
Qed.

(** C8. The four texts of the form are saved under a name the user gives
    (not empty, and for which the file can be written).  Whatever is typed
    into the form afterwards, selecting that name in the dropdown while the
    files are as the save left them puts the four saved texts back. *)
Theorem save_load_roundtrip (name : string) (w w2 : World) :
  name <> "" ->
  reply_string (user w) (length (trace w)) = Some name ->
  can_write w (name +:+ ".json") = true ->
  fs w2 = fs (save_configuration all_entries (Some "button") w).2 ->
  combo_text w2 = name ->
  exists w3,
    load_selected_configuration (Some ComboboxSelected) w2 = (inr PyNone, w3)
    /\ forall e : Entries, entry_text w3 (all_entries e) = entry_text w (all_entries e).
Proof.
  intros Hname Hreply Hcw Hfs Hcombo.
  pose proof (save_configuration_named name w Hname Hreply Hcw) as Hsaved.
  rewrite <- Hfs, <- Hcombo in Hsaved.
  destruct (load_selected_configuration_record (Some ComboboxSelected) w2 _ _ _ _ Hsaved)
    as (w3 & Hrun & Hw & Hh & Hb & Hp).
  exists w3. split; [exact Hrun |].
  intros []; cbn [all_entries]; assumption.
Qed.

(** The form holds 800, 1600, 40 and _b, and is saved as "holiday"; then
    the fields are overwritten and "holiday" is selected. *)
Lemma save_load_roundtrip_witness :
  let w := Sample.world Sample.two_photos (Sample.fields "800" "1600" "40" "_b")
                        (Sample.person No []) in
  let w1 := (save_configuration all_entries (Some "button") w).2 in
  let w2 := {| fs := fs w1; dirs := dirs w1; can_write := can_write w1;
               can_encode := can_encode w1; EXTENSION := EXTENSION w1;
               unicode_int := unicode_int w1;
               entry_text := Sample.fields "1" "2" "3" "x";
               combo_text := "holiday"; combo_values := combo_values w1;
               trace := trace w1; user := user w1 |} in
  exists w3,
    load_selected_configuration (Some ComboboxSelected) w2 = (inr PyNone, w3)
    /\ forall e : Entries, entry_text w3 (all_entries e) = entry_text w (all_entries e).
Proof.
  cbv zeta.
  apply (save_load_roundtrip "holiday"
           (Sample.world Sample.two_photos (Sample.fields "800" "1600" "40" "_b")
                         (Sample.person No []))).
  - discriminate.
  - reflexivity.
  - reflexivity.
  - reflexivity.
  - reflexivity.
Defined.

(** The record that [process_images] keeps of the last run, which the main
    block loads when the program starts: the same round trip, with no name
    asked for. *)
Lemma save_configuration_last_used (w : World) :
  can_write w (last_json_data +:+ ".json") = true ->
  fs (save_configuration all_entries None w).2 !! (last_json_data +:+ ".json")
  = Some (JsonFile (JObject
      (<["postfix" := JStr (entry_text w postfix_entry)]>
      (<["height_border_size" := JStr (entry_text w border_size_height_entry)]>
      (<["output_height" := JStr (entry_text w height_entry)]>
      (<["output_width" := JStr (entry_text w width_entry)]> ∅)))))).
Proof.
  intros Hcw. unfold save_configuration.
  rewrite bool_decide_eq_false_2 by discriminate.
  rewrite bind_ret.
  unfold bind, Entry_get, try_except, write_json, get_all_config_files,
    set_load_combo_values, ret.
  unfold last_json_data in *. cbv beta iota. rewrite Hcw.
  cbn [fs set_fs set_combo_values snd]. apply lookup_insert_eq.
Qed.

Lemma last_used_roundtrip (w w2 : World) :
  can_write w (last_json_data +:+ ".json") = true ->
  fs w2 = fs (save_configuration all_entries None w).2 ->
  exists w3,
    load_selected_configuration None w2 = (inr PyNone, w3)
    /\ forall e : Entries, entry_text w3 (all_entries e) = entry_text w (all_entries e).
Proof.
  intros Hcw Hfs.
  pose proof (save_configuration_last_used w Hcw) as Hsaved.
  rewrite <- Hfs in Hsaved.
  destruct (load_selected_configuration_record None w2 _ _ _ _ Hsaved)
    as (w3 & Hrun & Hw & Hh & Hb & Hp).
  exists w3. split; [exact Hrun |].
  intros []; cbn [all_entries]; assumption.
Qed.

(** ** More on strings: searching from the right *)

Lemma length_append (s t : string) :
  String.length (s +:+ t) = (String.length s + String.length t)%nat.
Proof.
  induction s as [| c s IH]; [reflexivity |].
  change (S (String.length (s +:+ t)) = S (String.length s + String.length t)).
  rewrite IH. reflexivity.
Qed.

Lemma all_append (p : ascii -> bool) (s t : string) :
  Str.all p (s +:+ t) = Str.all p s && Str.all p t.
Proof.
  induction s as [| c s IH]; [reflexivity |].
  change (p c && Str.all p (s +:+ t) = p c && Str.all p s && Str.all p t).
  rewrite IH, andb_assoc. reflexivity.
Qed.

Lemma all_drop (p : ascii -> bool) (n : nat) (s : string) :
  Str.all p s = true -> Str.all p (Str.drop n s) = true.
Proof.
  revert s. induction n as [| n IH]; intros s H.
  - destruct s; exact H.
  - destruct s as [| c s]; [exact H |].
    cbn [Str.drop]. apply IH. cbn [Str.all] in H.
    apply andb_true_iff in H. apply H.
Qed.

Lemma drop_drop (n m : nat) (s : string) :
  Str.drop n (Str.drop m s) = Str.drop (m + n) s.
Proof.
  revert s. induction m as [| m IH]; intros s.
  - destruct s; reflexivity.
  - destruct s as [| c s]; [destruct n; reflexivity |]. cbn [Str.drop Nat.add]. apply IH.
Qed.

Lemma drop_append (n : nat) (s t : string) :
  (n <= String.length s)%nat -> Str.drop n (s +:+ t) = Str.drop n s +:+ t.
Proof.
  revert s. induction n as [| n IH]; intros s Hn.
  - destruct s; [destruct t |]; reflexivity.
  - destruct s as [| c s]; [cbn in Hn; lia |].
    change (Str.drop n (s +:+ t) = Str.drop n s +:+ t). apply IH. cbn in Hn. lia.
Qed.

Lemma take_append_length (s t : string) : Str.take (String.length s) (s +:+ t) = s.
Proof.
  induction s as [| c s IH]; [destruct t; reflexivity |].
  change (String c (Str.take (String.length s) (s +:+ t)) = String c s).
  rewrite IH. reflexivity.
Qed.

Lemma drop_append_length (s t : string) : Str.drop (String.length s) (s +:+ t) = t.
Proof.
  induction s as [| c s IH]; [destruct t; reflexivity |]. exact IH.
Qed.

Lemma length_drop (n : nat) (s : string) :
  String.length (Str.drop n s) = (String.length s - n)%nat.
Proof.
  revert s. induction n as [| n IH]; intros s.
  - destruct s; cbn; lia.
  - destruct s as [| c s]; [reflexivity |]. cbn [Str.drop String.length]. rewrite IH. lia.
Qed.

(** Where [rfind] lands. *)
Lemma rfind_from_range (i : Z) (c : ascii) (s : string) :
  0 <= i ->
  Str.rfind_from i c s = -1
  \/ i <= Str.rfind_from i c s < i + Z.of_nat (String.length s).
Proof.
  revert i. induction s as [| a s IH]; intros i Hi; [left; reflexivity |].
  cbn [Str.rfind_from String.length].
  destruct (IH (i + 1) ltac:(lia)) as [Hr | Hr].
  - rewrite Hr. cbn. destruct (Ascii.eqb a c); [right; lia | left; reflexivity].
  - destruct (Z.leb_spec 0 (Str.rfind_from (i + 1) c s)); [right; lia | lia].
Qed.

Lemma rfind_from_absent (i : Z) (c : ascii) (s : string) :
  0 <= i ->
  Str.all (fun a => negb (Ascii.eqb a c)) s = true -> Str.rfind_from i c s = -1.
Proof.
  revert i. induction s as [| a s IH]; intros i Hi H; [reflexivity |].
  cbn [Str.all] in H. apply andb_true_iff in H. destruct H as [Ha Hs].
  cbn [Str.rfind_from]. rewrite (IH (i + 1)) by (lia || exact Hs).
  cbn. apply negb_true_iff in Ha. rewrite Ha. reflexivity.
Qed.

Lemma rfind_from_append (i : Z) (c : ascii) (s t : string) :
  0 <= i ->
  Str.rfind_from i c (s +:+ t)
  = if 0 <=? Str.rfind_from (i + Z.of_nat (String.length s)) c t
    then Str.rfind_from (i + Z.of_nat (String.length s)) c t
    else Str.rfind_from i c s.
Proof.
  revert i. induction s as [| a s IH]; intros i Hi.
  - change ("" +:+ t) with t. cbn [String.length Z.of_nat Str.rfind_from].
    rewrite Z.add_0_r.
    destruct (rfind_from_range i c t Hi) as [Hr | Hr].
    + rewrite Hr. reflexivity.
    + destruct (Z.leb_spec 0 (Str.rfind_from i c t)); [reflexivity | lia].
  - change (String a s +:+ t) with (String a (s +:+ t)).
    cbn [Str.rfind_from String.length]. rewrite IH by lia.
    replace (i + 1 + Z.of_nat (String.length s))
      with (i + Z.of_nat (S (String.length s))) by lia.
    destruct (0 <=? Str.rfind_from (i + Z.of_nat (S (String.length s))) c t) eqn:Ht.
    + rewrite Ht. reflexivity.
    + reflexivity.
Qed.

(** After the place [rfind] gives, the character does not occur. *)
Lemma rfind_from_last (i : Z) (c : ascii) (s : string) :
  0 <= i ->
  Str.all (fun a => negb (Ascii.eqb a c))
          (Str.drop (Z.to_nat (Str.rfind_from i c s - i + 1)) s) = true.
Proof.
  revert i. induction s as [| a s IH]; intros i Hi;
    [destruct (Z.to_nat _); reflexivity |].
  cbn [Str.rfind_from].
  destruct (rfind_from_range (i + 1) c s ltac:(lia)) as [Hr | Hr].
  - rewrite Hr. cbn [Z.leb Z.compare].
    pose proof (IH (i + 1) ltac:(lia)) as H. rewrite Hr in H.
    replace (Z.to_nat (-1 - (i + 1) + 1)) with 0%nat in H by lia.
    cbn [Str.drop] in H.
    destruct (Ascii.eqb a c) eqn:Ha.
    + replace (Z.to_nat (i - i + 1)) with 1%nat by lia. cbn [Str.drop].
      exact H.
    + replace (Z.to_nat (-1 - i + 1)) with 0%nat by lia. cbn [Str.drop Str.all].
      rewrite Ha. exact H.
  - destruct (Z.leb_spec 0 (Str.rfind_from (i + 1) c s)) as [_ | Hlt]; [| lia].
    pose proof (IH (i + 1) ltac:(lia)) as Hd.
    replace (Z.to_nat (Str.rfind_from (i + 1) c s - i + 1))
      with (S (Z.to_nat (Str.rfind_from (i + 1) c s - (i + 1) + 1))) by lia.
    exact Hd.
Qed.

(** At the place [rfind] gives, the character stands. *)
Lemma rfind_from_found (i : Z) (c : ascii) (s : string) :
  0 <= i -> 0 <= Str.rfind_from i c s ->
  exists r, Str.drop (Z.to_nat (Str.rfind_from i c s - i)) s = String c r.
Proof.
  revert i. induction s as [| a s IH]; intros i Hi Hr; [cbn in Hr; lia |].
  cbn [Str.rfind_from] in *.
  destruct (Z.leb_spec 0 (Str.rfind_from (i + 1) c s)) as [Hge | Hlt].
  - destruct (IH (i + 1) ltac:(lia) Hge) as [r Hdrop].
    destruct (rfind_from_range (i + 1) c s ltac:(lia)) as [Hx | Hx]; [lia |].
    exists r.
    replace (Z.to_nat (Str.rfind_from (i + 1) c s - i))
      with (S (Z.to_nat (Str.rfind_from (i + 1) c s - (i + 1)))) by lia.
    exact Hdrop.
  - destruct (Ascii.eqb_spec a c) as [-> | Hne]; [| lia].
    exists s. replace (Z.to_nat (i - i)) with 0%nat by lia. reflexivity.
Qed.

(** ** What [splitext] splits off *)

Lemma no_separator_each (s : string) :
  no_separator s = true ->
  Str.all (fun a => negb (Ascii.eqb a os_path.sep)) s = true
  /\ Str.all (fun a => negb (Ascii.eqb a os_path.altsep)) s = true.
Proof.
  unfold no_separator, os_path.is_sep.
  induction s as [| c s IH]; [split; reflexivity |].
  cbn [Str.all]. intros H. apply andb_true_iff in H. destruct H as [Hc Hs].
  destruct (IH Hs) as [H1 H2]. rewrite H1, H2.
  apply negb_true_iff, orb_false_iff in Hc. destruct Hc as [-> ->]. split; reflexivity.
Qed.

Lemma each_no_separator (s : string) :
  Str.all (fun a => negb (Ascii.eqb a os_path.sep)) s = true ->
  Str.all (fun a => negb (Ascii.eqb a os_path.altsep)) s = true ->
  no_separator s = true.
Proof.
  unfold no_separator, os_path.is_sep.
  induction s as [| c s IH]; [reflexivity |].
  cbn [Str.all]. intros H1 H2.
  apply andb_true_iff in H1. destruct H1 as [Hc1 Hs1].
  apply andb_true_iff in H2. destruct H2 as [Hc2 Hs2].
  rewrite (IH Hs1 Hs2). apply negb_true_iff in Hc1, Hc2. rewrite Hc1, Hc2. reflexivity.
Qed.

Lemma sep_index_range (p : string) :
  -1 <= sep_index p < Z.of_nat (String.length p).
Proof.
  unfold sep_index, Str.rfind.
  destruct (rfind_from_range 0 os_path.sep p ltac:(lia));
    destruct (rfind_from_range 0 os_path.altsep p ltac:(lia)); lia.
Qed.

(** Text without separators, put behind a path, does not move the last
    separator. *)
Lemma sep_index_append (s t : string) :
  no_separator t = true -> sep_index (s +:+ t) = sep_index s.
Proof.
  intros Ht. destruct (no_separator_each t Ht) as [H1 H2].
  unfold sep_index, Str.rfind. rewrite !rfind_from_append by lia.
  rewrite (rfind_from_absent (0 + Z.of_nat (String.length s)) _ _ ltac:(lia) H1),
    (rfind_from_absent (0 + Z.of_nat (String.length s)) _ _ ltac:(lia) H2).
  reflexivity.
Qed.

Lemma file_part_append (s t : string) :
  no_separator t = true -> file_part (s +:+ t) = file_part s +:+ t.
Proof.
  intros Ht. unfold file_part. rewrite (sep_index_append s t Ht).
  apply drop_append. pose proof (sep_index_range s). lia.
Qed.

Lemma file_part_no_separator (s : string) : no_separator s = true -> file_part s = s.
Proof.
  intros Hs. destruct (no_separator_each s Hs) as [H1 H2].
  unfold file_part, sep_index, Str.rfind.
  rewrite (rfind_from_absent 0 _ _ ltac:(lia) H1), (rfind_from_absent 0 _ _ ltac:(lia) H2).
  reflexivity.
Qed.

(** A path that ends in a dot and a suffix free of dots and separators is
    split right there, unless the name of the file is only dots before it. *)
Lemma splitext_with_ext (s r : string) :
  no_dot r = true -> no_separator r = true ->
  os_path.splitext (s +:+ String "." r)
  = if all_dots (file_part s) then (s +:+ String "." r, "") else (s, String "." r).
Proof.
  intros Hdot Hsep.
  assert (Hsep' : no_separator (String "." r) = true).
  { unfold no_separator in *. cbn [Str.all]. rewrite Hsep. reflexivity. }
  pose proof (sep_index_append s (String "." r) Hsep') as Hsi.
  pose proof (sep_index_range s) as Hrange.
  assert (Hdi : Str.rfind os_path.extsep (s +:+ String "." r)
                = Z.of_nat (String.length s)).
  { unfold Str.rfind. rewrite rfind_from_append by lia.
    cbn [Str.rfind_from]. unfold no_dot in Hdot.
    rewrite (rfind_from_absent (0 + Z.of_nat (String.length s) + 1) _ _ ltac:(lia) Hdot).
    cbn [Z.leb Z.compare]. change (Ascii.eqb "." os_path.extsep) with true. cbn iota.
    rewrite Z.add_0_l.
    destruct (Z.leb_spec 0 (Z.of_nat (String.length s))); [reflexivity | lia]. }
  unfold os_path.splitext. fold (sep_index (s +:+ String "." r)).
  rewrite Hsi, Hdi.
  destruct (Z.ltb_spec (sep_index s) (Z.of_nat (String.length s))) as [_ | Hge]; [| lia].
  assert (Hlead : Str.take (Z.to_nat (Z.of_nat (String.length s) - (sep_index s + 1)))
                    (Str.drop (Z.to_nat (sep_index s + 1)) (s +:+ String "." r))
                  = file_part s).
  { rewrite drop_append by lia. fold (file_part s).
    replace (Z.to_nat (Z.of_nat (String.length s) - (sep_index s + 1)))
      with (String.length (file_part s))
      by (unfold file_part; rewrite length_drop; lia).
    apply take_append_length. }
  rewrite Hlead. fold (all_dots (file_part s)).
  destruct (all_dots (file_part s)); [reflexivity |].
  rewrite Nat2Z.id, take_append_length, drop_append_length. reflexivity.
Qed.

(** The extension that [splitext] gives is empty, or a dot followed by text
    free of dots and separators; and then the name of the file has more
    than dots before it. *)
Lemma splitext_ext_shape (p : string) :
  (os_path.splitext p).2 = ""
  \/ exists r,
       (os_path.splitext p).2 = String "." r
       /\ no_dot r = true /\ no_separator r = true
       /\ all_dots (file_part (os_path.splitext p).1) = false.
Proof.
  unfold os_path.splitext. fold (sep_index p).
  pose proof (sep_index_range p) as Hrange.
  destruct (Z.ltb_spec (sep_index p) (Str.rfind os_path.extsep p)) as [Hlt | Hge];
    [| left; reflexivity].
  set (d := Str.rfind os_path.extsep p) in *.
  destruct (Str.all _ _) eqn:Hlead; [left; reflexivity |].
  right. cbn [fst snd].
  assert (Hd0 : 0 <= d) by lia.
  destruct (rfind_from_found 0 os_path.extsep p ltac:(lia) Hd0) as [r Hr].
  fold (Str.rfind os_path.extsep p) in Hr. fold d in Hr. rewrite Z.sub_0_r in Hr.
  exists r. split; [exact Hr |].
  assert (Hafter : Str.drop (Z.to_nat (d + 1)) p = r).
  { replace (Z.to_nat (d + 1)) with (Z.to_nat d + 1)%nat by lia.
    rewrite <- drop_drop, Hr. reflexivity. }
  assert (Hnodot : no_dot r = true).
  { pose proof (rfind_from_last 0 os_path.extsep p ltac:(lia)) as H.
    fold (Str.rfind os_path.extsep p) in H. fold d in H.
    rewrite Z.sub_0_r, Hafter in H. exact H. }
  assert (Hnosep : no_separator r = true).
  { apply each_no_separator.
    - pose proof (rfind_from_last 0 os_path.sep p ltac:(lia)) as H.
      fold (Str.rfind os_path.sep p) in H. rewrite Z.sub_0_r in H.
      apply (all_drop _ (Z.to_nat (d + 1) - Z.to_nat (Str.rfind os_path.sep p + 1))) in H.
      rewrite drop_drop in H.
      replace (Z.to_nat (Str.rfind os_path.sep p + 1)
               + (Z.to_nat (d + 1) - Z.to_nat (Str.rfind os_path.sep p + 1)))%nat
        with (Z.to_nat (d + 1)) in H by (unfold sep_index in Hlt; lia).
      rewrite Hafter in H. exact H.
    - pose proof (rfind_from_last 0 os_path.altsep p ltac:(lia)) as H.
      fold (Str.rfind os_path.altsep p) in H. rewrite Z.sub_0_r in H.
      apply (all_drop _ (Z.to_nat (d + 1) - Z.to_nat (Str.rfind os_path.altsep p + 1))) in H.
      rewrite drop_drop in H.
      replace (Z.to_nat (Str.rfind os_path.altsep p + 1)
               + (Z.to_nat (d + 1) - Z.to_nat (Str.rfind os_path.altsep p + 1)))%nat
        with (Z.to_nat (d + 1)) in H by (unfold sep_index in Hlt; lia).
      rewrite Hafter in H. exact H. }
  split; [exact Hnodot |]. split; [exact Hnosep |].
  (* the path is the base followed by the extension *)
  pose proof (take_drop (Z.to_nat d) p) as Hp. rewrite Hr in Hp.
  set (base := Str.take (Z.to_nat d) p) in *.
  pose proof (splitext_with_ext base r Hnodot Hnosep) as Hsplit.
  change (String os_path.extsep r) with (String "." r) in Hp.
  rewrite Hp in Hsplit.
  unfold os_path.splitext in Hsplit. fold (sep_index p) in Hsplit. fold d in Hsplit.
  destruct (Z.ltb_spec (sep_index p) d) as [_ | Hc]; [| lia].
  rewrite Hlead in Hsplit.
  destruct (all_dots (file_part base)); [| reflexivity].
  injection Hsplit as _ Hbad. rewrite Hr in Hbad. discriminate Hbad.
Qed.

(** ** Where the result is saved *)

Lemma new_output_image_path_differs (outp postfix : string) :
  postfix <> "" -> new_output_image_path outp postfix <> outp.
Proof.
  intros Hpost Heq.
  destruct (new_output_image_path_split outp postfix) as (base & ext & Hout & _ & Hnew).
  rewrite Hnew in Heq. apply (f_equal String.length) in Heq.
  rewrite Hout, !length_append in Heq.
  destruct postfix as [| c postfix]; [contradiction |]. cbn [String.length] in Heq. lia.
Qed.

(** X1. The path the result is saved to is the output path with the postfix
    put between the two parts [splitext] cuts it into; with a postfix that is
    not empty it is never the output path itself. *)
Theorem output_path_placement (outp postfix : string) :
  exists base ext,
    outp = base +:+ ext
    /\ os_path.splitext outp = (base, ext)
    /\ new_output_image_path outp postfix = base +:+ postfix +:+ ext
    /\ (postfix <> "" -> new_output_image_path outp postfix <> outp).
Proof.
  destruct (new_output_image_path_split outp postfix) as (base & ext & Hout & Hsplit & Hnew).
  exists base, ext. repeat split; try assumption.
  apply new_output_image_path_differs.
Qed.

Lemma all_dots_append (s t : string) : all_dots (s +:+ t) = all_dots s && all_dots t.
Proof. apply all_append. Qed.

(** X2. When the output path has an extension and the postfix holds no
    separator, the path the result is saved to has the same extension, and
    what precedes it is the old stem followed by the postfix; so the format
    that [save] picks for a copy is the one registered for the extension of
    the output path, whatever the postfix is. *)
Theorem output_extension_kept (outp postfix : string) (w : World) :
  (os_path.splitext outp).2 <> "" ->
  no_separator postfix = true ->
  os_path.splitext (new_output_image_path outp postfix)
    = ((os_path.splitext outp).1 +:+ postfix, (os_path.splitext outp).2)
  /\ save_format w (new_output_image_path outp postfix) None
     = EXTENSION w !! Str.lower (os_path.splitext outp).2.
Proof.
  intros Hext Hpost.
  assert (Hsplit : os_path.splitext (new_output_image_path outp postfix)
                   = ((os_path.splitext outp).1 +:+ postfix, (os_path.splitext outp).2)).
  { destruct (splitext_ext_shape outp) as [He | (r & He & Hdot & Hsep & Hname)];
      [contradiction |].
    unfold new_output_image_path.
    destruct (os_path.splitext outp) as [base ext]. cbn [fst snd] in *. subst ext.
    rewrite <- append_assoc, splitext_with_ext by assumption.
    rewrite (file_part_append base postfix Hpost), all_dots_append, Hname.
    reflexivity. }
  split; [exact Hsplit |].
  unfold save_format. rewrite Hsplit. reflexivity.
Qed.

Lemma output_extension_kept_witness :
  os_path.splitext (new_output_image_path "C:/out\a.JPG" "_b") = ("C:/out\a_b", ".JPG")
  /\ save_format (Sample.world ∅ (Sample.fields "" "" "" "") (Sample.person No []))
       (new_output_image_path "C:/out\a.JPG" "_b") None
     = Some "JPEG".
Proof.
  apply (output_extension_kept "C:/out\a.JPG" "_b"
           (Sample.world ∅ (Sample.fields "" "" "" "") (Sample.person No []))).
  - discriminate.
  - reflexivity.
Defined.

(** ** What [add_white_border] leaves alone *)

Lemma bind_lift_post {A B} (P : World -> Prop) (r : exn + A) (k : A -> M B) (w : World) :
  (forall a, P (k a w).2) -> P w -> P (bind (lift r) k w).2.
Proof. intros Hk Hw. rewrite bind_lift. destruct r; [exact Hw | apply Hk]. Qed.





(** Every world [add_white_border] can end in: the one it started in, the
    one in which the crop question was asked, or what [save] makes of one
    of these two. *)
Lemma add_white_border_post (P : World -> Prop) inp outp ow oh b postfix (w : World) :
  P w -> P (asked outp w) ->
  (forall w0 img dpi,
      w0 = w \/ w0 = asked outp w ->
      P (Image_save img (new_output_image_path outp postfix) None 100 dpi w0).2) ->
  P (add_white_border inp outp ow oh b postfix w).2.
Proof.
  intros Hw Hasked Hsave.
  unfold add_white_border. unfold bind at 1. unfold Image_open.
  destruct (fs w !! inp) as [[src | doc |] |]; try exact Hw.
  rewrite (rotate_by_exif_format (Image_copy (decoded src)) eq_refl).
  destruct (im_size _) as [original_width original_height].
  apply bind_lift_post; [| exact Hw].
  intros [[resize_width resize_height] calc].
  destruct (PyFloat.ltz calc).
  - rewrite bind_bind, bind_askquestion, bind_ret. fold (asked outp w).
    destruct (negb (negb _)); [exact Hasked |].
    repeat (apply bind_lift_post; [intros ? | exact Hasked]).
    unfold bind.
    match goal with
    | |- context [Image_save ?i ?p ?f ?q ?d ?w0] =>
        pose proof (Hsave w0 i d (or_intror eq_refl)) as Hs;
        destruct (Image_save i p f q d w0) as [[? | []] ?]; exact Hs
    end.
  - rewrite bind_ret. cbn [negb].
    repeat (apply bind_lift_post; [intros ? | exact Hw]).
    unfold bind.
    match goal with
    | |- context [Image_save ?i ?p ?f ?q ?d ?w0] =>
        pose proof (Hsave w0 i d (or_introl eq_refl)) as Hs;
        destruct (Image_save i p f q d w0) as [[? | []] ?]; exact Hs
    end.
Qed.






(** X5. A file whose extension no plug-in has registered is never written: the
    call does not return [True], and every file is as it was. *)
Theorem unknown_extension_not_written inp outp ow oh b postfix (w : World) :
  EXTENSION w !! Str.lower (os_path.splitext (new_output_image_path outp postfix)).2 = None ->
  (add_white_border inp outp ow oh b postfix w).1 <> inr (PyBool true)
  /\ fs (add_white_border inp outp ow oh b postfix w).2 = fs w.
Proof.
  intros Hext. split.
  - intros Hrun.
    destruct (add_white_border_success inp outp ow oh b postfix w
                (add_white_border inp outp ow oh b postfix w).2)
      as (src & out & _ & Hfmt & _).
    { rewrite <- Hrun. apply surjective_pairing. }
    unfold save_format in Hfmt. rewrite Hext in Hfmt. discriminate.
  - apply (add_white_border_post (fun w' => fs w' = fs w)); try reflexivity.
    intros w0 img dpi Hw0. unfold Image_save, save_format.
    replace (EXTENSION w0) with (EXTENSION w) by (destruct Hw0 as [-> | ->]; reflexivity).
    rewrite Hext. destruct Hw0 as [-> | ->]; reflexivity.
Qed.

(** A photo without an extension. *)
Lemma unknown_extension_not_written_witness :
  let w := Sample.world {[ "C:/in/photo" := ImageFile (Sample.photo 5 1000 2000 "JPEG" None) ]}
                        (Sample.fields "" "" "" "") (Sample.person No []) in
  (add_white_border "C:/in/photo" "C:/out\photo" 800 1600 40 "_b" w).1 <> inr (PyBool true)
  /\ fs (add_white_border "C:/in/photo" "C:/out\photo" 800 1600 40 "_b" w).2 = fs w.
Proof.
  apply (unknown_extension_not_written "C:/in/photo" "C:/out\photo" 800 1600 40 "_b").
  vm_compute. reflexivity.
Defined.

(** ** How the steps of [add_white_border] compose *)

Lemma resize_geometry_fixed_axis (w h ow oh b : Z) rw rh calc :
  resize_geometry w h ow oh b = inr (rw, rh, calc) ->
  if w <? h then rh = PInt (oh - b * 2) else rw = PInt (ow - b * 2).
Proof.
  unfold resize_geometry. destruct (w <? h).
  - destruct (PyFloat.int_truediv _ _); [discriminate |]. cbn [ebind].
    destruct (PyFloat.of_int _); [discriminate |]. cbn [ebind].
    intros [= _ <- _]. reflexivity.
  - destruct (PyFloat.int_truediv _ _); [discriminate |]. cbn [ebind].
    destruct (PyFloat.of_int _); [discriminate |]. cbn [ebind].
    intros [= <- _ _]. reflexivity.
Qed.

Lemma Image_resize_pixels (img out : image) (size : Z * Z) :
  Image_resize img size = inr out ->
  im_pixels out = if bool_decide (im_size img = size) then im_pixels img
                  else Resized size.1 size.2 (im_pixels img).
Proof.
  unfold Image_resize. destruct size as [w h].
  case_bool_decide as Hsz.
  - intros [= <-]. reflexivity.
  - destruct ((w <? 1) || (h <? 1)); [discriminate |]. intros [= <-]. reflexivity.
Qed.

Lemma ImageOps_expand_result (img out : image) (l t : Z) (fill : string) :
  ImageOps_expand img (l, t) fill = inr out ->
  im_size out = (l + (im_size img).1 + l, t + (im_size img).2 + t)
  /\ im_pixels out = Expanded l t fill (im_pixels img).
Proof.
  unfold ImageOps_expand. destruct (im_size img) as [w h].
  destruct ((_ <? 0) || (_ <? 0)); [discriminate |]. intros [= <-]. split; reflexivity.
Qed.

(** Every step of a call that returned [True]. *)
Lemma add_white_border_run inp outp ow oh b postfix (w w' : World) (src : image_file) :
  fs w !! inp = Some (ImageFile src) ->
  add_white_border inp outp ow oh b postfix w = (inr (PyBool true), w') ->
  let img := rotate_by_exif (Image_copy (decoded src)) in
  exists rwf rhf calc rw rh cb resized bordered final w2,
    resize_geometry (im_size img).1 (im_size img).2 ow oh b = inr (rwf, rhf, calc)
    /\ py_int rwf = inr rw /\ py_int rhf = inr rh
    /\ Image_resize img (rw, rh) = inr resized
    /\ PyFloat.to_int calc = inr cb
    /\ ImageOps_expand resized
         (if (im_size img).1 <? (im_size img).2 then (cb, b) else (b, cb)) "white"
       = inr bordered
    /\ Image_resize bordered (ow, oh) = inr final
    /\ (w2 = w \/ w2 = asked outp w)
    /\ Image_save final (new_output_image_path outp postfix) None 100 (file_dpi src) w2
       = (inr tt, w').
Proof.
  intros Hsrc H img. unfold add_white_border in H.
  rewrite (bind_Image_open _ _ _ _ Hsrc) in H. fold img in H.
  destruct (im_size img) as [original_width original_height] eqn:Hsize.
  cbn [fst snd].
  lift_step H g Hg. destruct g as [[resize_width resize_height] calc].
  apply bind_inr in H. destruct H as (proceed & w2 & Hask & H).
  assert (Hw2 : w2 = w \/ w2 = asked outp w).
  { destruct (PyFloat.ltz calc).
    - rewrite bind_askquestion in Hask. apply ret_inr in Hask. destruct Hask as [_ ->].
      right. reflexivity.
    - apply ret_inr in Hask. destruct Hask as [_ ->]. left. reflexivity. }
  destruct proceed; cbn [negb] in H; [| apply ret_inr in H; destruct H; discriminate].
  lift_step H rw Hrw. lift_step H rh Hrh. lift_step H resized_img Hrs.
  lift_step H cb Hcb. lift_step H bordered Hex. lift_step H final Hfin.
  apply bind_inr in H. destruct H as ([] & w3 & Hsave & H).
  apply ret_inr in H. destruct H as [_ ->].
  assert (Hfmt : im_format img = None) by (apply rotate_by_exif_format; reflexivity).
  assert (Hdpi : im_dpi img = file_dpi src) by apply rotate_by_exif_dpi.
  rewrite Hfmt, Hdpi in Hsave.
  exists resize_width, resize_height, calc, rw, rh, cb, resized_img, bordered, final, w2.
  repeat split; assumption.
Qed.

(** What the steps write. *)
Lemma add_white_border_written inp outp ow oh b postfix (w w' : World) (src : image_file) :
  fs w !! inp = Some (ImageFile src) ->
  add_white_border inp outp ow oh b postfix w = (inr (PyBool true), w') ->
  let img := rotate_by_exif (Image_copy (decoded src)) in
  exists rwf rhf calc rw rh cb out,
    resize_geometry (im_size img).1 (im_size img).2 ow oh b = inr (rwf, rhf, calc)
    /\ py_int rwf = inr rw /\ py_int rhf = inr rh /\ PyFloat.to_int calc = inr cb
    /\ fs w' !! new_output_image_path outp postfix = Some (ImageFile out)
    /\ file_pixels out = bordered_pixels (im_pixels img) (im_size img) ow oh b rw rh cb.
Proof.
  intros Hsrc H img.
  destruct (add_white_border_run inp outp ow oh b postfix w w' src Hsrc H)
    as (rwf & rhf & calc & rw & rh & cb & resized & bordered & final & w2
        & Hg & Hrw & Hrh & Hrs & Hcb & Hex & Hfin & Hw2 & Hsave).
  fold img in Hg, Hrs, Hex.
  exists rwf, rhf, calc, rw, rh, cb.
  pose proof (Image_resize_size _ _ _ Hrs) as Hrsize.
  pose proof (Image_resize_pixels _ _ _ Hrs) as Hrpix. cbn [fst snd] in Hrpix.
  unfold Image_save in Hsave.
  destruct (save_format w2 _ _) as [fmt |]; [| discriminate].
  destruct (can_write w2 _); cbn [negb] in Hsave; [| discriminate].
  destruct (can_encode w2 fmt final _ _); [| discriminate].
  injection Hsave as <-.
  eexists. split; [exact Hg |]. split; [exact Hrw |]. split; [exact Hrh |].
  split; [exact Hcb |].
  cbn [fs set_fs]. rewrite lookup_insert_eq. split; [reflexivity |].
  cbn [file_pixels]. unfold bordered_pixels.
  destruct ((im_size img).1 <? (im_size img).2).
  - apply ImageOps_expand_result in Hex. destruct Hex as [Hesize Hepix].
    rewrite Hrsize in Hesize. cbn [fst snd] in Hesize.
    rewrite (Image_resize_pixels _ _ _ Hfin), Hesize, Hepix, Hrpix. reflexivity.
  - apply ImageOps_expand_result in Hex. destruct Hex as [Hesize Hepix].
    rewrite Hrsize in Hesize. cbn [fst snd] in Hesize.
    rewrite (Image_resize_pixels _ _ _ Hfin), Hesize, Hepix, Hrpix. reflexivity.
Qed.

(** X6. What a completed call has written.  The size the oriented picture
    is resized to and the border on the other axis are the ones
    [resize_geometry] gives, each cut to an [int]; the written pixels are
    the oriented picture resized to that size (left alone when it has it
    already), padded in white by the configured border on the fixed axis
    and by the cut derived border on the other, and resampled to the target
    only when the padded size is not the target.  On the fixed axis the
    padded size is the target already. *)
Theorem add_white_border_pipeline inp outp ow oh b postfix (w w' : World)
    (src : image_file) :
  fs w !! inp = Some (ImageFile src) ->
  add_white_border inp outp ow oh b postfix w = (inr (PyBool true), w') ->
  let img := rotate_by_exif (Image_copy (decoded src)) in
  let portrait := (im_size img).1 <? (im_size img).2 in
  exists rwf rhf calc rw rh cb out,
    resize_geometry (im_size img).1 (im_size img).2 ow oh b = inr (rwf, rhf, calc)
    /\ py_int rwf = inr rw /\ py_int rhf = inr rh /\ PyFloat.to_int calc = inr cb
    /\ fs w' !! new_output_image_path outp postfix = Some (ImageFile out)
    /\ file_pixels out = bordered_pixels (im_pixels img) (im_size img) ow oh b rw rh cb
    /\ (if portrait then rh = oh - b * 2 /\ b + rh + b = oh
        else rw = ow - b * 2 /\ b + rw + b = ow).
Proof.
  intros Hsrc H img portrait.
  destruct (add_white_border_written inp outp ow oh b postfix w w' src Hsrc H)
    as (rwf & rhf & calc & rw & rh & cb & out & Hg & Hrw & Hrh & Hcb & Hout & Hpix).
  fold img in Hg, Hpix.
  exists rwf, rhf, calc, rw, rh, cb, out.
  repeat (split; [assumption |]).
  pose proof (resize_geometry_fixed_axis _ _ _ _ _ _ _ _ Hg) as Hfixed.
  subst portrait. destruct ((im_size img).1 <? (im_size img).2).
  - subst rhf. cbn [py_int] in Hrh. injection Hrh as <-. split; [reflexivity | lia].
  - subst rwf. cbn [py_int] in Hrw. injection Hrw as <-. split; [reflexivity | lia].
Qed.

(** The landscape photograph on a 2000 x 1000 canvas with a border of 50:
    1900 x 1425, a derived border of -212, and a last resize from 2000 x
    1001. *)
Lemma add_white_border_pipeline_witness :
  let src := Sample.photo 1 4000 3000 "JPEG" None in
  let w := Sample.world Sample.two_photos (Sample.fields "" "" "" "")
                        (Sample.person Yes []) in
  let w' := (add_white_border "C:/in/a.jpg" "C:/out\a.jpg" 2000 1000 50 "_b" w).2 in
  let img := rotate_by_exif (Image_copy (decoded src)) in
  let portrait := (im_size img).1 <? (im_size img).2 in
  exists rwf rhf calc rw rh cb out,
    resize_geometry (im_size img).1 (im_size img).2 2000 1000 50 = inr (rwf, rhf, calc)
    /\ py_int rwf = inr rw /\ py_int rhf = inr rh /\ PyFloat.to_int calc = inr cb
    /\ fs w' !! new_output_image_path "C:/out\a.jpg" "_b" = Some (ImageFile out)
    /\ file_pixels out
       = bordered_pixels (im_pixels img) (im_size img) 2000 1000 50 rw rh cb
    /\ (if portrait then rh = 1000 - 50 * 2 /\ 50 + rh + 50 = 1000
        else rw = 2000 - 50 * 2 /\ 50 + rw + 50 = 2000).
Proof.
  intros src w w'.
  apply (add_white_border_pipeline "C:/in/a.jpg" "C:/out\a.jpg" 2000 1000 50 "_b" w w' src).
  - vm_compute. reflexivity.
  - vm_compute. reflexivity.
Defined.

(** ** The rotation, in what is written *)

Lemma rotate_by_exif_turn (img : image) :
  im_pixels (rotate_by_exif img)
  = match turn_of_tag (im_exif img !! 0x0112) with
    | Some a => Rotated a (im_pixels img)
    | None => im_pixels img
    end
  /\ im_size (rotate_by_exif img)
     = match turn_of_tag (im_exif img !! 0x0112) with
       | Some Deg90 | Some Deg270 => ((im_size img).2, (im_size img).1)
       | _ => im_size img
       end.
Proof.
  rewrite rotate_by_exif_cases. unfold turn_of_tag.
  destruct (im_exif img !! 0x0112) as [[n |] |]; [| split; reflexivity ..].
  destruct (n =? 8);
    [unfold Image_rotate; destruct (im_size img); split; reflexivity |].
  destruct (n =? 3);
    [unfold Image_rotate; destruct (im_size img); split; reflexivity |].
  destruct (n =? 6);
    [unfold Image_rotate; destruct (im_size img); split; reflexivity |].
  split; reflexivity.
Qed.

(** C7. [add_white_border] turns the picture by 90, 180 or 270 degrees
    exactly when the orientation tag (0x0112) of the source is the int 8, 3
    or 6, and not at all for any other value, a missing tag or missing EXIF
    data ([turn_of_tag]); and it does so before anything else: in a call
    that returned [True], the geometry is computed from the sides of the
    source as they are after that turn (swapped for 90 and 270 degrees),
    and the pixels that are resized, padded and written are the pixels of
    the source after that turn. *)
Theorem exif_rotation inp outp ow oh b postfix (w w' : World) (src : image_file) :
  fs w !! inp = Some (ImageFile src) ->
  add_white_border inp outp ow oh b postfix w = (inr (PyBool true), w') ->
  let turn := turn_of_tag (file_exif src !! 0x0112) in
  let pixels := match turn with
                | Some a => Rotated a (file_pixels src)
                | None => file_pixels src
                end in
  let size := match turn with
              | Some Deg90 | Some Deg270 => ((file_size src).2, (file_size src).1)
              | _ => file_size src
              end in
  exists rwf rhf calc rw rh cb out,
    resize_geometry size.1 size.2 ow oh b = inr (rwf, rhf, calc)
    /\ py_int rwf = inr rw /\ py_int rhf = inr rh /\ PyFloat.to_int calc = inr cb
    /\ fs w' !! new_output_image_path outp postfix = Some (ImageFile out)
    /\ file_pixels out = bordered_pixels pixels size ow oh b rw rh cb.
Proof.
  intros Hsrc H turn pixels size.
  destruct (add_white_border_written inp outp ow oh b postfix w w' src Hsrc H)
    as (rwf & rhf & calc & rw & rh & cb & out & Hg & Hrw & Hrh & Hcb & Hout & Hpix).
  destruct (rotate_by_exif_turn (Image_copy (decoded src))) as [Hp Hs].
  cbn [Image_copy decoded im_exif im_pixels im_size] in Hp, Hs.
  fold turn in Hp, Hs. fold pixels in Hp. fold size in Hs.
  rewrite Hp, Hs in Hpix. rewrite Hs in Hg.
  exists rwf, rhf, calc, rw, rh, cb, out. repeat split; assumption.
Qed.

(** A photograph taken with the camera turned: 4000 x 3000 on the sensor,
    tag 6.  The turned picture is 3000 x 4000, a portrait. *)
Lemma exif_rotation_witness :
  let src := Sample.photo 9 4000 3000 "JPEG" (Some 6) in
  let w := Sample.world {[ "C:/in/IMG_1.JPG" := ImageFile src ]}
                        (Sample.fields "" "" "" "") (Sample.person Yes []) in
  let w' := (add_white_border "C:/in/IMG_1.JPG" "C:/out\IMG_1.JPG" 800 1600 40 "_b" w).2 in
  exists rwf rhf calc rw rh cb out,
    resize_geometry 3000 4000 800 1600 40 = inr (rwf, rhf, calc)
    /\ py_int rwf = inr rw /\ py_int rhf = inr rh /\ PyFloat.to_int calc = inr cb
    /\ fs w' !! new_output_image_path "C:/out\IMG_1.JPG" "_b" = Some (ImageFile out)
    /\ file_pixels out
       = bordered_pixels (Rotated Deg270 (Decoded 9)) (3000, 4000) 800 1600 40 rw rh cb.
Proof.
  intros src w w'.
  apply (exif_rotation "C:/in/IMG_1.JPG" "C:/out\IMG_1.JPG" 800 1600 40 "_b" w w' src).
  - vm_compute. reflexivity.
  - vm_compute. reflexivity.
Defined.

(** ** A source that cannot be opened *)

(** X7. A path at which there is no file: [add_white_border] raises
    [FileNotFoundError] before anything is shown or written, and the loop of
    [process_images] stops there: the files after it are not processed. *)
Theorem missing_source_aborts_batch inp outp rest dir ow oh b postfix (w : World) :
  fs w !! inp = None ->
  add_white_border inp outp ow oh b postfix w = (inl (FileNotFoundError inp), w)
  /\ process_images_loop (inp :: rest) dir ow oh b postfix w
     = (inl (FileNotFoundError inp), w).
Proof.
  intros Hmissing.
  assert (Hrun : forall o, add_white_border inp o ow oh b postfix w
                           = (inl (FileNotFoundError inp), w)).
  { intros o. unfold add_white_border. unfold bind at 1. unfold Image_open.
    rewrite Hmissing. reflexivity. }
  split; [apply Hrun |].
  cbn [process_images_loop]. unfold bind at 1. rewrite Hrun. reflexivity.
Qed.

Lemma missing_source_aborts_batch_witness :
  let w := Sample.world Sample.two_photos (Sample.fields "" "" "" "")
                        (Sample.person Yes []) in
  add_white_border "C:/in/gone.jpg" "C:/out\gone.jpg" 800 1600 40 "_b" w
    = (inl (FileNotFoundError "C:/in/gone.jpg"), w)
  /\ process_images_loop ("C:/in/gone.jpg" :: ["C:/in/b.jpg"]) "C:/out" 800 1600 40 "_b" w
     = (inl (FileNotFoundError "C:/in/gone.jpg"), w).
Proof.
  apply missing_source_aborts_batch. vm_compute. reflexivity.
Defined.

(** ** More on strings: how a string ends *)

Lemma rev_onto_append (acc s : string) : Str.rev_onto acc s = Str.rev_onto "" s +:+ acc.
Proof.
  revert acc. induction s as [| c s IH]; intros acc; [reflexivity |].
  cbn [Str.rev_onto]. rewrite (IH (String c acc)), (IH (String c "")).
  rewrite append_assoc. reflexivity.
Qed.

Lemma rev_append (s t : string) : Str.rev (s +:+ t) = Str.rev t +:+ Str.rev s.
Proof.
  unfold Str.rev. induction s as [| c s IH].
  - change ("" +:+ t) with t. rewrite append_empty_r. reflexivity.
  - change (String c s +:+ t) with (String c (s +:+ t)). cbn [Str.rev_onto].
    rewrite (rev_onto_append (String c "") (s +:+ t)), IH.
    rewrite (rev_onto_append (String c "") s), append_assoc. reflexivity.
Qed.

Lemma rev_involutive (s : string) : Str.rev (Str.rev s) = s.
Proof.
  induction s as [| c s IH]; [reflexivity |].
  change (String c s) with (String c "" +:+ s) at 1.
  rewrite rev_append, rev_append, IH. reflexivity.
Qed.

Lemma prefix_append (s t : string) : String.prefix s (s +:+ t) = true.
Proof.
  induction s as [| c s IH]; [destruct t; reflexivity |].
  change (String c s +:+ t) with (String c (s +:+ t)). cbn [String.prefix].
  destruct (ascii_dec c c); [exact IH | contradiction].
Qed.

Lemma prefix_split (s u : string) :
  String.prefix s u = true -> exists t, u = s +:+ t.
Proof.
  revert u. induction s as [| c s IH]; intros u H; [exists u; reflexivity |].
  destruct u as [| d u]; [discriminate |]. cbn [String.prefix] in H.
  destruct (ascii_dec c d) as [-> | _]; [| discriminate].
  destruct (IH u H) as [t ->]. exists t. reflexivity.
Qed.

Lemma endswith_append (s suffix : string) : Str.endswith (s +:+ suffix) suffix = true.
Proof. unfold Str.endswith. rewrite rev_append. apply prefix_append. Qed.

Lemma endswith_split (s suffix : string) :
  Str.endswith s suffix = true -> exists t, s = t +:+ suffix.
Proof.
  unfold Str.endswith. intros H. apply prefix_split in H. destruct H as [t Ht].
  exists (Str.rev t). rewrite <- (rev_involutive s), Ht, rev_append, rev_involutive.
  reflexivity.
Qed.

Lemma append_inj_r (s s' t : string) : s +:+ t = s' +:+ t -> s = s'.
Proof.
  intros H. apply (f_equal Str.rev) in H. rewrite !rev_append in H.
  assert (Ha : Str.rev s = Str.rev s').
  { revert H. generalize (Str.rev s) as a, (Str.rev s') as a'.
    induction (Str.rev t) as [| c x IH]; intros a a' H; [exact H |].
    injection H as H. exact (IH _ _ H). }
  rewrite <- (rev_involutive s), Ha. apply rev_involutive.
Qed.

(** ** The names in the dropdown *)

Lemma listed_no_separator (f : string) (w : World) :
  In f (os_listdir w) -> no_separator f = true.
Proof. unfold os_listdir. intros H. apply filter_In in H. apply H. Qed.

Lemma splitext_json (t : string) :
  no_separator t = true ->
  os_path.splitext (t +:+ ".json")
  = if all_dots t then (t +:+ ".json", "") else (t, ".json").
Proof.
  intros Ht. change ".json" with (String "." "json").
  rewrite splitext_with_ext by reflexivity.
  rewrite (file_part_no_separator t Ht). reflexivity.
Qed.

Lemma config_names_shape (w : World) (n : string) :
  In n (map (fun f => (os_path.splitext f).1)
          (List.filter (fun f => Str.endswith f ".json"
                                 && negb (String.eqb f (last_json_data +:+ ".json")))
             (os_listdir w))) ->
  exists t, no_separator t = true
            /\ In (t +:+ ".json") (os_listdir w)
            /\ t +:+ ".json" <> last_json_data +:+ ".json"
            /\ n = (if all_dots t then t +:+ ".json" else t).
Proof.
  intros Hn. apply in_map_iff in Hn. destruct Hn as (f & Hf & Hin).
  apply filter_In in Hin. destruct Hin as [Hlisted Htest].
  apply andb_true_iff in Htest. destruct Htest as [Hends Hnot].
  apply endswith_split in Hends. destruct Hends as [t ->].
  pose proof (listed_no_separator _ _ Hlisted) as Hsep.
  unfold no_separator in Hsep. rewrite all_append in Hsep.
  apply andb_true_iff in Hsep. destruct Hsep as [Hsep _].
  exists t. split; [exact Hsep |]. split; [exact Hlisted |]. split.
  - apply negb_true_iff, String.eqb_neq in Hnot. exact Hnot.
  - rewrite <- Hf, (splitext_json t Hsep). destruct (all_dots t); reflexivity.
Qed.

Lemma last_config_not_listed (w : World) :
  ~ In last_json_data
      (map (fun f => (os_path.splitext f).1)
         (List.filter (fun f => Str.endswith f ".json"
                                && negb (String.eqb f (last_json_data +:+ ".json")))
            (os_listdir w))).
Proof.
  intros Hin. destruct (config_names_shape _ _ Hin) as (t & _ & _ & Hne & Hn).
  destruct (all_dots t).
  - apply (f_equal Str.rev) in Hn. rewrite rev_append in Hn. discriminate Hn.
  - apply Hne. rewrite <- Hn. reflexivity.
Qed.

(** X8. [get_all_config_files] always returns, and changes nothing. The name
    of the last-used record is never among the names it returns. Each name it
    returns stands for an entry of the working directory: the entry is the
    name followed by .json, but for an entry that is only dots before .json,
    which is listed under its full name. *)
Theorem config_names_listed (w : World) :
  exists names,
    get_all_config_files w = (inr names, w)
    /\ ~ In last_json_data names
    /\ forall n, In n names ->
         In (n +:+ ".json") (os_listdir w)
         \/ (In n (os_listdir w) /\ exists d, all_dots d = true /\ n = d +:+ ".json").
Proof.
  eexists. split; [reflexivity |].
  split; [apply last_config_not_listed |].
  intros n Hin. destruct (config_names_shape _ _ Hin) as (t & _ & Hlisted & _ & Hn).
  destruct (all_dots t) eqn:Hdots; subst n.
  - right. split; [exact Hlisted |]. exists t. split; [exact Hdots | reflexivity].
  - left. exact Hlisted.
Qed.

Lemma written_file_listed (path : string) (f : file) (w : World) :
  no_separator path = true ->
  In path (os_listdir (set_fs (<[path := f]> (fs w)) w)).
Proof.
  intros Hsep. unfold os_listdir. apply filter_In. split; [| exact Hsep].
  apply in_or_app. left. apply list_elem_of_In.
  apply list_elem_of_fmap. exists (path, f). split; [reflexivity |].
  apply elem_of_map_to_list. cbn [fs set_fs]. apply lookup_insert_eq.
Qed.

(** X9. A configuration saved with the button shows up in the dropdown: when
    the name has no separator, is not made of dots only and is not the name of
    the last-used record, and the file can be written, the name is one of the
    values the dropdown has afterwards. (File names are told apart exactly,
    letter case included.) *)
Theorem saved_name_listed (name : string) (w : World) :
  reply_string (user w) (length (trace w)) = Some name ->
  no_separator name = true ->
  all_dots name = false ->
  name <> last_json_data ->
  can_write w (name +:+ ".json") = true ->
  In name (combo_values (save_configuration all_entries (Some "button") w).2).
Proof.
  intros Hreply Hsep Hdots Hlast Hcw. unfold save_configuration.
  rewrite bool_decide_eq_true_2 by reflexivity.
  unfold bind at 1. unfold askstring. rewrite Hreply.
  destruct name as [| c rest]; [discriminate |].
  unfold bind, Entry_get, try_except, write_json, get_all_config_files,
    set_load_combo_values, ret.
  cbn [can_write set_trace]. rewrite Hcw.
  cbn [combo_values set_combo_values snd].
  set (name := String c rest) in *.
  apply in_map_iff. exists (name +:+ ".json"). split.
  - rewrite (splitext_json name Hsep), Hdots. reflexivity.
  - apply filter_In. split.
    + apply (written_file_listed (name +:+ ".json")).
      unfold no_separator in *. rewrite all_append, Hsep. reflexivity.
    + apply andb_true_iff. split; [apply endswith_append |].
      apply negb_true_iff, String.eqb_neq. intros Heq. apply Hlast.
      exact (append_inj_r _ _ _ Heq).
Qed.

Lemma saved_name_listed_witness :
  In "holiday"
     (combo_values (save_configuration all_entries (Some "button")
                      (Sample.world Sample.two_photos (Sample.fields "800" "1600" "40" "_b")
                                    (Sample.person No []))).2).
Proof.
  apply saved_name_listed; try reflexivity. discriminate.
Defined.

(** ** Saving that does not go through *)

(** X10. The name dialog is cancelled, or closed with an empty name: a warning
    is shown and that is all; no file is written and the dropdown is as it
    was. *)
Theorem save_configuration_no_name (w : World) :
  reply_string (user w) (length (trace w)) = None
  \/ reply_string (user w) (length (trace w)) = Some "" ->
  save_configuration all_entries (Some "button") w
  = (inr PyNone,
     set_trace (trace w ++ [AskString "Save Configuration" "Enter configuration name:";
                            ShowWarning "Invalid Name"
                              "Please enter a valid name for the configuration."]) w).
Proof.
  intros Hreply. unfold save_configuration.
  rewrite bool_decide_eq_true_2 by reflexivity.
  unfold bind at 1. unfold askstring.
  destruct Hreply as [-> | ->];
    unfold bind, showwarning, emit, ret; cbn [trace set_trace];
    rewrite <- app_assoc; reflexivity.
Qed.

Lemma save_configuration_no_name_witness :
  let w := Sample.world Sample.two_photos (Sample.fields "800" "1600" "40" "_b")
             {| reply_question := fun _ => No; reply_string := fun _ => None;
                reply_filenames := fun _ => []; reply_directory := fun _ => "C:/out" |} in
  save_configuration all_entries (Some "button") w
  = (inr PyNone,
     set_trace (trace w ++ [AskString "Save Configuration" "Enter configuration name:";
                            ShowWarning "Invalid Name"
                              "Please enter a valid name for the configuration."]) w).
Proof.
  intros w. apply (save_configuration_no_name w). left. reflexivity.
Defined.

(** X11. The file of the record cannot be written: the error is caught and
    shown in a dialog, the call returns normally, and files, form and dropdown
    are as they were. This holds for the button (after the name was asked for)
    and for the last-used record that [process_images] saves. *)
Theorem save_configuration_write_failure (source : option string) (name : string) (w : World) :
  (if bool_decide (source = Some "button")
   then reply_string (user w) (length (trace w)) = Some name
   else name = last_json_data) ->
  name <> "" ->
  can_write w (name +:+ ".json") = false ->
  save_configuration all_entries source w
  = (inr PyNone,
     set_trace (trace w
                ++ (if bool_decide (source = Some "button")
                    then [AskString "Save Configuration" "Enter configuration name:"]
                    else [])
                ++ [ShowError "Error"
                      ("Failed to save configuration: "
                       +:+ exn_text (OSError (name +:+ ".json")))]) w).
Proof.
  intros Hname Hne Hcw. unfold save_configuration.
  case_bool_decide as Hsource.
  - unfold bind at 1. unfold askstring. rewrite Hname.
    destruct name as [| c rest]; [contradiction |].
    unfold bind, Entry_get, try_except, write_json, showerror, emit, ret.
    cbn [can_write set_trace trace]. rewrite Hcw.
    cbn [trace set_trace]. rewrite <- app_assoc. reflexivity.
  - rewrite bind_ret. subst name.
    unfold bind, Entry_get, try_except, write_json, showerror, emit, ret.
    unfold last_json_data in *. cbv beta iota. rewrite Hcw. reflexivity.
Qed.

(** The working directory is read-only when [process_images] saves the
    last-used record. *)
Lemma save_configuration_write_failure_witness :
  let w := {| fs := Sample.two_photos; dirs := ∅; can_write := fun _ => false;
              can_encode := fun _ _ _ _ => true; EXTENSION := Sample.extensions;
              unicode_int := fun _ => None;
              entry_text := Sample.fields "800" "1600" "40" "_b"; combo_text := "";
              combo_values := []; trace := []; user := Sample.person No [] |} in
  save_configuration all_entries None w
  = (inr PyNone,
     set_trace [ShowError "Error"
                  ("Failed to save configuration: "
                   +:+ exn_text (OSError "last_config.json"))] w).
Proof.
  intros w.
  apply (save_configuration_write_failure None "last_config" w).
  - reflexivity.
  - discriminate.
  - reflexivity.
Defined.

(** ** Loading records of any content *)

(** The text Tk puts into an entry for a value of a record. *)
Lemma load_field_value (config : json) (e : widget) (key : Entries) (v : json_scalar)
    (w : World) :
  config_get config (Entries_value key) = inr v -> v <> JNull ->
  exists w',
    load_field config e key w = (inr tt, w')
    /\ fs w' = fs w /\ trace w' = trace w /\ combo_values w' = combo_values w
    /\ (forall x, entry_text w' x
                  = <[e := match v with JStr s => s | JInt n => pretty n | JNull => "" end]>
                      (entry_text w) x).
Proof.
  intros Hget Hv. unfold load_field, bind, Entry_delete_all, lift. rewrite Hget.
  unfold Entry_insert0.
  destruct v as [s | n |]; [| | contradiction].
  - eexists. split; [reflexivity |]. repeat split.
    intros x. cbn [entry_text set_entry_text].
    destruct (decide (e = x)) as [-> | Hne].
    + rewrite !fn_lookup_insert. apply append_empty_r.
    + rewrite !fn_lookup_insert_ne by exact Hne. reflexivity.
  - eexists. split; [reflexivity |]. repeat split.
    intros x. cbn [entry_text set_entry_text].
    destruct (decide (e = x)) as [-> | Hne].
    + rewrite !fn_lookup_insert. apply append_empty_r.
    + rewrite !fn_lookup_insert_ne by exact Hne. reflexivity.
Qed.

Lemma load_selected_configuration_file (event : option tk_event) (w : World) :
  load_selected_configuration event w
  = (let selected_file := match event with
                          | Some _ => combo_text w +:+ ".json"
                          | None => last_json_data +:+ ".json"
                          end in
     bind (try_except
             (config <- read_json selected_file ;;
              emit (Printed config) ;;
              load_field config width_entry WIDTH_ENTRY ;;
              load_field config height_entry HEIGHT_ENTRY ;;
              load_field config border_size_height_entry BORDER_SIZE_HEIGHT_ENTRY ;;
              load_field config postfix_entry POSTFIX_ENTRY)
             is_FileNotFoundError
             (fun _ => ret tt))
          (fun _ => ret PyNone) w).
Proof.
  unfold load_selected_configuration. destruct event as [ev |].
  - unfold bind at 1. rewrite append_json_nonempty. reflexivity.
  - rewrite bind_ret. reflexivity.
Qed.

Lemma load_selected_configuration_object (event : option tk_event) (w : World)
    (members : gmap string json_scalar) :
  fs w !! (match event with
           | Some _ => combo_text w +:+ ".json"
           | None => last_json_data +:+ ".json"
           end) = Some (JsonFile (JObject members)) ->
  (forall key : Entries, members !! Entries_value key <> Some JNull) ->
  exists w',
    load_selected_configuration event w = (inr PyNone, w')
    /\ fs w' = fs w
    /\ trace w' = trace w ++ [Printed (JObject members)]
    /\ forall key : Entries,
         entry_text w' (all_entries key)
         = match members !! Entries_value key with
           | Some (JStr s) => s
           | Some (JInt n) => pretty n
           | _ => ""
           end.
Proof.
  intros Hfile Hnull. rewrite load_selected_configuration_file. cbv zeta.
  unfold bind at 1. unfold try_except. unfold bind at 1. unfold read_json.
  rewrite Hfile.
  set (config := JObject members).
  unfold bind at 1. unfold emit.
  set (w0 := set_trace _ w).
  assert (Hget : forall key, exists v,
             config_get config (Entries_value key) = inr v /\ v <> JNull
             /\ match v with JStr s => s | JInt n => pretty n | JNull => "" end
                = match members !! Entries_value key with
                  | Some (JStr s) => s
                  | Some (JInt n) => pretty n
                  | _ => ""
                  end).
  { intros key. specialize (Hnull key). unfold config, config_get.
    destruct (members !! Entries_value key) as [[s | n |] |]; cbn [default];
      eexists; (split; [reflexivity |]); split; try discriminate; try reflexivity.
    contradiction. }
  destruct (Hget WIDTH_ENTRY) as (v1 & Hg1 & Hv1 & Ht1).
  destruct (Hget HEIGHT_ENTRY) as (v2 & Hg2 & Hv2 & Ht2).
  destruct (Hget BORDER_SIZE_HEIGHT_ENTRY) as (v3 & Hg3 & Hv3 & Ht3).
  destruct (Hget POSTFIX_ENTRY) as (v4 & Hg4 & Hv4 & Ht4).
  destruct (load_field_value config width_entry WIDTH_ENTRY v1 w0 Hg1 Hv1)
    as (w1 & Hrun1 & Hfs1 & Htr1 & _ & Htext1).
  destruct (load_field_value config height_entry HEIGHT_ENTRY v2 w1 Hg2 Hv2)
    as (w2 & Hrun2 & Hfs2 & Htr2 & _ & Htext2).
  destruct (load_field_value config border_size_height_entry BORDER_SIZE_HEIGHT_ENTRY
              v3 w2 Hg3 Hv3)
    as (w3 & Hrun3 & Hfs3 & Htr3 & _ & Htext3).
  destruct (load_field_value config postfix_entry POSTFIX_ENTRY v4 w3 Hg4 Hv4)
    as (w4 & Hrun4 & Hfs4 & Htr4 & _ & Htext4).
  unfold bind. rewrite Hrun1, Hrun2, Hrun3, Hrun4.
  exists w4. split; [reflexivity |].
  split; [rewrite Hfs4, Hfs3, Hfs2, Hfs1; reflexivity |].
  split; [rewrite Htr4, Htr3, Htr2, Htr1; reflexivity |].
  intros []; cbn [all_entries].
  - rewrite Htext4, fn_lookup_insert_ne by discriminate.
    rewrite Htext3, fn_lookup_insert_ne by discriminate.
    rewrite Htext2, fn_lookup_insert_ne by discriminate.
    rewrite Htext1, fn_lookup_insert. exact Ht1.
  - rewrite Htext4, fn_lookup_insert_ne by discriminate.
    rewrite Htext3, fn_lookup_insert_ne by discriminate.
    rewrite Htext2, fn_lookup_insert. exact Ht2.
  - rewrite Htext4, fn_lookup_insert_ne by discriminate.
    rewrite Htext3, fn_lookup_insert. exact Ht3.
  - rewrite Htext4, fn_lookup_insert. exact Ht4.
Qed.

(** X12. A record that is a JSON object is loaded whatever keys it has: it is
    printed, and each of the four fields gets the text of its member, the
    decimal text for a number, and is left blank when the record has no such
    member. No file changes. (A member that is null is excluded: Tk refuses
    it.) *)
Theorem load_any_object (event : option tk_event) (w : World)
    (members : gmap string json_scalar) :
  fs w !! (match event with
           | Some _ => combo_text w +:+ ".json"
           | None => last_json_data +:+ ".json"
           end) = Some (JsonFile (JObject members)) ->
  (forall key : Entries, members !! Entries_value key <> Some JNull) ->
  exists w',
    load_selected_configuration event w = (inr PyNone, w')
    /\ fs w' = fs w
    /\ trace w' = trace w ++ [Printed (JObject members)]
    /\ forall key : Entries,
         entry_text w' (all_entries key)
         = match members !! Entries_value key with
           | Some (JStr s) => s
           | Some (JInt n) => pretty n
           | _ => ""
           end.
Proof. apply load_selected_configuration_object. Qed.

(** A record written by hand: the width as a number, no height. *)
Lemma load_any_object_witness :
  let members : gmap string json_scalar :=
    <["postfix" := JStr "_web"]>
    (<["height_border_size" := JStr "10"]> (<["output_width" := JInt 640]> ∅)) in
  let w := Sample.world {[ "web.json" := JsonFile (JObject members) ]}
             (Sample.fields "800" "1600" "40" "_b") (Sample.person No []) in
  let w0 := {| fs := fs w; dirs := dirs w; can_write := can_write w;
               can_encode := can_encode w; EXTENSION := EXTENSION w;
               unicode_int := unicode_int w;
               entry_text := entry_text w; combo_text := "web";
               combo_values := combo_values w; trace := trace w; user := user w |} in
  exists w',
    load_selected_configuration (Some ComboboxSelected) w0 = (inr PyNone, w')
    /\ fs w' = fs w0
    /\ trace w' = trace w0 ++ [Printed (JObject members)]
    /\ forall key : Entries,
         entry_text w' (all_entries key)
         = match members !! Entries_value key with
           | Some (JStr s) => s
           | Some (JInt n) => pretty n
           | _ => ""
           end.
Proof.
  intros members w w0.
  apply (load_any_object (Some ComboboxSelected) w0 members).
  - vm_compute. reflexivity.
  - intros []; vm_compute; discriminate.
Defined.

(** ** Records that cannot be loaded *)

(** X13. Only a missing file is passed over. A file that is there but is not
    JSON makes [load_selected_configuration] raise, with nothing changed: what
    is raised is not a [FileNotFoundError], so the handler lets it through (at
    start-up, where the main block calls it, this ends the program before the
    window is built). *)
Theorem load_undecodable_record (event : option tk_event) (w : World) (f : file) :
  fs w !! (match event with
           | Some _ => combo_text w +:+ ".json"
           | None => last_json_data +:+ ".json"
           end) = Some f ->
  (forall doc, f <> JsonFile doc) ->
  exists e,
    load_selected_configuration event w = (inl e, w)
    /\ is_FileNotFoundError e = false.
Proof.
  intros Hfile Hf. rewrite load_selected_configuration_file. cbv zeta.
  unfold bind at 1. unfold try_except. unfold bind at 1. unfold read_json.
  rewrite Hfile. destruct f as [img | doc |].
  - eexists. split; reflexivity.
  - exfalso. exact (Hf doc eq_refl).
  - eexists. split; reflexivity.
Qed.

Lemma load_undecodable_record_witness :
  let w := Sample.world {[ "last_config.json" := OtherFile ]}
             (Sample.fields "800" "1600" "40" "_b") (Sample.person No []) in
  exists e,
    load_selected_configuration None w = (inl e, w)
    /\ is_FileNotFoundError e = false.
Proof.
  intros w. apply (load_undecodable_record None w OtherFile).
  - vm_compute. reflexivity.
  - discriminate.
Defined.

(** X14. A record that is JSON but not an object (a list, a number, a string):
    it is printed, the width field is emptied, and then the call raises
    [AttributeError]; the other three fields keep their texts. *)
Theorem load_non_object_record (event : option tk_event) (w : World) :
  fs w !! (match event with
           | Some _ => combo_text w +:+ ".json"
           | None => last_json_data +:+ ".json"
           end) = Some (JsonFile JOtherValue) ->
  load_selected_configuration event w
  = (inl AttributeError,
     set_entry_text (<[width_entry := ""]> (entry_text w))
       (set_trace (trace w ++ [Printed JOtherValue]) w)).
Proof.
  intros Hfile. rewrite load_selected_configuration_file. cbv zeta.
  unfold bind at 1. unfold try_except. unfold bind at 1. unfold read_json.
  rewrite Hfile. reflexivity.
Qed.

Lemma load_non_object_record_witness :
  let w := Sample.world {[ "last_config.json" := JsonFile JOtherValue ]}
             (Sample.fields "800" "1600" "40" "_b") (Sample.person No []) in
  load_selected_configuration None w
  = (inl AttributeError,
     set_entry_text (<[width_entry := ""]> (entry_text w))
       (set_trace (trace w ++ [Printed JOtherValue]) w)).
Proof.
  intros w. apply (load_non_object_record None w). vm_compute. reflexivity.
Defined.

(** X25. A directory where the record should be.  The dropdown offers a
    directory of the working directory whose name ends in .json like a
    record; when it is selected (or when last_config.json is a directory at
    start-up), [open] raises an error that is not a [FileNotFoundError], so
    the call raises it, with nothing changed. *)
Theorem load_directory_record (event : option tk_event) (w : World) :
  let selected_file := match event with
                       | Some _ => combo_text w +:+ ".json"
                       | None => last_json_data +:+ ".json"
                       end in
  fs w !! selected_file = None ->
  selected_file ∈ dirs w ->
  exists e,
    load_selected_configuration event w = (inl e, w)
    /\ is_FileNotFoundError e = false.
Proof.
  intros selected_file Hfile Hdir. subst selected_file.
  rewrite load_selected_configuration_file. cbv zeta.
  unfold bind at 1. unfold try_except. unfold bind at 1. unfold read_json.
  rewrite Hfile, (bool_decide_eq_true_2 _ Hdir).
  eexists. split; reflexivity.
Qed.

(** A directory called holiday.json: the dropdown lists "holiday". *)
Lemma load_directory_record_witness :
  let w := {| fs := ∅; dirs := {[ "holiday.json" ]}; can_write := fun _ => true;
              can_encode := fun _ _ _ _ => true; EXTENSION := Sample.extensions;
              unicode_int := fun _ => None;
              entry_text := Sample.fields "800" "1600" "40" "_b"; combo_text := "holiday";
              combo_values := ["holiday"]; trace := []; user := Sample.person No [] |} in
  exists e,
    load_selected_configuration (Some ComboboxSelected) w = (inl e, w)
    /\ is_FileNotFoundError e = false.
Proof.
  intros w. apply (load_directory_record (Some ComboboxSelected) w).
  - reflexivity.
  - cbn. apply elem_of_singleton_2. reflexivity.
Defined.

Lemma all_rev_onto (p : ascii -> bool) (s acc : string) :
  Str.all p (Str.rev_onto acc s) = Str.all p s && Str.all p acc.
Proof.
  revert acc. induction s as [| c s IH]; intros acc; [reflexivity |].
  cbn [Str.rev_onto Str.all]. rewrite IH. cbn [Str.all].
  destruct (p c), (Str.all p s), (Str.all p acc); reflexivity.
Qed.

(** ** Text that [int_of_str] takes is ASCII *)

Lemma all_lstrip (p : ascii -> bool) (s : string) :
  (forall c, Str.is_space c = true -> p c = true) ->
  Str.all p (Str.lstrip s) = true -> Str.all p s = true.
Proof.
  intros Hspace. induction s as [| a s IH]; [reflexivity |].
  cbn [Str.lstrip]. destruct (Str.is_space a) eqn:Ha; [| exact (fun H => H)].
  intros H. cbn [Str.all]. rewrite (Hspace a Ha), (IH H). reflexivity.
Qed.

Lemma all_strip (p : ascii -> bool) (s : string) :
  (forall c, Str.is_space c = true -> p c = true) ->
  Str.all p (Str.strip s) = true -> Str.all p s = true.
Proof.
  intros Hspace H. unfold Str.strip, Str.rev in H.
  rewrite all_rev_onto, andb_true_r in H.
  apply (all_lstrip p _ Hspace) in H.
  rewrite all_rev_onto, andb_true_r in H.
  exact (all_lstrip p _ Hspace H).
Qed.

Lemma int_digits_ascii (s : string) (acc : Z) (b : bool) (n : Z) :
  int_digits acc b s = Some n -> is_ascii s = true.
Proof.
  revert acc b. induction s as [| c s IH]; intros acc b H; [reflexivity |].
  cbn [int_digits] in H. unfold is_ascii. cbn [Str.all].
  assert (Hc : (nat_of_ascii c <? 128)%nat = true
               /\ exists acc' b', int_digits acc' b' s = Some n).
  { destruct (Ascii.is_nat c) as [d |] eqn:Hd.
    - split; [| do 2 eexists; exact H].
      destruct c as [[] [] [] [] [] [] [] []]; try discriminate Hd; reflexivity.
    - destruct (Ascii.eqb c "_") eqn:Hu; [| discriminate H].
      destruct b; [| discriminate H]. cbn [andb] in H.
      apply Ascii.eqb_eq in Hu. subst c.
      split; [reflexivity | do 2 eexists; exact H]. }
  destruct Hc as [Hc (acc' & b' & Hs)]. rewrite Hc. exact (IH _ _ Hs).
Qed.

Lemma int_of_str_ascii (s : string) (n : Z) : int_of_str s = inr n -> is_ascii s = true.
Proof.
  unfold int_of_str. intros H.
  apply all_strip.
  { intros c Hc. destruct c as [[] [] [] [] [] [] [] []]; try discriminate Hc; reflexivity. }
  fold (is_ascii (Str.strip s)).
  destruct (Str.strip s) as [| c r]; [reflexivity |].
  destruct (match String c r with
            | String "-" r0 => (true, r0)
            | String "+" r0 => (false, r0)
            | _ => (false, String c r)
            end) as [negative body] eqn:Hm.
  destruct (int_digits 0 false body) as [m |] eqn:Hbody; [| discriminate H].
  apply int_digits_ascii in Hbody.
  destruct c as [[] [] [] [] [] [] [] []]; injection Hm as _ <-; try exact Hbody;
    unfold is_ascii; cbn [Str.all]; exact Hbody.
Qed.

Lemma int_of_text_inr (w : World) (s : string) (n : Z) :
  int_of_str s = inr n -> int_of_text w s = inr n.
Proof.
  intros H. unfold int_of_text. rewrite (int_of_str_ascii s n H). exact H.
Qed.

(** ** [process_images] once the fields are valid *)

Lemma process_images_valid (w : World) (ow oh b : Z) :
  int_of_str (entry_text w width_entry) = inr ow ->
  int_of_str (entry_text w height_entry) = inr oh ->
  int_of_str (entry_text w border_size_height_entry) = inr b ->
  entry_text w postfix_entry <> "" ->
  process_images all_entries w
  = (save_configuration all_entries None ;;
     input_file_paths <- askopenfilenames "Select Input Images" ;;
     match input_file_paths with
     | [] => ret PyNone
     | _ =>
         output_directory <- askdirectory "Select Output Directory" ;;
         if String.eqb output_directory "" then ret PyNone else
         exists_ <- os_path_exists output_directory ;;
         (if negb exists_ then os_makedirs output_directory else ret tt) ;;
         process_images_loop input_file_paths output_directory
                             ow oh b (entry_text w postfix_entry) ;;
         showinfo "Process Complete" "Process Complete" ;;
         let output_directory := Str.replace "/" "\" output_directory in
         subprocess_Popen ["explorer"; output_directory] ;;
         ret PyNone
     end) w.
Proof.
  intros Hw Hh Hb Hp. unfold process_images.
  unfold bind at 1. unfold try_except. unfold bind at 1.
  rewrite read_fields_run.
  rewrite (int_of_text_inr w _ _ Hw), (int_of_text_inr w _ _ Hh), (int_of_text_inr w _ _ Hb).
  cbn [ebind].
  apply String.eqb_neq in Hp. rewrite Hp. reflexivity.
Qed.

(** What saving the last-used record does to the world. *)
Lemma save_configuration_last_run (w : World) :
  exists w1,
    save_configuration all_entries None w = (inr PyNone, w1)
    /\ user w1 = user w /\ EXTENSION w1 = EXTENSION w /\ can_write w1 = can_write w
    /\ entry_text w1 = entry_text w
    /\ (forall p, p <> last_json_data +:+ ".json" -> fs w1 !! p = fs w !! p).
Proof.
  unfold save_configuration. rewrite bool_decide_eq_false_2 by discriminate.
  rewrite bind_ret.
  unfold bind, Entry_get, try_except, write_json, get_all_config_files,
    set_load_combo_values, showerror, emit, ret.
  unfold last_json_data. cbv beta iota.
  destruct (can_write w _); eexists; (split; [reflexivity |]); repeat split.
  intros p Hp. cbn [fs set_fs set_combo_values]. apply lookup_insert_ne. congruence.
Qed.

(** X15. With valid fields the last-used record is saved first; when the user
    then picks no file, or picks files and then no directory, the call returns
    there: beyond the saving and the one or two dialogs nothing happens, no
    picture is opened and no directory is made. *)
Theorem process_images_nothing_selected (w : World) (ow oh b : Z) :
  int_of_str (entry_text w width_entry) = inr ow ->
  int_of_str (entry_text w height_entry) = inr oh ->
  int_of_str (entry_text w border_size_height_entry) = inr b ->
  entry_text w postfix_entry <> "" ->
  let w1 := (save_configuration all_entries None w).2 in
  reply_filenames (user w1) (length (trace w1)) = []
  \/ reply_directory (user w1) (S (length (trace w1))) = "" ->
  exists dialogs,
    process_images all_entries w = (inr PyNone, set_trace (trace w1 ++ dialogs) w1)
    /\ (dialogs = [AskOpenFilenames "Select Input Images"]
        \/ dialogs = [AskOpenFilenames "Select Input Images";
                      AskDirectory "Select Output Directory"]).
Proof.
  intros Hw Hh Hb Hp w1 Hreply.
  rewrite (process_images_valid w ow oh b Hw Hh Hb Hp).
  destruct (save_configuration_last_run w) as (w1' & Hrun & _).
  assert (Hw1 : w1 = w1') by (unfold w1; rewrite Hrun; reflexivity).
  clearbody w1. subst w1'.
  unfold bind at 1. rewrite Hrun.
  unfold bind at 1. unfold askopenfilenames.
  destruct (reply_filenames (user w1) (length (trace w1))) as [| path rest] eqn:Hfiles.
  - exists [AskOpenFilenames "Select Input Images"]. split; [reflexivity | left; reflexivity].
  - destruct Hreply as [Hnone | Hdir]; [discriminate |].
    unfold bind at 1. unfold askdirectory. cbn [user trace set_trace].
    rewrite length_app, Nat.add_1_r, Hdir.
    exists [AskOpenFilenames "Select Input Images"; AskDirectory "Select Output Directory"].
    split; [| right; reflexivity].
    unfold ret. cbn [String.eqb]. rewrite <- app_assoc. reflexivity.
Qed.

Lemma process_images_nothing_selected_witness :
  let w := Sample.world Sample.two_photos (Sample.fields "800" "1600" "40" "_b")
                        (Sample.person No []) in
  let w1 := (save_configuration all_entries None w).2 in
  exists dialogs,
    process_images all_entries w = (inr PyNone, set_trace (trace w1 ++ dialogs) w1)
    /\ (dialogs = [AskOpenFilenames "Select Input Images"]
        \/ dialogs = [AskOpenFilenames "Select Input Images";
                      AskDirectory "Select Output Directory"]).
Proof.
  intros w.
  apply (process_images_nothing_selected w 800 1600 40).
  - vm_compute. reflexivity.
  - vm_compute. reflexivity.
  - vm_compute. reflexivity.
  - discriminate.
  - left. reflexivity.
Defined.

Lemma replace_absent (a b : ascii) (s : string) :
  a <> b -> Str.all (fun c => negb (Ascii.eqb c a)) (Str.replace a b s) = true.
Proof.
  intros Hab. induction s as [| c s IH]; [reflexivity |].
  cbn [Str.replace Str.all]. rewrite IH, andb_true_r.
  destruct (Ascii.eqb_spec c a) as [-> | Hc].
  - apply negb_true_iff, Ascii.eqb_neq. congruence.
  - apply negb_true_iff, Ascii.eqb_neq. exact Hc.
Qed.

(** X16. With valid fields, files and a directory picked, and the directory
    there or creatable: the record is saved, the two dialogs come up, the
    directory is made when it is missing, and the loop runs. When the loop
    returns, the completion dialog is shown and the file browser is started on
    the directory, written with backslashes only; when a call in the loop
    raises, the exception leaves [process_images] and neither happens. *)
Theorem process_images_complete (w : World) (ow oh b : Z) (paths : list string)
    (dir : string) :
  int_of_str (entry_text w width_entry) = inr ow ->
  int_of_str (entry_text w height_entry) = inr oh ->
  int_of_str (entry_text w border_size_height_entry) = inr b ->
  entry_text w postfix_entry <> "" ->
  let w1 := (save_configuration all_entries None w).2 in
  reply_filenames (user w1) (length (trace w1)) = paths -> paths <> [] ->
  reply_directory (user w1) (S (length (trace w1))) = dir -> dir <> "" ->
  let w2 := set_trace (trace w1 ++ [AskOpenFilenames "Select Input Images";
                                    AskDirectory "Select Output Directory"]) w1 in
  let present := bool_decide (dir ∈ dirs w1) || bool_decide (is_Some (fs w1 !! dir)) in
  present = true \/ can_write w1 dir = true ->
  let w3 := if present then w2 else set_dirs ({[dir]} ∪ dirs w2) w2 in
  process_images all_entries w
  = match process_images_loop paths dir ow oh b (entry_text w postfix_entry) w3 with
    | (inr _, w4) =>
        (inr PyNone,
         set_trace (trace w4 ++ [ShowInfo "Process Complete" "Process Complete";
                                 Popen ["explorer"; Str.replace "/" "\" dir]]) w4)
    | (inl e, w4) => (inl e, w4)
    end
  /\ Str.all (fun c => negb (Ascii.eqb c "/")) (Str.replace "/" "\" dir) = true.
Proof.
  intros Hw Hh Hb Hp w1 Hfiles Hsome Hdir Hnonempty w2 present Hmk w3.
  split; [| apply replace_absent; discriminate].
  rewrite (process_images_valid w ow oh b Hw Hh Hb Hp).
  destruct (save_configuration_last_run w) as (w1' & Hrun & _).
  assert (Hw1 : w1 = w1') by (unfold w1; rewrite Hrun; reflexivity).
  clearbody w1. subst w1'.
  unfold bind at 1. rewrite Hrun.
  unfold bind at 1. unfold askopenfilenames. rewrite Hfiles.
  destruct paths as [| path rest]; [contradiction |].
  unfold bind at 1. unfold askdirectory. cbn [user trace set_trace].
  rewrite length_app, Nat.add_1_r, Hdir.
  apply String.eqb_neq in Hnonempty. rewrite Hnonempty.
  unfold bind at 1. unfold os_path_exists. cbn [dirs fs set_trace].
  fold present. rewrite <- app_assoc.
  change ([AskOpenFilenames "Select Input Images"] ++ [AskDirectory "Select Output Directory"])
    with [AskOpenFilenames "Select Input Images"; AskDirectory "Select Output Directory"].
  change (set_trace (trace w1 ++ [AskOpenFilenames "Select Input Images";
                                  AskDirectory "Select Output Directory"])
            (set_trace (trace w1 ++ [AskOpenFilenames "Select Input Images"]) w1))
    with w2.
  unfold bind at 1. subst w3.
  destruct present; cbn [negb].
  - unfold ret at 1.
    unfold bind at 1.
    destruct (process_images_loop _ _ _ _ _ _ w2) as [[e | []] w4]; [reflexivity |].
    unfold bind, showinfo, subprocess_Popen, emit, ret. cbn [trace set_trace].
    rewrite <- app_assoc. reflexivity.
  - destruct Hmk as [Hfalse | Hcw]; [discriminate |].
    unfold os_makedirs. change (can_write w2 dir) with (can_write w1 dir). rewrite Hcw.
    unfold bind at 1.
    destruct (process_images_loop _ _ _ _ _ _ _) as [[e | []] w4]; [reflexivity |].
    unfold bind, showinfo, subprocess_Popen, emit, ret. cbn [trace set_trace].
    rewrite <- app_assoc. reflexivity.
Qed.

Lemma process_images_complete_witness :
  let w := Sample.world Sample.two_photos (Sample.fields "800" "1600" "40" "_b")
                        (Sample.person No ["C:/in/b.jpg"]) in
  let w1 := (save_configuration all_entries None w).2 in
  let w2 := set_trace (trace w1 ++ [AskOpenFilenames "Select Input Images";
                                    AskDirectory "Select Output Directory"]) w1 in
  let present := bool_decide ("C:/out" ∈ dirs w1) || bool_decide (is_Some (fs w1 !! "C:/out")) in
  let w3 := if present then w2 else set_dirs ({["C:/out"]} ∪ dirs w2) w2 in
  process_images all_entries w
  = match process_images_loop ["C:/in/b.jpg"] "C:/out" 800 1600 40
            (entry_text w postfix_entry) w3 with
    | (inr _, w4) =>
        (inr PyNone,
         set_trace (trace w4 ++ [ShowInfo "Process Complete" "Process Complete";
                                 Popen ["explorer"; Str.replace "/" "\" "C:/out"]]) w4)
    | (inl e, w4) => (inl e, w4)
    end
  /\ Str.all (fun c => negb (Ascii.eqb c "/")) (Str.replace "/" "\" "C:/out") = true.
Proof.
  intros w.
  apply (process_images_complete w 800 1600 40 ["C:/in/b.jpg"] "C:/out").
  - vm_compute. reflexivity.
  - vm_compute. reflexivity.
  - vm_compute. reflexivity.
  - discriminate.
  - reflexivity.
  - discriminate.
  - reflexivity.
  - discriminate.
  - right. reflexivity.
Defined.

(** ** Files that image processing cannot overwrite *)

Lemma Image_save_spares (img : image) path quality dpi (w w0 : World) (p : string) :
  EXTENSION w !! Str.lower (os_path.splitext p).2 = None ->
  fs w0 !! p = fs w !! p -> EXTENSION w0 = EXTENSION w ->
  fs (Image_save img path None quality dpi w0).2 !! p = fs w !! p
  /\ EXTENSION (Image_save img path None quality dpi w0).2 = EXTENSION w.
Proof.
  intros Hext Hfs Hsame. unfold Image_save, save_format. rewrite Hsame.
  destruct (decide (path = p)) as [-> | Hne].
  - rewrite Hext. split; assumption.
  - repeat case_match; cbn [snd fs set_fs EXTENSION]; (split; [| assumption]);
      try assumption; rewrite lookup_insert_ne by exact Hne; assumption.
Qed.

Lemma add_white_border_spares inp outp ow oh b postfix (w : World) (p : string) :
  EXTENSION w !! Str.lower (os_path.splitext p).2 = None ->
  fs (add_white_border inp outp ow oh b postfix w).2 !! p = fs w !! p
  /\ EXTENSION (add_white_border inp outp ow oh b postfix w).2 = EXTENSION w.
Proof.
  intros Hext.
  apply (add_white_border_post (fun w' => fs w' !! p = fs w !! p /\ EXTENSION w' = EXTENSION w)).
  - split; reflexivity.
  - split; reflexivity.
  - intros w0 img dpi Hw0. apply Image_save_spares; [exact Hext | |];
      destruct Hw0 as [-> | ->]; reflexivity.
Qed.

Lemma process_images_loop_spares paths dir ow oh b postfix (w : World) (p : string) :
  EXTENSION w !! Str.lower (os_path.splitext p).2 = None ->
  fs (process_images_loop paths dir ow oh b postfix w).2 !! p = fs w !! p.
Proof.
  revert w. induction paths as [| inp rest IH]; intros w Hext; [reflexivity |].
  cbn [process_images_loop]. unfold bind at 1.
  pose proof (add_white_border_spares inp (os_path.join dir (os_path.basename inp))
                ow oh b postfix w p Hext) as [Hfs Hsame].
  destruct (add_white_border _ _ _ _ _ _ w) as [[e | v] w1]; cbn [snd] in *.
  - exact Hfs.
  - rewrite IH by (rewrite Hsame; exact Hext). exact Hfs.
Qed.

(** X17. A file whose extension is not registered for any image format is out
    of reach of the batch: whatever files are picked, whatever the postfix and
    however the loop ends, the file is afterwards what it was before. The
    records of the configuration store are such files when no format is
    registered for .json. *)
Theorem unregistered_file_spared paths dir ow oh b postfix (w : World) (p : string) :
  EXTENSION w !! Str.lower (os_path.splitext p).2 = None ->
  fs (process_images_loop paths dir ow oh b postfix w).2 !! p = fs w !! p.
Proof. apply process_images_loop_spares. Qed.

(** A picture stored under the name last_config.json, an empty postfix and
    the working directory as the output directory: the path the result
    would be saved to is the record itself. *)
Lemma unregistered_file_spared_witness :
  let w := Sample.world {[ "last_config.json" := JsonFile JOtherValue;
                           "C:/in/last_config.json" := ImageFile (Sample.photo 7 1000 2000
                                                                     "JPEG" None) ]}
             (Sample.fields "" "" "" "") (Sample.person Yes []) in
  fs (process_images_loop ["C:/in/last_config.json"] "" 800 1600 40 "" w).2
     !! "last_config.json"
  = fs w !! "last_config.json".
Proof.
  intros w.
  apply (unregistered_file_spared ["C:/in/last_config.json"] "" 800 1600 40 "" w
           "last_config.json").
  vm_compute. reflexivity.
Defined.

Lemma process_images_spares (w : World) (ow oh b : Z) (p : string) :
  int_of_str (entry_text w width_entry) = inr ow ->
  int_of_str (entry_text w height_entry) = inr oh ->
  int_of_str (entry_text w border_size_height_entry) = inr b ->
  entry_text w postfix_entry <> "" ->
  EXTENSION w !! Str.lower (os_path.splitext p).2 = None ->
  fs (process_images all_entries w).2 !! p
  = fs (save_configuration all_entries None w).2 !! p.
Proof.
  intros Hw Hh Hb Hp Hext.
  rewrite (process_images_valid w ow oh b Hw Hh Hb Hp).
  destruct (save_configuration_last_run w) as (w1 & Hrun & _ & Hsame & _).
  unfold bind at 1. rewrite Hrun. cbn [snd].
  unfold bind at 1. unfold askopenfilenames.
  destruct (reply_filenames _ _) as [| path rest]; [reflexivity |].
  unfold bind at 1. unfold askdirectory.
  destruct (String.eqb _ ""); [reflexivity |].
  unfold bind at 1. unfold os_path_exists.
  set (dir := reply_directory _ _).
  set (w2 := set_trace _ (set_trace _ w1)).
  assert (Hext2 : forall d, EXTENSION (set_dirs d w2) !! Str.lower (os_path.splitext p).2 = None).
  { intros d. cbn [EXTENSION set_dirs set_trace w2]. rewrite Hsame. exact Hext. }
  assert (Hext2' : EXTENSION w2 !! Str.lower (os_path.splitext p).2 = None).
  { cbn [EXTENSION set_trace w2]. rewrite Hsame. exact Hext. }
  unfold bind at 1.
  destruct (negb _).
  - unfold os_makedirs. destruct (can_write w2 dir); [| reflexivity].
    unfold bind at 1.
    pose proof (process_images_loop_spares (path :: rest) dir ow oh b
                  (entry_text w postfix_entry) _ p (Hext2 ({[dir]} ∪ dirs w2))) as Hloop.
    destruct (process_images_loop _ _ _ _ _ _ _) as [[e | []] w4]; cbn [snd] in *;
      exact Hloop.
  - unfold ret at 1. unfold bind at 1.
    pose proof (process_images_loop_spares (path :: rest) dir ow oh b
                  (entry_text w postfix_entry) w2 p Hext2') as Hloop.
    destruct (process_images_loop _ _ _ _ _ _ _) as [[e | []] w4]; cbn [snd] in *;
      exact Hloop.
Qed.

(** ** From one session to the next *)

(** X18. The fields of a run come back when the program is started again.
    [process_images] runs with valid fields and the last-used record can be
    written; whatever the user picks then, and however the batch ends, a later
    start of the program on the files as they are left (no format being
    registered for .json) fills the four new entries with the texts of that
    run, and the dropdown it builds does not offer the last-used record. *)
Theorem session_restart (w w2 : World) (ow oh b : Z) :
  int_of_str (entry_text w width_entry) = inr ow ->
  int_of_str (entry_text w height_entry) = inr oh ->
  int_of_str (entry_text w border_size_height_entry) = inr b ->
  entry_text w postfix_entry <> "" ->
  can_write w (last_json_data +:+ ".json") = true ->
  EXTENSION w !! ".json" = None ->
  fs w2 = fs (process_images all_entries w).2 ->
  exists w3,
    main w2 = (inr tt, w3)
    /\ (forall e : Entries, entry_text w3 (all_entries e) = entry_text w (all_entries e))
    /\ ~ In last_json_data (combo_values w3)
    /\ fs w3 = fs w2.
Proof.
  intros Hw Hh Hb Hp Hcw Hext Hfs.
  pose proof (process_images_spares w ow oh b (last_json_data +:+ ".json") Hw Hh Hb Hp Hext)
    as Hkept.
  rewrite (save_configuration_last_used w Hcw), <- Hfs in Hkept.
  unfold main. unfold bind at 1. unfold new_widgets.
  set (w0 := {| fs := fs w2; dirs := dirs w2; can_write := can_write w2;
                can_encode := can_encode w2; EXTENSION := EXTENSION w2;
                unicode_int := unicode_int w2;
                entry_text := fun _ => ""; combo_text := "";
                combo_values := []; trace := trace w2; user := user w2 |}).
  destruct (load_selected_configuration_object None w0 _ Hkept) as (w3 & Hrun & Hfs3 & _ & Htext).
  { intros []; vm_compute; discriminate. }
  unfold bind at 1. rewrite Hrun.
  unfold bind, get_all_config_files, set_load_combo_values.
  eexists. split; [reflexivity |]. cbn [entry_text combo_values fs set_combo_values].
  split; [| split; [apply last_config_not_listed | exact Hfs3]].
  intros e. rewrite (Htext e). destruct e; reflexivity.
Qed.

Lemma session_restart_witness :
  let w := Sample.world Sample.two_photos (Sample.fields "2000" "1000" "50" "_b")
                        (Sample.person Yes ["C:/in/a.jpg"; "C:/in/b.jpg"]) in
  let w2 := (process_images all_entries w).2 in
  exists w3,
    main w2 = (inr tt, w3)
    /\ (forall e : Entries, entry_text w3 (all_entries e) = entry_text w (all_entries e))
    /\ ~ In last_json_data (combo_values w3)
    /\ fs w3 = fs w2.
Proof.
  intros w w2.
  apply (session_restart w w2 2000 1000 50).
  - vm_compute. reflexivity.
  - vm_compute. reflexivity.
  - vm_compute. reflexivity.
  - discriminate.
  - reflexivity.
  - vm_compute. reflexivity.
  - reflexivity.
Defined.

(** ** Where the results go *)













(** ** The size the picture is resized to *)

Lemma rne_cases (x : Q) :
  (PyFloat.rne x = Qnum x / Zpos (Qden x)
   /\ 2 * (Qnum x mod Zpos (Qden x)) <= Zpos (Qden x))
  \/ (PyFloat.rne x = Qnum x / Zpos (Qden x) + 1
      /\ Zpos (Qden x) <= 2 * (Qnum x mod Zpos (Qden x))).
Proof.
  unfold PyFloat.rne. cbv zeta.
  destruct (Z.compare_spec (2 * (Qnum x mod Zpos (Qden x))) (Zpos (Qden x))) as [He | Hl | Hg].
  - destruct (Z.even _); [left | right]; (split; [reflexivity | lia]).
  - left. split; [reflexivity | lia].
  - right. split; [reflexivity | lia].
Qed.

(** Rounding to the nearest integer does not cross an integer. *)
Lemma rne_le (x : Q) (N : Z) : Qnum x <= N * Zpos (Qden x) -> PyFloat.rne x <= N.
Proof.
  intros H.
  pose proof (Z.div_mod (Qnum x) (Zpos (Qden x)) ltac:(lia)) as E.
  pose proof (Z.mod_pos_bound (Qnum x) (Zpos (Qden x)) ltac:(lia)) as B.
  destruct (rne_cases x) as [[-> _] | [-> Hup]]; nia.
Qed.

Lemma rne_ge (x : Q) (N : Z) : N * Zpos (Qden x) <= Qnum x -> N <= PyFloat.rne x.
Proof.
  intros H.
  pose proof (Z.div_mod (Qnum x) (Zpos (Qden x)) ltac:(lia)) as E.
  pose proof (Z.mod_pos_bound (Qnum x) (Zpos (Qden x)) ltac:(lia)) as B.
  destruct (rne_cases x) as [[-> _] | [-> Hup]]; nia.
Qed.

(** The nearest multiple of [1/T] to [n/d], for a grid finer than [1/d]:
    it stays within the integers around [n/d], and it is the integer below
    exactly when [d] divides [n]. *)
Lemma round_up_bound (n d k T m : Z) :
  0 < d -> 0 < T -> d < 2 * T -> k = n / d ->
  ((m = (n * T) / d /\ 2 * ((n * T) mod d) <= d)
   \/ (m = (n * T) / d + 1 /\ d <= 2 * ((n * T) mod d))) ->
  k * T <= m < (k + 1) * T /\ (m = k * T <-> n mod d = 0).
Proof.
  intros Hd HT HdT Hk Hm.
  pose proof (Z.div_mod n d ltac:(lia)) as E1.
  pose proof (Z.mod_pos_bound n d Hd) as B1.
  pose proof (Z.div_mod (n * T) d ltac:(lia)) as E2.
  pose proof (Z.mod_pos_bound (n * T) d Hd) as B2.
  rewrite <- Hk in E1.
  set (f := (n * T) / d) in *. set (r := (n * T) mod d) in *. set (s := n mod d) in *.
  assert (E3 : d * (k * T) + s * T = d * f + r) by nia.
  assert (Hlo : k * T <= f) by nia.
  assert (Hhi : f < (k + 1) * T) by nia.
  assert (Hupper : m < (k + 1) * T).
  { destruct Hm as [[-> _] | [-> Hr]]; [lia |].
    destruct (Z_lt_le_dec (f + 1) ((k + 1) * T)) as [Hlt | Hge]; [exact Hlt |].
    exfalso.
    assert (Hf : f = (k + 1) * T - 1) by lia.
    assert (Hr2 : r = d - (d - s) * T) by nia.
    assert (1 * T <= (d - s) * T) by (apply Z.mul_le_mono_nonneg_r; lia).
    lia. }
  split; [destruct Hm as [[-> _] | [-> _]]; lia |].
  split.
  - intros Hmk.
    destruct (Z.eq_dec s 0) as [Hs | Hs]; [exact Hs | exfalso].
    assert (Hspos : 1 <= s) by lia.
    assert (1 * T <= s * T) by (apply Z.mul_le_mono_nonneg_r; lia).
    destruct Hm as [[Hmf Hr] | [Hmf Hr]].
    + assert (f = k * T) by lia. assert (r = s * T) by nia. lia.
    + lia.
  - intros Hs. assert (Hf : d * (k * T) = d * f + r) by nia.
    assert (Hfk : f = k * T) by nia. assert (Hr0 : r = 0) by nia.
    destruct Hm as [[-> _] | [_ Hr]]; lia.
Qed.

(** The parts of a reduced fraction. *)
Lemma Qred_parts (a : Z) (p : positive) :
  0 < a ->
  exists g, 0 < g /\ a = g * Qnum (Qred (a # p)) /\ Zpos p = g * Zpos (Qden (Qred (a # p))).
Proof.
  intros Ha. unfold Qred.
  pose proof (Z.ggcd_correct_divisors a (Zpos p)) as Hdiv.
  pose proof (Z.ggcd_gcd a (Zpos p)) as Hg.
  pose proof (Z.gcd_nonneg a (Zpos p)) as Hnn.
  destruct (Z.ggcd a (Zpos p)) as [g [aa bb]]. cbn [fst snd] in *.
  destruct Hdiv as [Ha' Hb']. cbn [Qnum Qden].
  assert (Hg0 : 0 <= g) by lia.
  assert (Hg1 : g <> 0) by (intros ->; discriminate Hb').
  assert (Hbb : 0 < bb).
  { destruct (Z_lt_le_dec 0 bb) as [Hpos | Hneg]; [exact Hpos |].
    exfalso. assert (g * bb <= 0) by nia. lia. }
  exists g. rewrite Z2Pos.id by lia. repeat split; [lia | assumption | assumption].
Qed.

Lemma mag_upper (q : Q) : PyFloat.mag q <= Z.log2 (Z.abs (Qnum q)) - Z.log2 (Zpos (Qden q)) + 1.
Proof. unfold PyFloat.mag. cbv zeta. destruct (Qle_bool _ _); lia. Qed.

(** Fractions that are equal lie between the same integers. *)
Lemma between_cross (x dx y dy k : Z) :
  0 < dx -> 0 < dy -> x * dy = y * dx ->
  k * dy <= y < (k + 1) * dy -> k * dx <= x < (k + 1) * dx.
Proof.
  intros Hdx Hdy Heq [Hlo Hhi]. split.
  - apply (Z.mul_le_mono_pos_r _ _ dy Hdy). nia.
  - apply (Z.mul_lt_mono_pos_r dy _ _ Hdy). nia.
Qed.

Lemma mag_lower (q : Q) : Z.log2 (Z.abs (Qnum q)) - Z.log2 (Zpos (Qden q)) <= PyFloat.mag q.
Proof. unfold PyFloat.mag. cbv zeta. destruct (Qle_bool _ _); lia. Qed.

(** What rounding to the grid of exponent [e <= 0] returns, for a reduced
    fraction that is not zero. *)
Lemma round_on_grid (z : Q) :
  Qnum (Qred z) <> 0 ->
  PyFloat.fexp (PyFloat.mag (Qred z)) <= 0 ->
  let T := 2 ^ (- PyFloat.fexp (PyFloat.mag (Qred z))) in
  let m := PyFloat.rne (Qnum (Qred z) * T # Qden (Qred z)) in
  exists r,
    Qnum r * T = m * Zpos (Qden r)
    /\ PyFloat.round z
       = if Qle_bool (PyFloat.pow2 PyFloat.emax) (Qabs r)
         then PyFloat.Infinity (Qnum (Qred z) <? 0) else PyFloat.Finite r.
Proof.
  intros Hnz He T m. unfold PyFloat.round. cbv zeta.
  destruct (Z.eqb_spec (Qnum (Qred z)) 0) as [Hz | _]; [contradiction |].
  set (q := Qred z) in *. set (e := PyFloat.fexp (PyFloat.mag q)) in *.
  assert (HT : 0 < T) by (apply Z.pow_pos_nonneg; lia).
  assert (Hx : PyFloat.scale2 q (- e) = (Qnum q * T # Qden q)).
  { unfold PyFloat.scale2. rewrite pow2_nonneg by lia. fold T.
    unfold Qmult, inject_Z. cbn [Qnum Qden]. rewrite Pos.mul_1_r. reflexivity. }
  rewrite Hx. fold m.
  set (y := PyFloat.scale2 (inject_Z m) e).
  assert (Hy : Qnum y * T = m * Zpos (Qden y)).
  { unfold y, PyFloat.scale2, PyFloat.pow2.
    destruct (Z.leb_spec 0 e) as [Hge | Hlt].
    - assert (e = 0) by lia. unfold T. replace (- e) with 0 by lia. replace e with 0 by lia.
      cbn. lia.
    - fold T. cbn [Qmult Qnum Qden inject_Z]. rewrite Pos.mul_1_l, Z.mul_1_r.
      rewrite Z2Pos.id by lia. reflexivity. }
  pose proof (Qred_correct y) as Hr. unfold Qeq in Hr.
  exists (Qred y). split; [| reflexivity].
  apply (Z.mul_reg_r _ _ (Zpos (Qden y))); [lia |]. nia.
Qed.

Lemma not_overflow (r : Q) :
  Z.abs (Qnum r) <= 2 ^ 52 * Zpos (Qden r) ->
  Qle_bool (PyFloat.pow2 PyFloat.emax) (Qabs r) = false.
Proof.
  intros Hb. apply not_true_is_false. intros Hc. apply Qle_bool_iff in Hc.
  rewrite pow2_nonneg in Hc by (unfold PyFloat.emax; lia).
  unfold Qle, Qabs, inject_Z in Hc. destruct r as [rn rd]. cbn [Qnum Qden] in *.
  assert (2 * 2 ^ 52 <= 2 ^ PyFloat.emax).
  { change (2 * 2 ^ 52) with (2 ^ 53). apply Z.pow_le_mono_r; unfold PyFloat.emax; lia. }
  assert (2 * 2 ^ 52 * Zpos rd <= 2 ^ PyFloat.emax * Zpos rd)
    by (apply Z.mul_le_mono_nonneg_r; lia).
  lia.
Qed.

(** [a / b] on two [int]s of moderate size: the float lies in the same
    unit interval as the exact quotient, at its lower end exactly when the
    division leaves no rest, and it is a multiple of [2^-E]. *)
Lemma truediv_value (a b : Z) :
  0 <= a < 2 ^ 52 -> 0 < b < 2 ^ 52 ->
  exists r E m,
    PyFloat.int_truediv a b = inr (PyFloat.Finite r)
    /\ (a / b) * Zpos (Qden r) <= Qnum r < (a / b + 1) * Zpos (Qden r)
    /\ (Qnum r = (a / b) * Zpos (Qden r) <-> a mod b = 0)
    /\ 0 <= E <= 104 /\ Qnum r * 2 ^ E = m * Zpos (Qden r).
Proof.
  intros Ha Hb. unfold PyFloat.int_truediv.
  destruct (Z.eqb_spec b 0) as [-> | _]; [lia |].
  destruct b as [| p |]; try lia.
  assert (Hx : (inject_Z a / inject_Z (Zpos p) == a # p)%Q).
  { unfold Qeq, Qdiv, Qmult, Qinv, inject_Z. cbn [Qnum Qden]. lia. }
  rewrite (round_Qeq _ _ Hx). clear Hx.
  destruct (Z.eq_dec a 0) as [-> | Ha0].
  { exists 0%Q, 0, 0. split; [reflexivity |]. cbn [Qnum Qden].
    rewrite Z.div_0_l, Z.mod_0_l by lia. repeat split; lia. }
  destruct (Qred_parts a p ltac:(lia)) as (g & Hg & Han & Hbd).
  set (qr := Qred (a # p)) in *.
  set (n := Qnum qr) in *. set (d := Zpos (Qden qr)) in *.
  assert (Hd : 0 < d) by (unfold d; lia).
  assert (Hn : 0 < n) by nia.
  assert (Hna : n <= a) by nia.
  assert (Hdb : d <= Zpos p) by nia.
  assert (Hk : a / Zpos p = n / d).
  { rewrite Han, Hbd. apply Z.div_mul_cancel_l; lia. }
  assert (Hrest : a mod Zpos p = 0 <-> n mod d = 0).
  { rewrite Han, Hbd, Z.mul_mod_distr_l by lia.
    pose proof (Z.mod_pos_bound n d Hd). split; nia. }
  (* the exponent of the grid *)
  set (e := PyFloat.fexp (PyFloat.mag qr)).
  assert (Hln : 0 <= Z.log2 n < 52).
  { split; [apply Z.log2_nonneg | apply Z.log2_lt_pow2; lia]. }
  assert (Hld : 0 <= Z.log2 d < 52).
  { split; [apply Z.log2_nonneg | apply Z.log2_lt_pow2; lia]. }
  assert (He : - 104 <= e <= - Z.log2 d).
  { pose proof (mag_upper qr) as Hm1. pose proof (mag_lower qr) as Hm2.
    fold n in Hm1, Hm2. fold d in Hm1, Hm2.
    rewrite (Z.abs_eq n) in Hm1, Hm2 by lia.
    unfold e, PyFloat.fexp, PyFloat.prec, PyFloat.emin. lia. }
  destruct (round_on_grid (a # p)) as (r & Hrm & Hround).
  { fold qr. fold n. lia. }
  { fold qr. fold e. lia. }
  fold qr in Hrm, Hround. fold e in Hrm, Hround. fold n in Hrm, Hround.
  set (T := 2 ^ (- e)) in *.
  assert (HT : 0 < T) by (apply Z.pow_pos_nonneg; lia).
  assert (HdT : d < 2 * T).
  { destruct (Z.log2_spec d Hd) as [_ Hup].
    assert (2 ^ Z.succ (Z.log2 d) <= 2 ^ (- e + 1)) by (apply Z.pow_le_mono_r; lia).
    unfold T. rewrite Z.pow_add_r in * by lia. lia. }
  set (m := PyFloat.rne (n * T # Qden qr)) in *.
  pose proof (rne_cases (n * T # Qden qr)) as Hm. cbn [Qnum Qden] in Hm.
  fold d in Hm. fold m in Hm.
  destruct (round_up_bound n d (n / d) T m Hd HT HdT eq_refl Hm) as [Hbounds Hexact].
  assert (Hk0 : 0 <= n / d) by (apply Z.div_pos; lia).
  assert (Hk52 : n / d < 2 ^ 52).
  { apply Z.div_lt_upper_bound; [lia |]. nia. }
  assert (Hrb : n / d * Zpos (Qden r) <= Qnum r < (n / d + 1) * Zpos (Qden r)).
  { split.
    - apply (Z.mul_le_mono_pos_r _ _ T HT). nia.
    - apply (Z.mul_lt_mono_pos_r T _ _ HT). nia. }
  rewrite (not_overflow r) in Hround by nia.
  rewrite Hround. exists r, (- e), m. split; [reflexivity |].
  rewrite Hk. split; [exact Hrb |]. split; [| split; [lia | exact Hrm]].
  rewrite Hrest, <- Hexact. split.
  - intros Hq. apply (Z.mul_reg_r _ _ (Zpos (Qden r))); [lia |]. nia.
  - intros Hq. apply (Z.mul_reg_r _ _ T); [lia |]. nia.
Qed.

Lemma truediv_floor (a b : Z) :
  0 <= a < 2 ^ 52 -> 0 < b < 2 ^ 52 ->
  exists x, PyFloat.int_truediv a b = inr x /\ PyFloat.to_int x = inr (a / b).
Proof.
  intros Ha Hb.
  destruct (truediv_value a b Ha Hb) as (r & E & m & Hrun & Hrb & _).
  exists (PyFloat.Finite r). split; [exact Hrun |].
  assert (Hk0 : 0 <= a / b) by (apply Z.div_pos; lia).
  unfold PyFloat.to_int. f_equal.
  rewrite Z.quot_div_nonneg by nia.
  symmetry. apply (Z.div_unique_pos (Qnum r) (Zpos (Qden r)) (a / b)
                     (Qnum r - (a / b) * Zpos (Qden r))); lia.
Qed.

(** X20. For sizes as pictures have them, the floating-point detour changes
    nothing: on the fixed axis the picture is resized to the target less twice
    the border, and on the other axis to the proportional size rounded down to
    a whole number of pixels. *)
Theorem resize_inner_size (w h ow oh b : Z) :
  0 < w < 2 ^ 52 -> 0 < h < 2 ^ 52 ->
  Z.abs ow < 2 ^ 53 -> Z.abs oh < 2 ^ 53 ->
  let fixed := if w <? h then oh - b * 2 else ow - b * 2 in
  0 <= fixed -> fixed * Z.min w h < 2 ^ 52 ->
  exists rw rh calc,
    resize_geometry w h ow oh b = inr (rw, rh, calc)
    /\ py_int rw = inr (if w <? h then fixed * w / h else fixed)
    /\ py_int rh = inr (if w <? h then fixed else fixed * h / w).
Proof.
  intros Hw Hh How Hoh fixed Hfixed Hbound. unfold resize_geometry.
  subst fixed. destruct (Z.ltb_spec w h) as [Hlt | Hge].
  - rewrite Z.min_l in Hbound by lia.
    destruct (truediv_floor ((oh - b * 2) * w) h ltac:(nia) Hh) as (x & Hx & Hint).
    rewrite Hx. cbn [ebind].
    unfold PyFloat.of_int. rewrite (round_small_int ow How). cbn [ebind].
    do 3 eexists. split; [reflexivity |]. split; [exact Hint | reflexivity].
  - rewrite Z.min_r in Hbound by lia.
    destruct (truediv_floor ((ow - b * 2) * h) w ltac:(nia) Hw) as (x & Hx & Hint).
    rewrite Hx. cbn [ebind].
    unfold PyFloat.of_int. rewrite (round_small_int oh Hoh). cbn [ebind].
    do 3 eexists. split; [reflexivity |]. split; [reflexivity | exact Hint].
Qed.

(** A 4000 x 3000 picture on a canvas of 2000 x 1000 with a border of 50:
    1900 x 1425. *)
Lemma resize_inner_size_witness :
  exists rw rh calc,
    resize_geometry 4000 3000 2000 1000 50 = inr (rw, rh, calc)
    /\ py_int rw = inr 1900
    /\ py_int rh = inr 1425.
Proof.
  apply (resize_inner_size 4000 3000 2000 1000 50); cbn; lia.
Defined.

(** ** Numbers as text, and back *)

Lemma pretty_N_char_digit (d : N) :
  (d < 10)%N -> Ascii.is_nat (pretty_N_char d) = Some (N.to_nat d).
Proof.
  intros Hd.
  assert (H : d = 0%N \/ d = 1%N \/ d = 2%N \/ d = 3%N \/ d = 4%N \/ d = 5%N
              \/ d = 6%N \/ d = 7%N \/ d = 8%N \/ d = 9%N) by lia.
  repeat (destruct H as [-> | H]; [reflexivity |]). subst d. reflexivity.
Qed.

Lemma pretty_N_go_digits (x : N) (s : string) :
  Str.all is_digit s = true -> Str.all is_digit (pretty_N_go x s) = true.
Proof.
  revert s. induction x as [x IH] using (well_founded_induction N.lt_wf_0). intros s Hs.
  destruct (decide (0 < x)%N) as [Hpos | Hzero].
  - rewrite pretty_N_go_step by exact Hpos.
    apply IH; [apply N.div_lt; lia |].
    cbn [Str.all]. rewrite Hs, andb_true_r. unfold is_digit.
    rewrite pretty_N_char_digit by (apply N.mod_lt; lia). reflexivity.
  - replace x with 0%N by lia. rewrite pretty_N_go_0. exact Hs.
Qed.

Lemma int_digits_pretty_N_go (x : N) (s : string) (acc : Z) (b : bool) :
  0 <= acc ->
  exists acc',
    0 <= acc'
    /\ (acc = 0 -> acc' = Z.of_N x)
    /\ int_digits acc b (pretty_N_go x s)
       = int_digits acc' (b || bool_decide (0 < x)%N) s.
Proof.
  revert s acc b. induction x as [x IH] using (well_founded_induction N.lt_wf_0).
  intros s acc b Hacc.
  destruct (decide (0 < x)%N) as [Hpos | Hzero].
  - rewrite pretty_N_go_step by exact Hpos.
    destruct (IH (x `div` 10)%N ltac:(apply N.div_lt; lia)
                (String (pretty_N_char (x `mod` 10)) s) acc b Hacc)
      as (acc1 & Hacc1 & Hval & Hrun).
    rewrite Hrun. cbn [int_digits].
    rewrite pretty_N_char_digit by (apply N.mod_lt; lia).
    rewrite N_nat_Z.
    pose proof (N2Z.is_nonneg (x `mod` 10)) as Hm.
    assert (Hx : Z.of_N x = Z.of_N (x `div` 10) * 10 + Z.of_N (x `mod` 10)).
    { rewrite (N.div_mod x 10) at 1 by lia.
      rewrite N2Z.inj_add, N2Z.inj_mul. change (Z.of_N 10) with 10. ring. }
    exists (acc1 * 10 + Z.of_N (x `mod` 10)).
    split; [generalize dependent (Z.of_N (x `mod` 10)); intros; lia |]. split.
    + intros H0. rewrite (Hval H0), Hx. reflexivity.
    + rewrite (bool_decide_eq_true_2 (0 < x)%N Hpos), orb_true_r. reflexivity.
  - replace x with 0%N by lia. rewrite pretty_N_go_0.
    exists acc. split; [exact Hacc |]. split; [intros ->; reflexivity |].
    rewrite bool_decide_eq_false_2 by lia. rewrite orb_false_r. reflexivity.
Qed.

Lemma lstrip_digits (s : string) : Str.all is_digit s = true -> Str.lstrip s = s.
Proof.
  destruct s as [| c s]; [reflexivity |]. cbn [Str.all Str.lstrip]. intros H.
  apply andb_true_iff in H. destruct H as [Hc _].
  destruct c as [[] [] [] [] [] [] [] []]; try discriminate Hc; reflexivity.
Qed.

Lemma strip_digits (s : string) : Str.all is_digit s = true -> Str.strip s = s.
Proof.
  intros Hs. unfold Str.strip. rewrite (lstrip_digits s Hs).
  rewrite lstrip_digits; [apply rev_involutive |].
  unfold Str.rev. rewrite all_rev_onto, Hs. reflexivity.
Qed.

Lemma int_of_str_digits (s : string) (n : Z) :
  Str.all is_digit s = true -> int_digits 0 false s = Some n ->
  int_of_str s = inr n /\ int_of_str ("-" +:+ s) = inr (- n).
Proof.
  intros Hs Hn. split.
  - unfold int_of_str. rewrite (strip_digits s Hs).
    destruct s as [| c r]; [discriminate Hn |].
    cbn [Str.all] in Hs. apply andb_true_iff in Hs. destruct Hs as [Hc _].
    destruct c as [[] [] [] [] [] [] [] []]; try discriminate Hc; rewrite Hn; reflexivity.
  - unfold int_of_str, Str.strip.
    change (Str.lstrip ("-" +:+ s)) with (String "-" s).
    unfold Str.rev at 2. cbn [Str.rev_onto].
    assert (Hrev : Str.lstrip (Str.rev_onto "-" s) = Str.rev_onto "-" s).
    { destruct s as [| c r]; [discriminate Hn |].
      rewrite (rev_onto_append "-" (String c r)).
      pose proof (all_rev_onto is_digit (String c r) "") as Hall. rewrite Hs in Hall.
      cbn [Str.all andb] in Hall.
      destruct (Str.rev_onto "" (String c r)) as [| a x] eqn:Hx.
      - apply (f_equal String.length) in Hx. cbn [Str.rev_onto] in Hx.
        rewrite rev_onto_append, length_append in Hx. cbn in Hx. lia.
      - change (String a x +:+ "-") with (String a (x +:+ "-")).
        cbn [Str.all] in Hall. apply andb_true_iff in Hall. destruct Hall as [Ha _].
        cbn [Str.lstrip].
        destruct a as [[] [] [] [] [] [] [] []]; try discriminate Ha; reflexivity. }
    rewrite Hrev.
    change (Str.rev_onto "-" s) with (Str.rev_onto "" (String "-" s)).
    fold (Str.rev (String "-" s)). rewrite rev_involutive.
    rewrite Hn. reflexivity.
Qed.

(** X21. The decimal text of an integer, which is what Tk puts into a field
    for a number of a record, is accepted by [int] and read back as that
    integer. *)
Theorem int_of_str_pretty (n : Z) : int_of_str (pretty n) = inr n.
Proof.
  assert (Hpos : forall p : positive,
             Str.all is_digit (pretty (N.pos p)) = true
             /\ int_digits 0 false (pretty (N.pos p)) = Some (Z.pos p)).
  { intros p. unfold pretty, pretty_N.
    destruct (decide (N.pos p = 0%N)) as [Heq | _]; [discriminate Heq |].
    split; [apply pretty_N_go_digits; reflexivity |].
    destruct (int_digits_pretty_N_go (N.pos p) "" 0 false ltac:(lia))
      as (acc' & _ & Hval & Hrun).
    rewrite Hrun, (Hval eq_refl).
    rewrite bool_decide_eq_true_2 by lia. reflexivity. }
  destruct n as [| p | p].
  - reflexivity.
  - destruct (Hpos p) as [Hd Hn]. apply (int_of_str_digits _ _ Hd Hn).
  - destruct (Hpos p) as [Hd Hn]. apply (int_of_str_digits _ _ Hd Hn).
Qed.

(** ** What the written file carries *)

(** X22. What [save] is called with.  A call that returned [True] has
    saved once, to the path with the postfix: an image of the target size
    that carries no metadata of its own (no DPI, no EXIF data), with no
    format named, at quality 100 and with the DPI that PIL read from the
    source.  So the file is written without an EXIF block (the rotation is
    in the pixels, no orientation tag is left to apply it again), in the
    format registered for the lower-cased extension of that path, whatever
    format the source is in. *)
Theorem written_file_metadata inp outp ow oh b postfix (w w' : World) (src : image_file) :
  fs w !! inp = Some (ImageFile src) ->
  add_white_border inp outp ow oh b postfix w = (inr (PyBool true), w') ->
  exists final w2 out,
    (w2 = w \/ w2 = asked outp w)
    /\ Image_save final (new_output_image_path outp postfix) None 100 (file_dpi src) w2
       = (inr tt, w')
    /\ im_size final = (ow, oh) /\ im_dpi final = None /\ im_exif final = ∅
    /\ fs w' !! new_output_image_path outp postfix = Some (ImageFile out)
    /\ file_exif out = ∅
    /\ EXTENSION w !! Str.lower (os_path.splitext (new_output_image_path outp postfix)).2
       = Some (file_format out).
Proof.
  intros Hsrc H.
  destruct (add_white_border_run inp outp ow oh b postfix w w' src Hsrc H)
    as (rwf & rhf & calc & rw & rh & cb & resized & bordered & final & w2
        & Hg & Hrw & Hrh & Hrs & Hcb & Hex & Hfin & Hw2 & Hsave).
  assert (Hbordered : im_dpi bordered = None /\ im_exif bordered = ∅).
  { unfold ImageOps_expand in Hex.
    destruct (if _ <? _ then _ else _) as [left_ top_].
    destruct (im_size resized) as [rw' rh'].
    destruct ((_ <? 0) || (_ <? 0)); [discriminate |].
    injection Hex as <-. split; reflexivity. }
  assert (Hfinal : im_dpi final = None /\ im_exif final = ∅).
  { unfold Image_resize in Hfin. destruct Hbordered as [Hd He].
    case_bool_decide.
    - injection Hfin as <-. split; assumption.
    - destruct ((ow <? 1) || (oh <? 1)); [discriminate |].
      injection Hfin as <-. split; assumption. }
  assert (Hext : EXTENSION w2 = EXTENSION w) by (destruct Hw2 as [-> | ->]; reflexivity).
  pose proof Hsave as Hcall.
  unfold Image_save, save_format in Hsave. rewrite Hext in Hsave.
  destruct (EXTENSION w !! _) as [fmt |]; [| discriminate].
  destruct (can_write w2 _); cbn [negb] in Hsave; [| discriminate].
  destruct (can_encode w2 fmt final _ _); [| discriminate].
  injection Hsave as Hw'.
  exists final, w2. eexists.
  split; [exact Hw2 |]. split; [exact Hcall |].
  split; [exact (Image_resize_size _ _ _ Hfin) |].
  split; [apply Hfinal |]. split; [apply Hfinal |].
  rewrite <- Hw'. cbn [fs set_fs]. rewrite lookup_insert_eq.
  split; [reflexivity |]. split; reflexivity.
Qed.

(** A photograph taken with the camera turned: tag 6, and a .JPG name. *)
Lemma written_file_metadata_witness :
  let src := Sample.photo 9 4000 3000 "JPEG" (Some 6) in
  let w := Sample.world {[ "C:/in/IMG_1.JPG" := ImageFile src ]}
                        (Sample.fields "" "" "" "") (Sample.person Yes []) in
  let w' := (add_white_border "C:/in/IMG_1.JPG" "C:/out\IMG_1.JPG" 800 1600 40 "_b" w).2 in
  exists final w2 out,
    (w2 = w \/ w2 = asked "C:/out\IMG_1.JPG" w)
    /\ Image_save final (new_output_image_path "C:/out\IMG_1.JPG" "_b") None 100
         (file_dpi src) w2
       = (inr tt, w')
    /\ im_size final = (800, 1600) /\ im_dpi final = None /\ im_exif final = ∅
    /\ fs w' !! new_output_image_path "C:/out\IMG_1.JPG" "_b" = Some (ImageFile out)
    /\ file_exif out = ∅
    /\ EXTENSION w !! Str.lower (os_path.splitext
                                   (new_output_image_path "C:/out\IMG_1.JPG" "_b")).2
       = Some (file_format out).
Proof.
  intros src w w'.
  apply (written_file_metadata "C:/in/IMG_1.JPG" "C:/out\IMG_1.JPG" 800 1600 40 "_b" w w' src).
  - vm_compute. reflexivity.
  - vm_compute. reflexivity.
Defined.

(** ** A border that leaves no room *)

(** X23. When twice the border is not less than the target on the fixed axis
    (the height for a portrait picture, the width otherwise), nothing is
    written: the call raises or, if a crop question came up and was declined,
    returns [None]; it never returns [True], and every file is as it was. *)
Theorem border_leaves_no_room inp outp ow oh b postfix (w : World) (src : image_file) :
  fs w !! inp = Some (ImageFile src) ->
  let size := im_size (rotate_by_exif (Image_copy (decoded src))) in
  0 < size.1 -> 0 < size.2 ->
  (if size.1 <? size.2 then oh - b * 2 else ow - b * 2) < 1 ->
  (add_white_border inp outp ow oh b postfix w).1 <> inr (PyBool true)
  /\ fs (add_white_border inp outp ow oh b postfix w).2 = fs w.
Proof.
  intros Hsrc size Hw Hh Hfixed. subst size.
  unfold add_white_border. rewrite (bind_Image_open _ _ _ _ Hsrc).
  set (img := rotate_by_exif (Image_copy (decoded src))) in *.
  destruct (im_size img) as [original_width original_height] eqn:Hsize.
  cbn [fst snd] in *.
  rewrite bind_lift.
  destruct (resize_geometry _ _ _ _ _) as [e | [[resize_width resize_height] calc]] eqn:Hg;
    [split; [discriminate | reflexivity] |].
  pose proof (resize_geometry_fixed_axis _ _ _ _ _ _ _ _ Hg) as Haxis.
  assert (Hstop : forall w0 : World,
             fs w0 = fs w ->
             let run :=
               (rw <- lift (py_int resize_width) ;;
                rh <- lift (py_int resize_height) ;;
                resized_img <- lift (Image_resize img (rw, rh)) ;;
                cb <- lift (PyFloat.to_int calc) ;;
                bordered_img <- lift (ImageOps_expand resized_img
                                        (if original_width <? original_height
                                         then (cb, b) else (b, cb)) "white") ;;
                bordered_img <- lift (Image_resize bordered_img (ow, oh)) ;;
                Image_save bordered_img (new_output_image_path outp postfix)
                           (im_format img) 100 (im_dpi img) ;;
                ret (PyBool true)) w0 in
             run.1 <> inr (PyBool true) /\ fs run.2 = fs w).
  { intros w0 Hfs. cbv zeta. rewrite bind_lift.
    destruct (py_int resize_width) as [e | rw] eqn:Hrw; [split; [discriminate | exact Hfs] |].
    rewrite bind_lift.
    destruct (py_int resize_height) as [e | rh] eqn:Hrh; [split; [discriminate | exact Hfs] |].
    rewrite bind_lift.
    assert (Hresize : exists e, Image_resize img (rw, rh) = inl e).
    { unfold Image_resize. rewrite Hsize.
      destruct (original_width <? original_height).
      - subst resize_height. injection Hrh as <-.
        rewrite bool_decide_eq_false_2 by (intros [= _ Heq]; lia).
        replace (oh - b * 2 <? 1) with true by (symmetry; apply Z.ltb_lt; lia).
        rewrite orb_true_r. eexists. reflexivity.
      - subst resize_width. injection Hrw as <-.
        rewrite bool_decide_eq_false_2 by (intros [= Heq _]; lia).
        replace (ow - b * 2 <? 1) with true by (symmetry; apply Z.ltb_lt; lia).
        eexists. reflexivity. }
    destruct Hresize as [e ->]. split; [discriminate | exact Hfs]. }
  destruct (PyFloat.ltz calc).
  - rewrite bind_bind, bind_askquestion, bind_ret.
    destruct (negb (negb _)); [split; [discriminate | reflexivity] |].
    apply Hstop. reflexivity.
  - rewrite bind_ret. cbn [negb]. apply Hstop. reflexivity.
Qed.

(** A border of 800 on a canvas of 800 x 1600. *)
Lemma border_leaves_no_room_witness :
  let w := Sample.world Sample.two_photos (Sample.fields "" "" "" "")
                        (Sample.person Yes []) in
  (add_white_border "C:/in/b.jpg" "C:/out\b.jpg" 800 1600 800 "_b" w).1 <> inr (PyBool true)
  /\ fs (add_white_border "C:/in/b.jpg" "C:/out\b.jpg" 800 1600 800 "_b" w).2 = fs w.
Proof.
  intros w.
  apply (border_leaves_no_room "C:/in/b.jpg" "C:/out\b.jpg" 800 1600 800 "_b" w
           (Sample.photo 2 1000 2000 "JPEG" None)).
  - vm_compute. reflexivity.
  - vm_compute. reflexivity.
  - vm_compute. reflexivity.
  - vm_compute. reflexivity.
Defined.

(** ** When the crop question comes up *)

(** Rounding a fraction of moderate size: no overflow, the sign is kept,
    and what is at most [-2^-c] stays at most [-2^-c]. *)
Lemma round_small (z : Q) :
  Z.abs (Qnum z) < 2 ^ 52 * Zpos (Qden z) ->
  exists r,
    PyFloat.round z = PyFloat.Finite r
    /\ Z.abs (Qnum r) <= 2 ^ 52 * Zpos (Qden r)
    /\ (0 <= Qnum z -> 0 <= Qnum r)
    /\ (forall c, 0 <= c <= 1074 -> Qnum z * 2 ^ c <= - Zpos (Qden z) ->
        Qnum r * 2 ^ c <= - Zpos (Qden r)).
Proof.
  intros Hb.
  pose proof (Qred_correct z) as Hq. unfold Qeq in Hq.
  destruct (Z.eq_dec (Qnum (Qred z)) 0) as [Hz | Hnz].
  { exists 0%Q. unfold PyFloat.round. cbv zeta. rewrite Hz. cbn [Z.eqb Qnum Qden].
    split; [reflexivity |]. split; [lia |]. split; [lia |].
    intros c Hc Hneg. exfalso. rewrite Hz in Hq.
    assert (Qnum z = 0) by nia.
    assert (0 < 2 ^ c) by (apply Z.pow_pos_nonneg; lia). nia. }
  set (q := Qred z) in *. set (nq := Qnum q) in *. set (dq := Zpos (Qden q)) in *.
  set (dz := Zpos (Qden z)) in *.
  assert (Hdq : 0 < dq) by (unfold dq; lia).
  assert (Hdz : 0 < dz) by (unfold dz; lia).
  assert (Hbq : Z.abs nq < 2 ^ 52 * dq).
  { apply (Z.mul_lt_mono_pos_r dz _ _ Hdz).
    replace (Z.abs nq * dz) with (Z.abs (Qnum z) * dq)
      by (rewrite <- (Z.abs_eq dz), <- (Z.abs_eq dq), <- !Z.abs_mul by lia; f_equal; lia).
    nia. }
  set (ln := Z.log2 (Z.abs nq)). set (ld := Z.log2 dq).
  assert (Hnpos : 0 < Z.abs nq) by lia.
  destruct (Z.log2_spec (Z.abs nq) Hnpos) as [Hln1 Hln2]. fold ln in Hln1, Hln2.
  destruct (Z.log2_spec dq Hdq) as [Hld1 Hld2]. fold ld in Hld1, Hld2.
  assert (Hln0 : 0 <= ln) by apply Z.log2_nonneg.
  assert (Hld0 : 0 <= ld) by apply Z.log2_nonneg.
  assert (Hlnld : ln <= 52 + ld).
  { assert (Z.abs nq < 2 ^ (ld + 53)).
    { replace (ld + 53) with (52 + Z.succ ld) by lia.
      rewrite Z.pow_add_r by lia. nia. }
    unfold ln. assert (Z.log2 (Z.abs nq) < ld + 53) by (apply Z.log2_lt_pow2; lia). lia. }
  pose proof (mag_upper q) as Hmag. fold nq in Hmag. fold dq in Hmag.
  fold ln in Hmag. fold ld in Hmag.
  set (e := PyFloat.fexp (PyFloat.mag q)).
  assert (He : e <= 0 /\ (- 1074 <= e) /\ (e = - 1074 \/ 52 - ln + ld <= - e)).
  { unfold e, PyFloat.fexp, PyFloat.prec, PyFloat.emin. lia. }
  destruct (round_on_grid z) as (r & Hrm & Hround).
  { exact Hnz. }
  { fold q. fold e. lia. }
  fold q in Hrm, Hround. fold e in Hrm, Hround. fold nq in Hrm, Hround.
  set (T := 2 ^ (- e)) in *.
  assert (HT : 0 < T) by (apply Z.pow_pos_nonneg; lia).
  set (m := PyFloat.rne (nq * T # Qden q)) in *.
  assert (Hm1 : m <= 2 ^ 52 * T).
  { apply rne_le. cbn [Qnum Qden]. fold dq. nia. }
  assert (Hm2 : - (2 ^ 52 * T) <= m).
  { apply rne_ge. cbn [Qnum Qden]. fold dq. nia. }
  set (nr := Qnum r) in *. set (dr := Zpos (Qden r)) in *.
  assert (Hdr : 0 < dr) by (unfold dr; lia).
  assert (Hrb : Z.abs nr <= 2 ^ 52 * dr).
  { apply (Z.mul_le_mono_pos_r _ _ T HT).
    replace (Z.abs nr * T) with (Z.abs m * dr)
      by (rewrite <- (Z.abs_eq T), <- (Z.abs_eq dr), <- !Z.abs_mul by lia; f_equal; lia).
    nia. }
  rewrite (not_overflow r Hrb) in Hround.
  exists r. split; [exact Hround |]. split; [exact Hrb |]. split.
  - intros Hz0. assert (0 <= nq) by nia.
    assert (0 <= m) by (apply rne_ge; cbn [Qnum Qden]; nia).
    fold nr. nia.
  - intros c Hc Hneg. fold nr. fold dr.
    assert (H2c : 0 < 2 ^ c) by (apply Z.pow_pos_nonneg; lia).
    assert (Hnegq : nq * 2 ^ c <= - dq).
    { apply (Z.mul_le_mono_pos_r _ _ dz Hdz). nia. }
    destruct (Z_le_gt_dec c (- e)) as [Hce | Hce].
    + set (P := 2 ^ (- e - c)).
      assert (HP : 0 < P) by (apply Z.pow_pos_nonneg; lia).
      assert (HTP : T = 2 ^ c * P).
      { unfold T, P. rewrite <- Z.pow_add_r by lia. f_equal. lia. }
      assert (Hm : m <= - P).
      { apply rne_le. cbn [Qnum Qden]. fold dq. rewrite HTP. nia. }
      apply (Z.mul_le_mono_pos_r _ _ P HP). nia.
    + assert (Hexp : 52 - ln + ld <= - e) by lia.
      assert (Hpow : 2 ^ (52 - ln + ld) <= T).
      { unfold T. apply Z.pow_le_mono_r; lia. }
      assert (Hbig : dq <= Z.abs nq * T).
      { assert (2 ^ ln * 2 ^ (52 - ln + ld) <= Z.abs nq * T)
          by (apply Z.mul_le_mono_nonneg; lia).
        rewrite <- Z.pow_add_r in H by lia.
        replace (ln + (52 - ln + ld)) with (51 + Z.succ ld) in H by lia.
        rewrite Z.pow_add_r in H by lia.
        assert (0 < 2 ^ 51) by (apply Z.pow_pos_nonneg; lia). nia. }
      assert (Hnq : nq < 0) by nia.
      assert (Hm : m <= - 1).
      { apply rne_le. cbn [Qnum Qden]. fold dq. lia. }
      set (P := 2 ^ (c + e)).
      assert (HP : 1 <= P).
      { unfold P. change 1 with (2 ^ 0). apply Z.pow_le_mono_r; lia. }
      assert (H2cT : 2 ^ c = T * P).
      { unfold T, P. rewrite <- Z.pow_add_r by lia. f_equal. lia. }
      rewrite H2cT. nia.
Qed.

(** The sign of the border that is left: [(c - a / b) / 2] in floating
    point is negative exactly when [c < a / b] in the rationals. *)
Lemma border_sign (a b c : Z) :
  0 <= a < 2 ^ 50 -> 0 < b < 2 ^ 52 -> Z.abs c < 2 ^ 50 ->
  exists x cf,
    PyFloat.int_truediv a b = inr x /\ PyFloat.of_int c = inr cf
    /\ PyFloat.ltz (PyFloat.half (PyFloat.sub cf x)) = (c * b <? a).
Proof.
  intros Ha Hb Hc.
  destruct (truediv_value a b ltac:(lia) Hb) as (r & E & m & Hrun & Hrb & Hexact & HE & Hgrid).
  exists (PyFloat.Finite r), (PyFloat.Finite (inject_Z c)).
  split; [exact Hrun |]. split.
  { unfold PyFloat.of_int. rewrite round_small_int by lia. reflexivity. }
  set (k := a / b) in *. set (nr := Qnum r) in *. set (dr := Zpos (Qden r)) in *.
  assert (Hdr : 0 < dr) by (unfold dr; lia).
  assert (Hk0 : 0 <= k) by (apply Z.div_pos; lia).
  assert (Hk50 : k < 2 ^ 50).
  { apply Z.div_lt_upper_bound; [lia |]. nia. }
  pose proof (Z.div_mod a b ltac:(lia)) as Hdiv. fold k in Hdiv.
  pose proof (Z.mod_pos_bound a b ltac:(lia)) as Hmod.
  cbn [PyFloat.sub].
  set (z := (inject_Z c - r)%Q).
  assert (Hnz : Qnum z = c * dr - nr).
  { unfold z, Qminus, Qplus, Qopp, inject_Z. cbn [Qnum Qden]. fold nr. fold dr. lia. }
  assert (Hdz : Zpos (Qden z) = dr).
  { unfold z, Qminus, Qplus, Qopp, inject_Z. cbn [Qnum Qden]. reflexivity. }
  assert (Hzb : Z.abs (Qnum z) < 2 ^ 52 * Zpos (Qden z)).
  { rewrite Hnz, Hdz. change (2 ^ 52) with (4 * 2 ^ 50).
    assert (Z.abs c * dr < 2 ^ 50 * dr) by (apply Z.mul_lt_mono_pos_r; lia).
    assert (Z.abs (c * dr) = Z.abs c * dr) by (rewrite Z.abs_mul, (Z.abs_eq dr); lia).
    assert (nr < 2 ^ 50 * dr + dr) by nia.
    lia. }
  destruct (round_small z Hzb) as (y & Hy & Hyb & Hypos & Hyneg).
  rewrite Hy. cbn [PyFloat.half].
  set (z2 := (y / 2)%Q).
  assert (Hnz2 : Qnum z2 = Qnum y).
  { unfold z2, Qdiv, Qmult, Qinv. cbn [Qnum Qden]. lia. }
  assert (Hdz2 : Zpos (Qden z2) = 2 * Zpos (Qden y)).
  { unfold z2, Qdiv, Qmult, Qinv. cbn [Qnum Qden]. lia. }
  assert (Hz2b : Z.abs (Qnum z2) < 2 ^ 52 * Zpos (Qden z2)).
  { rewrite Hnz2, Hdz2. lia. }
  destruct (round_small z2 Hz2b) as (calc & Hcalc & _ & Hcpos & Hcneg).
  rewrite Hcalc. cbn [PyFloat.ltz].
  destruct (Z.ltb_spec (c * b) a) as [Hlt | Hge].
  - (* the picture is larger than the canvas *)
    assert (Hsmall : c * dr < nr).
    { destruct (Z_lt_le_dec c k) as [Hck | Hck]; [nia |].
      assert (c = k) by nia. subst c.
      assert (a mod b <> 0) by lia.
      assert (nr <> k * dr) by (rewrite Hexact; assumption).
      lia. }
    assert (H2E : 0 < 2 ^ E) by (apply Z.pow_pos_nonneg; lia).
    assert (Hz : Qnum z * 2 ^ E <= - Zpos (Qden z)).
    { rewrite Hnz, Hdz.
      assert (Hcm : c * 2 ^ E < m).
      { apply (Z.mul_lt_mono_pos_r dr _ _ Hdr). nia. }
      nia. }
    pose proof (Hyneg E ltac:(lia) Hz) as Hy1.
    assert (Hz2 : Qnum z2 * 2 ^ (E + 1) <= - Zpos (Qden z2)).
    { rewrite Hnz2, Hdz2, Z.pow_add_r by lia. lia. }
    pose proof (Hcneg (E + 1) ltac:(lia) Hz2) as Hc1.
    assert (0 < 2 ^ (E + 1)) by (apply Z.pow_pos_nonneg; lia).
    apply Z.ltb_lt. nia.
  - (* it fits *)
    assert (Hfits : nr <= c * dr).
    { destruct (Z_le_gt_dec c k) as [Hck | Hck]; [| nia].
      assert (c = k) by nia. subst c.
      assert (a mod b = 0) by lia.
      assert (nr = k * dr) by (rewrite Hexact; assumption).
      lia. }
    assert (0 <= Qnum y) by (apply Hypos; lia).
    assert (0 <= Qnum calc) by (apply Hcpos; lia).
    apply Z.ltb_ge. assumption.
Qed.

(** X24. When the crop question comes up. For sizes as pictures have them, the
    floating-point border is negative, and the question is asked, exactly when
    the picture resized to the fixed axis is larger than the canvas on the
    other axis, in exact arithmetic: for a portrait picture of w x h, when
    (target height - 2 border) * w > target width * h. Then the question is
    the one thing shown; otherwise nothing is shown. *)
Theorem crop_question_condition inp outp ow oh b postfix (w : World) (src : image_file) :
  fs w !! inp = Some (ImageFile src) ->
  let size := im_size (rotate_by_exif (Image_copy (decoded src))) in
  0 < size.1 < 2 ^ 52 -> 0 < size.2 < 2 ^ 52 ->
  Z.abs ow < 2 ^ 50 -> Z.abs oh < 2 ^ 50 ->
  let fixed := if size.1 <? size.2 then oh - b * 2 else ow - b * 2 in
  0 <= fixed -> fixed * Z.min size.1 size.2 < 2 ^ 50 ->
  let crops := if size.1 <? size.2 then ow * size.2 <? fixed * size.1
               else oh * size.1 <? fixed * size.2 in
  trace (add_white_border inp outp ow oh b postfix w).2
  = if crops
    then trace w ++ [AskQuestion "Proceed?" (crop_question (os_path.splitext outp).1)]
    else trace w.
Proof.
  intros Hsrc size Hw Hh How Hoh fixed Hfixed Hbound crops.
  assert (Hg : exists rw rh calc,
             resize_geometry size.1 size.2 ow oh b = inr (rw, rh, calc)
             /\ PyFloat.ltz calc = crops).
  { unfold resize_geometry, crops, fixed in *.
    destruct (Z.ltb_spec size.1 size.2) as [Hlt | Hge].
    - rewrite Z.min_l in Hbound by lia.
      destruct (border_sign ((oh - b * 2) * size.1) size.2 ow ltac:(nia) Hh How)
        as (x & cf & Hx & Hcf & Hsign).
      rewrite Hx, Hcf. cbn [ebind]. do 3 eexists. split; [reflexivity | exact Hsign].
    - rewrite Z.min_r in Hbound by lia.
      destruct (border_sign ((ow - b * 2) * size.2) size.1 oh ltac:(nia) Hw Hoh)
        as (x & cf & Hx & Hcf & Hsign).
      rewrite Hx, Hcf. cbn [ebind]. do 3 eexists. split; [reflexivity | exact Hsign]. }
  destruct Hg as (rw & rh & calc & Hg & Hsign).
  destruct crops.
  - apply (add_white_border_crop_question inp outp ow oh b postfix w src rw rh calc
             Hsrc Hg Hsign).
  - apply (add_white_border_no_question inp outp ow oh b postfix w src rw rh calc
             Hsrc Hg Hsign).
Qed.

(** The landscape photograph on a 2000 x 1000 canvas with a border of 50:
    1900 * 3000 > 1000 * 4000. *)
Lemma crop_question_condition_witness :
  let w := Sample.world Sample.two_photos (Sample.fields "" "" "" "")
                        (Sample.person Yes []) in
  trace (add_white_border "C:/in/a.jpg" "C:/out\a.jpg" 2000 1000 50 "_b" w).2
  = trace w ++ [AskQuestion "Proceed?" (crop_question (os_path.splitext "C:/out\a.jpg").1)].
Proof.
  intros w.
  apply (crop_question_condition "C:/in/a.jpg" "C:/out\a.jpg" 2000 1000 50 "_b" w
           (Sample.photo 1 4000 3000 "JPEG" None)).
  - vm_compute. reflexivity.
  - vm_compute. split; reflexivity.
  - vm_compute. split; reflexivity.
  - vm_compute. reflexivity.
  - vm_compute. reflexivity.
  - vm_compute. discriminate.
  - vm_compute. reflexivity.
Defined.
